(** * smart_imventory: the stock ledger, invoice totals and stats of
      [backend/app.py], embedded in Rocq.

    The Flask handlers work on Mongita documents, which are Python dicts.
    The embedding keeps that shape: a document is an association list from
    field names to Python values, a collection is the list of its documents
    in insertion order, and a handler is a function from the three
    collections to the new collections and the HTTP response.  A write
    goes through the BSON encoder of the store and raises when the
    document cannot be encoded.  Python's [float] is IEEE binary64,
    modelled with [SpecFloat]; text is modelled with 8-bit characters. *)

From Stdlib Require Import ZArith NArith List String Ascii Bool Lia SpecFloat.
From Stdlib Require Import Permutation Sorted.
Import ListNotations.
Local Open Scope string_scope.
Local Open Scope list_scope.
Local Open Scope Z_scope.

(** ** Python floats (binary64) *)

Module PyFloat.

Definition prec : Z := 53.
Definition emax : Z := 1024.

Definition float := spec_float.

Definition fadd : float -> float -> float := SFadd prec emax.
Definition fsub : float -> float -> float := SFsub prec emax.
Definition fmul : float -> float -> float := SFmul prec emax.
Definition fdiv : float -> float -> float := SFdiv prec emax.

(** The double nearest to an integer (ties to even); an infinity when the
    integer is out of range. *)
Definition of_Z (z : Z) : float := binary_normalize prec emax z 0 false.

Definition pzero : float := S754_zero false.
Definition hundred : float := of_Z 100.

(** [b > a] on floats: false as soon as a NaN is involved. *)
Definition fgtb (b a : float) : bool :=
  match SFcompare b a with Some Gt => true | _ => false end.

(** [max(a, b)]: Python keeps [a] unless [b > a]. *)
Definition fmax (a b : float) : float := if fgtb b a then b else a.

Definition is_zero (f : float) : bool :=
  match f with S754_zero _ => true | _ => false end.

Definition is_finite (f : float) : bool :=
  match f with S754_zero _ | S754_finite _ _ _ => true | _ => false end.

(** The double nearest to [n / d], for a sign and two positive integers. *)
Definition of_ratio (s : bool) (n d : positive) : float :=
  fdiv (S754_finite s n 0) (S754_finite false d 0).

(** A quotient rounded to the nearest integer, ties to even. *)
Definition div_half_even (n d : Z) : Z :=
  let q := n / d in
  let r := n mod d in
  match 2 * r ?= d with
  | Lt => q
  | Gt => q + 1
  | Eq => if Z.even q then q else q + 1
  end.

(** [round(x, 2)]: the exact value of [x] is rounded to two decimals, ties
    to even, and the double nearest to that decimal is returned.  Zeros,
    infinities and NaN round to themselves, and so does a double that is an
    integer. *)
Definition round2 (x : float) : float :=
  match x with
  | S754_finite s m e =>
      if 0 <=? e then x
      else
        match div_half_even (100 * Zpos m) (2 ^ (- e)) with
        | Zpos n => of_ratio s n 100
        | _ => S754_zero s
        end
  | _ => x
  end.

(** [int(x)] for a float: truncation towards zero. *)
Definition trunc (x : float) : option Z :=
  match x with
  | S754_zero _ => Some 0
  | S754_finite s m e =>
      let a := if 0 <=? e then Zpos m * 2 ^ e else Zpos m / 2 ^ (- e) in
      Some (if s then - a else a)
  | _ => None
  end.

(** The integer a float is equal to, when it is one. *)
Definition exact_Z (x : float) : option Z :=
  match x with
  | S754_zero _ => Some 0
  | S754_finite s m e =>
      if 0 <=? e then Some (cond_Zopp s (Zpos m * 2 ^ e))
      else if Zpos m mod 2 ^ (- e) =? 0
           then Some (cond_Zopp s (Zpos m / 2 ^ (- e)))
           else None
  | _ => None
  end.

End PyFloat.
Import PyFloat.

(** ** Python values, exceptions and the builtins the handlers call *)

Inductive exn : Set :=
  | ValueError | TypeError | OverflowError | AttributeError
  | InvalidDocument.

Inductive result (A : Type) : Type :=
  | Ok (a : A)
  | Raise (e : exn).
Arguments Ok {A} a.
Arguments Raise {A} e.

Definition rbind {A B} (r : result A) (k : A -> result B) : result B :=
  match r with Ok a => k a | Raise e => Raise e end.

Declare Scope result_scope.
Delimit Scope result_scope with result.
Notation "x <- r ;; k" := (rbind r (fun x => k))
  (at level 100, r at next level, right associativity) : result_scope.

(** A BSON ObjectId is a string of bytes, twelve of them when the store
    made it, and it is kept as a number: twelve bytes as the number they
    spell, below [2^96].  [ObjectId(str)] also builds ids of fewer bytes
    (see [ObjectId_of]); those are numbered from [2^96] up, so that they
    are equal to no id of twelve bytes. *)
Definition ObjectId := N.

#[local] Set Warnings "-register-all".
Inductive value : Type :=
  | VNone
  | VBool (b : bool)
  | VInt (z : Z)
  | VFloat (f : float)
  | VStr (s : string)
  | VList (l : list value)
  | VDict (d : list (string * value))
  | VOid (o : ObjectId)
  | VDate (t : Z).

(** A document (and a JSON object): fields in insertion order. *)
Definition dict := list (string * value).

(** [bool(v)] *)
Definition truthy (v : value) : bool :=
  match v with
  | VNone => false
  | VBool b => b
  | VInt z => negb (z =? 0)
  | VFloat f => negb (is_zero f)
  | VStr s => negb (String.eqb s "")
  | VList l => match l with [] => false | _ => true end
  | VDict d => match d with [] => false | _ => true end
  | VOid _ => true
  | VDate _ => true
  end.

(** [a or b] *)
Definition por (a b : value) : value := if truthy a then a else b.

(** [d.get(k)] on a dict: [None] when the key is missing. *)
Fixpoint dict_get (k : string) (d : dict) : value :=
  match d with
  | [] => VNone
  | (k', v) :: d' => if String.eqb k k' then v else dict_get k d'
  end.

(** [k in d] *)
Fixpoint dict_mem (k : string) (d : dict) : bool :=
  match d with
  | [] => false
  | (k', _) :: d' => String.eqb k k' || dict_mem k d'
  end.

(** [d[k] = v]: an existing key keeps its place, a new one goes last. *)
Fixpoint dict_set (k : string) (v : value) (d : dict) : dict :=
  match d with
  | [] => [(k, v)]
  | (k', v') :: d' =>
      if String.eqb k k' then (k', v) :: d' else (k', v') :: dict_set k v d'
  end.

(** [d.update(u)], which is what Mongita's [$set] does to a document. *)
Definition dict_update (u d : dict) : dict :=
  fold_left (fun acc kv => dict_set (fst kv) (snd kv) acc) u d.

(** [v.get(k)] on any value: only a dict has the method. *)
Definition py_get (v : value) (k : string) : result value :=
  match v with
  | VDict d => Ok (dict_get k d)
  | _ => Raise AttributeError
  end.

(** [for x in v]: lists give their elements, dicts their keys, strings
    their characters; nothing else is iterable. *)
Definition py_iter (v : value) : result (list value) :=
  match v with
  | VList l => Ok l
  | VDict d => Ok (map (fun kv => VStr (fst kv)) d)
  | VStr s => Ok (map (fun c => VStr (String c EmptyString)) (list_ascii_of_string s))
  | _ => Raise TypeError
  end.

(** *** Numeric literals in strings *)

Definition is_space (c : ascii) : bool :=
  let n := N_of_ascii c in
  (((9 <=? n) && (n <=? 13)) || ((28 <=? n) && (n <=? 32)))%N.

Fixpoint lstrip (l : list ascii) : list ascii :=
  match l with
  | c :: l' => if is_space c then lstrip l' else l
  | [] => []
  end.

Definition strip (l : list ascii) : list ascii :=
  rev (lstrip (rev (lstrip l))).

Definition digit_of (c : ascii) : option Z :=
  let n := Z.of_N (N_of_ascii c) in
  if (48 <=? n) && (n <=? 57) then Some (n - 48) else None.

(** The rest of a run of digits in which single underscores may separate
    digits: the value so far, the number of digits read, what is left. *)
Fixpoint digits_tail (acc cnt : Z) (l : list ascii) : Z * Z * list ascii :=
  match l with
  | [] => (acc, cnt, [])
  | c :: l' =>
      match digit_of c with
      | Some d => digits_tail (10 * acc + d) (cnt + 1) l'
      | None =>
          if Ascii.eqb c "_" then
            match l' with
            | c2 :: l'' =>
                match digit_of c2 with
                | Some d => digits_tail (10 * acc + d) (cnt + 1) l''
                | None => (acc, cnt, l)
                end
            | [] => (acc, cnt, l)
            end
          else (acc, cnt, l)
      end
  end.

Definition digits (l : list ascii) : option (Z * Z * list ascii) :=
  match l with
  | c :: l' =>
      match digit_of c with
      | Some d => Some (digits_tail d 1 l')
      | None => None
      end
  | [] => None
  end.

Definition sign_of (l : list ascii) : bool * list ascii :=
  match l with
  | c :: l' =>
      if Ascii.eqb c "-" then (true, l')
      else if Ascii.eqb c "+" then (false, l')
      else (false, l)
  | [] => (false, [])
  end.

(** [int(s)] for a string, base ten, over ASCII: optional white space,
    a sign, digits with single underscores between them. *)
Definition int_of_string (s : string) : option Z :=
  let '(neg, l) := sign_of (strip (list_ascii_of_string s)) in
  match digits l with
  | Some (n, _, []) => Some (if neg then - n else n)
  | _ => None
  end.

(** The lower-case form of an ASCII letter; every other character is
    left as it is. *)
Definition lower (c : ascii) : ascii :=
  let n := N_of_ascii c in
  if ((65 <=? n) && (n <=? 90))%N then ascii_of_N (n + 32) else c.

Definition is_word (w : string) (l : list ascii) : bool :=
  String.eqb (string_of_list_ascii (map lower l)) w.

(** The double nearest to [m * 10^e]. *)
Definition of_decimal (neg : bool) (m e : Z) : float :=
  match m with
  | Zpos p =>
      if 0 <=? e then of_Z (cond_Zopp neg (m * 10 ^ e))
      else of_ratio neg p (Z.to_pos (10 ^ (- e)))
  | _ => S754_zero neg
  end.

(** An optional exponent part; nothing may follow it. *)
Definition exponent_of (l : list ascii) : option Z :=
  match l with
  | [] => Some 0
  | c :: l' =>
      if Ascii.eqb (lower c) "e" then
        let '(neg, l'') := sign_of l' in
        match digits l'' with
        | Some (n, _, []) => Some (if neg then - n else n)
        | _ => None
        end
      else None
  end.

(** The fraction after the point: its digits, how many, and the rest. *)
Definition fraction_of (l : list ascii) : Z * Z * list ascii :=
  match l with
  | c :: l' =>
      if Ascii.eqb c "." then
        match digits l' with
        | Some r => r
        | None => (0, 0, l')
        end
      else (0, -1, l)
  | [] => (0, -1, [])
  end.

(** [float(s)] for a string: decimal literals, infinities and NaN. *)
Definition float_of_string (s : string) : option float :=
  let '(neg, l) := sign_of (strip (list_ascii_of_string s)) in
  if is_word "inf" l || is_word "infinity" l then Some (S754_infinity neg)
  else if is_word "nan" l then Some S754_nan
  else
    let '(ip, icnt, l1) :=
      match digits l with Some r => r | None => (0, 0, l) end in
    let '(fp, fcnt, l2) := fraction_of l1 in
    let fdig := Z.max 0 fcnt in
    if icnt + fdig =? 0 then None
    else
      match exponent_of l2 with
      | Some ex => Some (of_decimal neg (ip * 10 ^ fdig + fp) (ex - fdig))
      | None => None
      end.

(** *** [int()] and [float()] *)

Definition int_to_float (z : Z) : result float :=
  match of_Z z with
  | S754_infinity _ => Raise OverflowError
  | f => Ok f
  end.

Definition py_int (v : value) : result Z :=
  match v with
  | VInt z => Ok z
  | VBool b => Ok (if b then 1 else 0)
  | VFloat f =>
      match f with
      | S754_nan => Raise ValueError
      | S754_infinity _ => Raise OverflowError
      | _ => match trunc f with Some z => Ok z | None => Raise ValueError end
      end
  | VStr s =>
      match int_of_string s with Some z => Ok z | None => Raise ValueError end
  | _ => Raise TypeError
  end.

Definition py_float (v : value) : result float :=
  match v with
  | VFloat f => Ok f
  | VInt z => int_to_float z
  | VBool b => Ok (of_Z (if b then 1 else 0))
  | VStr s =>
      match float_of_string s with Some f => Ok f | None => Raise ValueError end
  | _ => Raise TypeError
  end.

(** [x * n] for a float and an int: the int is converted first. *)
Definition fmul_int (x : float) (n : Z) : result float :=
  (y <- int_to_float n ;; Ok (fmul x y))%result.

(** [n * x] for an int and a float. *)
Definition int_fmul (n : Z) (x : float) : result float :=
  (y <- int_to_float n ;; Ok (fmul y x))%result.

(** *** ObjectId *)

Definition hex_of (c : ascii) : option N :=
  let n := N_of_ascii (lower c) in
  if ((48 <=? n) && (n <=? 57))%N then Some (n - 48)%N
  else if ((97 <=? n) && (n <=? 102))%N then Some (n - 87)%N
  else None.

(** The number a run of hexadecimal digits spells, after [acc]. *)
Fixpoint hex_value (acc : N) (l : list ascii) : option N :=
  match l with
  | [] => Some acc
  | c :: l' =>
      match hex_of c with
      | Some d => hex_value (16 * acc + d)%N l'
      | None => None
      end
  end.

(** The white space [bytes.fromhex] skips. *)
Definition is_hex_space (c : ascii) : bool :=
  let n := N_of_ascii c in
  (((9 <=? n) && (n <=? 13)) || (n =? 32))%N.

(** [bytes.fromhex]: pairs of hexadecimal digits, with white space before,
    between and after the pairs; the result is the number of bytes read,
    after [k], and the number they spell, after [acc]. *)
Fixpoint fromhex (k acc : N) (l : list ascii) : option (N * N) :=
  match l with
  | [] => Some (k, acc)
  | c :: l' =>
      if is_hex_space c then fromhex k acc l'
      else
        match hex_of c, l' with
        | Some a, c2 :: l'' =>
            match hex_of c2 with
            | Some b => fromhex (k + 1) (256 * acc + 16 * a + b)%N l''
            | None => None
            end
        | _, _ => None
        end
  end.

(** The id of [k] bytes that spell [n]. *)
Definition oid_of_bytes (k n : N) : ObjectId :=
  if (k =? 12)%N then n else (2 ^ 96 * (k + 1) + n)%N.

(** [ObjectId(v)]: a string of 24 characters that [bytes.fromhex] takes,
    or an ObjectId; anything else raises, which every caller catches.
    The length of the bytes is not checked, so 24 characters with white
    space among them give an id of fewer than twelve bytes. *)
Definition ObjectId_of (v : value) : result ObjectId :=
  match v with
  | VOid o => Ok o
  | VStr s =>
      let l := list_ascii_of_string s in
      if (List.length l =? 24)%nat then
        match fromhex 0 0 l with
        | Some (k, n) => Ok (oid_of_bytes k n)
        | None => Raise ValueError
        end
      else Raise ValueError
  | _ => Raise TypeError
  end.

(** ** The document store *)

Record store : Type := mkStore {
  items_col : list dict;
  invoices_col : list dict;
  receipts_col : list dict
}.

Definition set_items (c : list dict) (st : store) : store :=
  mkStore c st.(invoices_col) st.(receipts_col).
Definition set_invoices (c : list dict) (st : store) : store :=
  mkStore st.(items_col) c st.(receipts_col).
Definition set_receipts (c : list dict) (st : store) : store :=
  mkStore st.(items_col) st.(invoices_col) c.

Definition has_id (oid : ObjectId) (d : dict) : bool :=
  match dict_get "_id" d with
  | VOid o => N.eqb o oid
  | _ => false
  end.

(** [col.find_one({"_id": oid})] *)
Definition find_one (oid : ObjectId) (col : list dict) : option dict :=
  find (has_id oid) col.

(** Mongita keeps a collection on disk as BSON and encodes a document
    before it writes it.  [bson.encode] takes every value a handler can
    hold except an integer outside eight bytes, which raises
    OverflowError, and a key with a NUL character, which raises
    InvalidDocument; the first one met, in document order, is raised. *)
Definition int64 (z : Z) : bool := (- 2 ^ 63 <=? z) && (z <? 2 ^ 63).

Definition has_nul (k : string) : bool :=
  existsb (fun c => (N_of_ascii c =? 0)%N) (list_ascii_of_string k).

Fixpoint bson_error (v : value) : option exn :=
  match v with
  | VInt z => if int64 z then None else Some OverflowError
  | VList l =>
      (fix elements (l : list value) : option exn :=
         match l with
         | [] => None
         | x :: l' =>
             match bson_error x with
             | Some e => Some e
             | None => elements l'
             end
         end) l
  | VDict d =>
      (fix fields (d : list (string * value)) : option exn :=
         match d with
         | [] => None
         | (k, x) :: d' =>
             if has_nul k then Some InvalidDocument
             else
               match bson_error x with
               | Some e => Some e
               | None => fields d'
               end
         end) d
  | _ => None
  end.

(** The document of the first match with [fields] set in it. *)
Fixpoint set_fields (oid : ObjectId) (fields : dict) (col : list dict)
  : list dict :=
  match col with
  | [] => []
  | d :: col' =>
      if has_id oid d then dict_update fields d :: col'
      else d :: set_fields oid fields col'
  end.

(** [col.update_one({"_id": oid}, {"$set": fields})].  Nothing is encoded
    when no document matches.  The document that matches was encoded when
    it was stored, so only the fields set can make its encoding fail, and
    then the collection is left as it was. *)
Definition update_one (oid : ObjectId) (fields : dict) (col : list dict)
  : result (list dict) :=
  match find_one oid col with
  | None => Ok col
  | Some _ =>
      match bson_error (VDict fields) with
      | Some e => Raise e
      | None => Ok (set_fields oid fields col)
      end
  end.

(** [col.insert_one(doc)], with the id the store hands out; a document
    that cannot be encoded is not stored. *)
Definition insert_one (oid : ObjectId) (doc : dict) (col : list dict)
  : result (list dict) :=
  match bson_error (VDict doc) with
  | Some e => Raise e
  | None => Ok (col ++ [dict_set "_id" (VOid oid) doc])
  end.

(** What a handler takes from outside: the clock, the id given to the
    document it inserts, and [datetime.fromisoformat] (composed with the
    [Z] suffix replacement and with dropping the time zone). *)
Record env : Type := mkEnv {
  utcnow : Z;
  new_id : ObjectId;
  fromisoformat : string -> option Z
}.

(** ** Responses *)

Record Totals : Type := mkTotals {
  t_subtotal : float;
  t_discountRate : float;
  t_discountAmount : float;
  t_taxRate : float;
  t_taxAmount : float;
  t_total : float
}.

Record Stats : Type := mkStats {
  totalQuantity : Z;
  lowStockCount : Z;
  lowStockItems : list value;
  totalInventoryValue : float;
  uniqueCategoriesCount : Z
}.

Inductive body : Type :=
  | BError (msg : string)
  | BDoc (doc : value)
  | BInvoice (doc : dict) (totals : Totals)
  | BReceipt (updatedItem : value) (receipt : dict)
  | BStats (s : Stats).

(** A handler either returns a body with a status code, or an exception
    escapes it and Flask answers 500. *)
Inductive response : Type :=
  | Resp (status : Z) (b : body)
  | Uncaught (e : exn).

(** The error kinds of the interface. *)
Inductive error_kind : Set := InvalidArgument | NotFound | Unclassified.

Definition error_of (r : response) : option error_kind :=
  match r with
  | Resp 400 _ => Some InvalidArgument
  | Resp 404 _ => Some NotFound
  | Resp _ _ => None
  | Uncaught _ => Some Unclassified
  end.

(** [doc_to_dict] re-encodes ids and timestamps as strings for transport;
    the bodies here carry the document itself. *)
Definition doc_to_dict (doc : option dict) : value :=
  match doc with
  | Some d => VDict d
  | None => VNone
  end.

(** [int(doc.get("quantity") or 0)] *)
Definition quantity_of (doc : dict) : result Z :=
  py_int (por (dict_get "quantity" doc) (VInt 0)).

(** ** Stock ledger *)

(** The handlers take the JSON object of the request body as a dict
    ([request.get_json(force=True) or {}]) and the id of the path as a
    string.  An f-string message that quotes the exception is kept up to
    the colon. *)

(** POST /api/items/<id>/adjust_stock *)
Definition adjust_stock (ev : env) (item_id : string) (data : dict)
  (st : store) : store * response :=
  match ObjectId_of (VStr item_id) with
  | Raise _ => (st, Resp 400 (BError "Invalid item id"))
  | Ok oid =>
  match py_int (por (dict_get "delta" data) (VInt 0)) with
  | Raise _ => (st, Resp 400 (BError "Bad delta value"))
  | Ok delta =>
  let changed_by := por (dict_get "changedBy" data) VNone in
  match find_one oid st.(items_col) with
  | None => (st, Resp 404 (BError "Item not found"))
  | Some doc =>
  match quantity_of doc with
  | Raise e => (st, Uncaught e)
  | Ok qty =>
  let new_qty := Z.max 0 (qty + delta) in
  match update_one oid [("quantity", VInt new_qty)] st.(items_col) with
  | Raise e => (st, Uncaught e)
  | Ok items1 =>
  let st1 := set_items items1 st in
  if 0 <? delta then
    let now := VDate ev.(utcnow) in
    let receipt_doc :=
      [ ("itemId", VOid oid);
        ("sku", por (dict_get "sku" doc) (VStr ""));
        ("name", por (dict_get "name" doc) (VStr ""));
        ("quantity", VInt delta);
        ("receivedAt", now);
        ("createdAt", now);
        ("receivedBy", changed_by) ] in
    match insert_one ev.(new_id) receipt_doc st1.(receipts_col) with
    | Raise e => (st1, Uncaught e)
    | Ok receipts1 =>
        let st2 := set_receipts receipts1 st1 in
        (st2, Resp 200 (BDoc (doc_to_dict (find_one oid st2.(items_col)))))
    end
  else (st1, Resp 200 (BDoc (doc_to_dict (find_one oid st1.(items_col)))))
  end end end end end.

(** POST /api/receipts: the branch of [receipts] that writes.  (The GET and
    OPTIONS branches return before the body is read and write nothing.) *)
Definition receipts (ev : env) (data : dict) (st : store)
  : store * response :=
  let item_id_str := dict_get "itemId" data in
  if negb (truthy item_id_str) then
    (st, Resp 400 (BError "itemId is required"))
  else
  match ObjectId_of item_id_str with
  | Raise _ => (st, Resp 400 (BError "Invalid itemId"))
  | Ok oid =>
  match py_int (por (dict_get "quantity" data) (VInt 0)) with
  | Raise _ => (st, Resp 400 (BError "Bad quantity value"))
  | Ok qty =>
  if qty <=? 0 then (st, Resp 400 (BError "quantity must be > 0"))
  else
  match find_one oid st.(items_col) with
  | None => (st, Resp 404 (BError "Item not found"))
  | Some doc =>
  match quantity_of doc with
  | Raise e => (st, Uncaught e)
  | Ok old_qty =>
  let new_qty := Z.max 0 (old_qty + qty) in
  match update_one oid [("quantity", VInt new_qty)] st.(items_col) with
  | Raise e => (st, Uncaught e)
  | Ok items1 =>
  let st1 := set_items items1 st in
  let now := VDate ev.(utcnow) in
  let receipt_doc :=
    [ ("itemId", VOid oid);
      ("sku", por (dict_get "sku" doc) (VStr ""));
      ("name", por (dict_get "name" doc) (VStr ""));
      ("quantity", VInt qty);
      ("previousQuantity", VInt old_qty);
      ("newQuantity", VInt new_qty);
      ("receivedAt", now);
      ("createdAt", now);
      ("receivedBy", por (dict_get "receivedBy" data) VNone) ] in
  match insert_one ev.(new_id) receipt_doc st1.(receipts_col) with
  | Raise e => (st1, Uncaught e)
  | Ok receipts1 =>
  let st2 := set_receipts receipts1 st1 in
  (st2, Resp 201 (BReceipt (doc_to_dict (find_one oid st2.(items_col)))
                           (dict_set "_id" (VOid ev.(new_id)) receipt_doc)))
  end end end end end end.

(** ** Items *)

Definition item_fields : list string :=
  [ "name"; "category"; "type"; "quantity"; "minStockLevel"; "price";
    "sku"; "description"; "location"; "supplier"; "expirationDate" ].

(** The conversion [update_item] applies to the value of a field. *)
Definition convert_field (field : string) (v : value) : result value :=
  (v1 <- (if String.eqb field "quantity" || String.eqb field "minStockLevel"
          then z <- py_int v ;; Ok (VInt z) else Ok v) ;;
   if String.eqb field "price" then f <- py_float v1 ;; Ok (VFloat f)
   else Ok v1)%result.

(** The loop of [update_item] that collects [update_fields]. *)
Fixpoint collect_fields (fields : list string) (data acc : dict)
  : result dict :=
  match fields with
  | [] => Ok acc
  | field :: rest =>
      if dict_mem field data then
        (v <- convert_field field (dict_get field data) ;;
         collect_fields rest data (dict_set field v acc))%result
      else collect_fields rest data acc
  end.

(** PUT /api/items/<id>.  [matched_count == 0] is read off [find_one],
    since [update_one] encodes and changes nothing when no document
    matches. *)
Definition update_item (item_id : string) (data : dict) (st : store)
  : store * response :=
  match ObjectId_of (VStr item_id) with
  | Raise _ => (st, Resp 400 (BError "Invalid item id"))
  | Ok oid =>
  match collect_fields item_fields data [] with
  | Raise e => (st, Uncaught e)
  | Ok update_fields =>
  if negb (truthy (VDict update_fields)) then
    (st, Resp 400 (BError "Nothing to update"))
  else
  match find_one oid st.(items_col) with
  | None => (st, Resp 404 (BError "Item not found"))
  | Some _ =>
  match update_one oid update_fields st.(items_col) with
  | Raise e => (st, Uncaught e)
  | Ok items1 =>
  let st1 := set_items items1 st in
  (st1, Resp 200 (BDoc (doc_to_dict (find_one oid st1.(items_col)))))
  end end end end.

(** ** Invoice totals *)

(** [float(l.get("price") or 0) * int(l.get("quantity") or 0)] *)
Definition line_amount (l : value) : result float :=
  (p <- py_get l "price" ;;
   price <- py_float (por p (VInt 0)) ;;
   q <- py_get l "quantity" ;;
   quantity <- py_int (por q (VInt 0)) ;;
   fmul_int price quantity)%result.

(** The loop [subtotal += ...] over the lines. *)
Fixpoint sum_lines (subtotal : float) (lines : list value) : result float :=
  match lines with
  | [] => Ok subtotal
  | l :: rest =>
      (a <- line_amount l ;; sum_lines (fadd subtotal a) rest)%result
  end.

(** The lines of a stored invoice and the loop over them. *)
Definition subtotal_of (inv_doc : dict) : result float :=
  (lines <- py_iter (por (dict_get "lines" inv_doc) (VList [])) ;;
   sum_lines pzero lines)%result.

Definition compute_invoice_totals (inv_doc : dict) : result Totals :=
  (subtotal <- subtotal_of inv_doc ;;
   tax_rate <- py_float (por (dict_get "taxRate" inv_doc) (VInt 0)) ;;
   discount_rate <- py_float (por (dict_get "discountRate" inv_doc) (VInt 0)) ;;
   let discount_amount := fdiv (fmul subtotal discount_rate) hundred in
   let after_dis := fmax pzero (fsub subtotal discount_amount) in
   let tax_amount := fdiv (fmul after_dis tax_rate) hundred in
   let total := fadd after_dis tax_amount in
   Ok (mkTotals (round2 subtotal) discount_rate (round2 discount_amount)
                tax_rate (round2 tax_amount) (round2 total)))%result.

(** ** Invoices *)

(** A normalized line; [line_doc] is the dict the handlers build. *)
Record norm_line : Type := mkLine {
  nl_itemId : option ObjectId;
  nl_name : value;
  nl_sku : value;
  nl_price : float;
  nl_quantity : Z
}.

Definition line_doc (l : norm_line) : dict :=
  [ ("itemId", match l.(nl_itemId) with Some o => VOid o | None => VNone end);
    ("name", l.(nl_name));
    ("sku", l.(nl_sku));
    ("price", VFloat l.(nl_price));
    ("quantity", VInt l.(nl_quantity)) ].

(** The body of the loop that normalizes the lines.  Only the ObjectId
    conversion is guarded by [try]. *)
Definition normalize_line (l : value) : result norm_line :=
  (item_id_str <- py_get l "itemId" ;;
   let item_oid :=
     if truthy item_id_str then
       match ObjectId_of item_id_str with
       | Ok o => Some o
       | Raise _ => None
       end
     else None in
   name <- py_get l "name" ;;
   sku <- py_get l "sku" ;;
   p <- py_get l "price" ;;
   price <- py_float (por p (VInt 0)) ;;
   q <- py_get l "quantity" ;;
   quantity <- py_int (por q (VInt 0)) ;;
   Ok (mkLine item_oid (por name (VStr "")) (por sku (VStr "")) price quantity)
  )%result.

Fixpoint normalize_lines (lines : list value) : result (list norm_line) :=
  match lines with
  | [] => Ok []
  | l :: rest =>
      (n <- normalize_line l ;;
       ns <- normalize_lines rest ;;
       Ok (n :: ns))%result
  end.

(** [printed_at]: any failure to parse falls back to the clock. *)
Definition printed_at_of (ev : env) (printed_at_str : value) : Z :=
  if truthy printed_at_str then
    match printed_at_str with
    | VStr s =>
        match ev.(fromisoformat) s with
        | Some t => t
        | None => ev.(utcnow)
        end
    | _ => ev.(utcnow)
    end
  else ev.(utcnow).

(** The loop under [if apply_stock]: the item collection it leaves, and
    the exception that stopped it, if one did.  What the lines before
    the one that raised have written stays written. *)
Fixpoint apply_stock_change (lines : list norm_line) (items : list dict)
  : list dict * option exn :=
  match lines with
  | [] => (items, None)
  | line :: rest =>
      match line.(nl_itemId) with
      | None => apply_stock_change rest items
      | Some oid =>
          match find_one oid items with
          | None => apply_stock_change rest items
          | Some doc =>
              match (a <- quantity_of doc ;;
                     b <- quantity_of (line_doc line) ;;
                     update_one oid [("quantity", VInt (Z.max 0 (a - b)))]
                       items)%result with
              | Raise e => (items, Some e)
              | Ok items1 => apply_stock_change rest items1
              end
          end
      end
  end.

(** The [invoice] dict of [create_invoice]. *)
Definition invoice_doc (data : dict) (printed_at : Z)
  (tax_rate discount_rate : float) (norm_lines : list norm_line) : dict :=
  [ ("number", dict_get "number" data);
    ("printedAt", VDate printed_at);
    ("customerName", por (dict_get "customerName" data) (VStr ""));
    ("customerPhone", por (dict_get "customerPhone" data) (VStr ""));
    ("taxRate", VFloat tax_rate);
    ("discountRate", VFloat discount_rate);
    ("lines", VList (map (fun l => VDict (line_doc l)) norm_lines));
    ("createdBy", por (dict_get "createdBy" data) (VStr "")) ].

(** The conversions of [create_invoice] that no [try] guards, in the
    order they run. *)
Definition invoice_numbers (data : dict) (lines : value)
  : result (float * float * list norm_line) :=
  (tax_rate <- py_float (por (dict_get "taxRate" data) (VInt 0)) ;;
   discount_rate <- py_float (por (dict_get "discountRate" data) (VInt 0)) ;;
   ls <- py_iter lines ;;
   norm_lines <- normalize_lines ls ;;
   Ok (tax_rate, discount_rate, norm_lines))%result.

(** POST /api/invoices *)
Definition create_invoice (ev : env) (data : dict) (st : store)
  : store * response :=
  let number := dict_get "number" data in
  let lines := por (dict_get "lines" data) (VList []) in
  if negb (truthy number) || negb (truthy lines) then
    (st, Resp 400 (BError "number and lines are required"))
  else
  let printed_at := printed_at_of ev (dict_get "printedAt" data) in
  match invoice_numbers data lines with
  | Raise e => (st, Uncaught e)
  | Ok (tax_rate, discount_rate, norm_lines) =>
  let invoice :=
    invoice_doc data printed_at tax_rate discount_rate norm_lines in
  let apply_stock := truthy (dict_get "applyStockChange" data) in
  let '(items1, stopped) :=
    if apply_stock then apply_stock_change norm_lines st.(items_col)
    else (st.(items_col), None) in
  let st1 := set_items items1 st in
  match stopped with
  | Some e => (st1, Uncaught e)
  | None =>
  match insert_one ev.(new_id) invoice st1.(invoices_col) with
  | Raise e => (st1, Uncaught e)
  | Ok invoices1 =>
  let st2 := set_invoices invoices1 st1 in
  let invoice1 := dict_set "_id" (VOid ev.(new_id)) invoice in
  match compute_invoice_totals invoice1 with
  | Raise e => (st2, Uncaught e)
  | Ok totals => (st2, Resp 201 (BInvoice invoice1 totals))
  end end end end.

(** The fields [update_invoice] collects, in the order of its tests. *)
Definition invoice_update_fields (data : dict) : result dict :=
  (let u0 : dict := [] in
   let u1 :=
     if dict_mem "customerName" data
     then dict_set "customerName"
            (por (dict_get "customerName" data) (VStr "")) u0
     else u0 in
   let u2 :=
     if dict_mem "customerPhone" data
     then dict_set "customerPhone"
            (por (dict_get "customerPhone" data) (VStr "")) u1
     else u1 in
   u3 <- (if dict_mem "taxRate" data
          then f <- py_float (por (dict_get "taxRate" data) (VInt 0)) ;;
               Ok (dict_set "taxRate" (VFloat f) u2)
          else Ok u2) ;;
   u4 <- (if dict_mem "discountRate" data
          then f <- py_float (por (dict_get "discountRate" data) (VInt 0)) ;;
               Ok (dict_set "discountRate" (VFloat f) u3)
          else Ok u3) ;;
   if dict_mem "lines" data
   then ls <- py_iter (por (dict_get "lines" data) (VList [])) ;;
        norm_lines <- normalize_lines ls ;;
        Ok (dict_set "lines"
              (VList (map (fun l => VDict (line_doc l)) norm_lines)) u4)
   else Ok u4)%result.

(** PUT /api/invoices/<id> *)
Definition update_invoice (invoice_id : string) (data : dict) (st : store)
  : store * response :=
  match ObjectId_of (VStr invoice_id) with
  | Raise _ => (st, Resp 400 (BError "Invalid invoice id"))
  | Ok oid =>
  match invoice_update_fields data with
  | Raise e => (st, Uncaught e)
  | Ok update_fields =>
  if negb (truthy (VDict update_fields)) then
    (st, Resp 400 (BError "Nothing to update"))
  else
  match find_one oid st.(invoices_col) with
  | None => (st, Resp 404 (BError "Invoice not found"))
  | Some _ =>
  match update_one oid update_fields st.(invoices_col) with
  | Raise e => (st, Uncaught e)
  | Ok invoices1 =>
  let st1 := set_invoices invoices1 st in
  match find_one oid st1.(invoices_col) with
  | None => (st1, Uncaught AttributeError)
  | Some doc =>
  match compute_invoice_totals doc with
  | Raise e => (st1, Uncaught e)
  | Ok totals => (st1, Resp 200 (BInvoice doc totals))
  end end end end end end.

(** ** Dashboard stats *)

(** Equality of the values a set of categories may hold: numbers compare
    by value across [bool], [int] and [float]; two NaN are two elements. *)
Definition num_key (v : value) : option Z :=
  match v with
  | VBool b => Some (if b then 1 else 0)
  | VInt z => Some z
  | VFloat f => exact_Z f
  | _ => None
  end.

Definition py_eqb (a b : value) : bool :=
  match num_key a, num_key b with
  | Some x, Some y => x =? y
  | Some _, None | None, Some _ => false
  | None, None =>
      match a, b with
      | VNone, VNone => true
      | VFloat x, VFloat y => SFeqb x y
      | VStr x, VStr y => String.eqb x y
      | VOid x, VOid y => N.eqb x y
      | VDate x, VDate y => x =? y
      | _, _ => false
      end
  end.

(** [categories.add(cat)]: lists and dicts are unhashable. *)
Definition set_add (v : value) (s : list value) : result (list value) :=
  match v with
  | VList _ | VDict _ => Raise TypeError
  | _ => Ok (if existsb (py_eqb v) s then s else s ++ [v])
  end.

Record stats_acc : Type := mkAcc {
  total_quantity : Z;
  low_stock_items : list value;
  total_value : float;
  categories : list value
}.

(** The body of the loop over the items. *)
Definition stats_step (a : stats_acc) (d : dict) : result stats_acc :=
  (qty <- py_int (por (dict_get "quantity" d) (VInt 0)) ;;
   min_stock <- py_int (por (dict_get "minStockLevel" d) (VInt 0)) ;;
   price <- py_float (por (dict_get "price" d) (VInt 0)) ;;
   let total_quantity1 := a.(total_quantity) + qty in
   v <- int_fmul qty price ;;
   let total_value1 := fadd a.(total_value) v in
   let cat := dict_get "category" d in
   categories1 <- (if truthy cat then set_add cat a.(categories)
                   else Ok a.(categories)) ;;
   let low1 :=
     if (0 <? min_stock) && (qty <? min_stock)
     then a.(low_stock_items) ++ [por (dict_get "name" d) (VStr "")]
     else a.(low_stock_items) in
   Ok (mkAcc total_quantity1 low1 total_value1 categories1))%result.

Fixpoint stats_loop (a : stats_acc) (docs : list dict) : result stats_acc :=
  match docs with
  | [] => Ok a
  | d :: rest => (a1 <- stats_step a d ;; stats_loop a1 rest)%result
  end.

(** GET /api/stats *)
Definition stats (st : store) : response :=
  match stats_loop (mkAcc 0 [] pzero []) st.(items_col) with
  | Raise e => Uncaught e
  | Ok a =>
      Resp 200 (BStats (mkStats a.(total_quantity)
                          (Z.of_nat (List.length a.(low_stock_items)))
                          a.(low_stock_items)
                          (round2 a.(total_value))
                          (Z.of_nat (List.length a.(categories)))))
  end.

(** ** Sequences of ledger calls *)

Inductive call : Type :=
  | AdjustStock (item_id : string) (data : dict)
  | ReceiveStock (data : dict).

Definition step (st : store) (c : env * call) : store :=
  match snd c with
  | AdjustStock item_id data => fst (adjust_stock (fst c) item_id data st)
  | ReceiveStock data => fst (receipts (fst c) data st)
  end.

Definition run (calls : list (env * call)) (st : store) : store :=
  fold_left step calls st.

(** The stored quantity of a document is an integer that is not negative. *)
Definition nonneg_quantity (d : dict) : Prop :=
  exists q, dict_get "quantity" d = VInt q /\ 0 <= q.

(** ** Well-formed requests and documents *)

(** An integer that [float()] converts without OverflowError. *)
Definition in_float_range (z : Z) : bool :=
  match of_Z z with
  | S754_infinity _ => false
  | _ => true
  end.

(** A JSON field holding a number, or absent. *)
Definition numeric_field (v : value) : bool :=
  match v with
  | VNone | VFloat _ => true
  | VInt z => in_float_range z
  | _ => false
  end.

(** A JSON field holding an integer, or absent. *)
Definition integer_field (v : value) : bool :=
  match v with
  | VNone => true
  | VInt z => in_float_range z
  | _ => false
  end.

(** A line of a request as the docstring of [create_invoice] shows it:
    an object whose price is a number and whose quantity is an integer. *)
Definition line_input_ok (l : value) : bool :=
  match l with
  | VDict d =>
      numeric_field (dict_get "price" d) && integer_field (dict_get "quantity" d)
  | _ => false
  end.

Definition invoice_input_ok (data : dict) : bool :=
  match dict_get "lines" data with
  | VList ls => forallb line_input_ok ls
  | _ => false
  end
  && numeric_field (dict_get "taxRate" data)
  && numeric_field (dict_get "discountRate" data).

(** The stored quantity of an item is an integer. *)
Definition int_quantity (d : dict) : Prop :=
  exists q, dict_get "quantity" d = VInt q.

(** The fields [update_invoice] may write. *)
Definition invoice_fields : list string :=
  [ "customerName"; "customerPhone"; "taxRate"; "discountRate"; "lines" ].

(** The quantities of the lines that refer to an item, in line order. *)
Definition refers_to (oid : ObjectId) (l : norm_line) : bool :=
  match l.(nl_itemId) with
  | Some o => N.eqb o oid
  | None => false
  end.

Definition sold (oid : ObjectId) (lines : list norm_line) : list Z :=
  map nl_quantity (filter (refers_to oid) lines).

(** A quantity decremented by each sale in turn, floored at zero. *)
Definition clamp_all (q : Z) (sales : list Z) : Z :=
  fold_left (fun a b => Z.max 0 (a - b)) sales q.

(** Every quantity the stock loop writes fits in eight bytes: the
    quantity of an item, decremented by the first lines that refer to it,
    however many of them are taken. *)
Definition writes_fit (lines : list norm_line) (items : list dict) : Prop :=
  forall oid doc q k,
    find_one oid items = Some doc ->
    dict_get "quantity" doc = VInt q ->
    clamp_all q (firstn k (sold oid lines)) < 2 ^ 63.

(** The items a request with these lines may change the stock of: their
    quantities are integers, and every quantity written fits. *)
Definition stock_change_fits (ls : list value) (items : list dict) : Prop :=
  Forall int_quantity items
  /\ forall ns, normalize_lines ls = Ok ns -> writes_fit ns items.

(** ** Totals and stats as the specification words them *)

(** The double a decimal literal denotes. *)
Definition dec (s : string) : float :=
  match float_of_string s with
  | Some f => f
  | None => S754_nan
  end.

Definition neg_zero (f : float) : bool :=
  match f with
  | S754_zero true => true
  | _ => false
  end.

(** afterDiscount = max(0, subtotal - subtotal * discountRate / 100) *)
Definition after_discount (subtotal discountRate : float) : float :=
  fmax pzero (fsub subtotal (fdiv (fmul subtotal discountRate) hundred)).

(** subtotal = sum over the lines of price * quantity, in line order. *)
Definition spec_subtotal (lines : list (float * Z)) : float :=
  fold_left (fun acc pq => fadd acc (fmul (fst pq) (of_Z (snd pq)))) lines pzero.

Definition spec_totals (lines : list (float * Z)) (discountRate taxRate : float)
  : Totals :=
  let subtotal := spec_subtotal lines in
  let discountAmount := fdiv (fmul subtotal discountRate) hundred in
  let afterDiscount := after_discount subtotal discountRate in
  let taxAmount := fdiv (fmul afterDiscount taxRate) hundred in
  let total := fadd afterDiscount taxAmount in
  mkTotals (round2 subtotal) discountRate (round2 discountAmount)
           taxRate (round2 taxAmount) (round2 total).

(** A stored line with a float price and an integer quantity. *)
Definition stored_line (l : value) (pq : float * Z) : Prop :=
  exists d,
    l = VDict d
    /\ dict_get "price" d = VFloat (fst pq)
    /\ dict_get "quantity" d = VInt (snd pq).

(** A price other than negative zero and a quantity [float()] accepts. *)
Definition line_in_range (pq : float * Z) : Prop :=
  neg_zero (fst pq) = false /\ in_float_range (snd pq) = true.

(** An item as the data model types it; an absent category is [""]. *)
Record item : Type := mkItem {
  i_name : string;
  i_category : string;
  i_quantity : Z;
  i_minStockLevel : Z;
  i_price : float
}.

Definition stored_item (d : dict) (it : item) : Prop :=
  dict_get "name" d = VStr it.(i_name)
  /\ (dict_get "category" d = VStr it.(i_category)
      \/ (dict_get "category" d = VNone /\ it.(i_category) = ""))
  /\ dict_get "quantity" d = VInt it.(i_quantity)
  /\ dict_get "minStockLevel" d = VInt it.(i_minStockLevel)
  /\ dict_get "price" d = VFloat it.(i_price).

Definition item_in_range (it : item) : Prop :=
  neg_zero it.(i_price) = false /\ in_float_range it.(i_quantity) = true.

(** minStockLevel > 0 and quantity < minStockLevel *)
Definition low_stock (it : item) : bool :=
  (0 <? it.(i_minStockLevel)) && (it.(i_quantity) <? it.(i_minStockLevel)).

Definition nonempty (s : string) : bool := negb (String.eqb s "").

Definition spec_stats (its : list item) : Stats :=
  mkStats
    (fold_right Z.add 0 (map i_quantity its))
    (Z.of_nat (List.length (filter low_stock its)))
    (map (fun it => VStr it.(i_name)) (filter low_stock its))
    (round2
       (fold_left (fun acc it => fadd acc (fmul (of_Z it.(i_quantity)) it.(i_price)))
          its pzero))
    (Z.of_nat
       (List.length
          (nodup string_dec (filter nonempty (map i_category its))))).

(** Category names collected one by one, each kept once. *)
Definition add_cat (s : list string) (c : string) : list string :=
  if existsb (String.eqb c) s then s else s ++ [c].

(** ** Sample data *)

Definition hex7 : string := "000000000000000000000007".

Definition mouse : dict :=
  [("_id", VOid 7%N); ("name", VStr "Wireless Mouse");
   ("sku", VStr "ELEC-MOUSE-001"); ("quantity", VInt 5)].

Definition shop : store := mkStore [mouse] [] [].

Definition ev0 : env := mkEnv 1000 99%N (fun _ => None).

(** A stored invoice of four units at 25.00, discount 10, tax 8. *)
Definition invoice100 : dict :=
  [ ("_id", VOid 3%N);
    ("number", VStr "INV-100");
    ("taxRate", VFloat (dec "8"));
    ("discountRate", VFloat (dec "10"));
    ("lines",
     VList [VDict [("price", VFloat (dec "25")); ("quantity", VInt 4)]]) ].

(** A stored invoice whose only line is free. *)
Definition invoice0 : dict :=
  [ ("_id", VOid 4%N);
    ("number", VStr "INV-0");
    ("taxRate", VFloat (dec "8"));
    ("discountRate", VFloat (dec "-5"));
    ("lines",
     VList [VDict [("price", VFloat pzero); ("quantity", VInt 4)]]) ].

(** The two items of the stats example. *)
Definition first_item : dict :=
  [ ("_id", VOid 1%N); ("name", VStr "First"); ("quantity", VInt 5);
    ("minStockLevel", VInt 10); ("price", VFloat (dec "2")) ].

Definition second_item : dict :=
  [ ("_id", VOid 2%N); ("name", VStr "Second"); ("quantity", VInt 20);
    ("minStockLevel", VInt 5); ("price", VFloat (dec "1"));
    ("category", VStr "A") ].

(** ** JSON conversion *)

Module Json.

Definition hex_digit (n : N) : ascii :=
  if (n <? 10)%N then ascii_of_N (48 + n) else ascii_of_N (87 + n).

(** The last [k] hexadecimal digits of [n], in front of [acc]. *)
Fixpoint hex_digits (k : nat) (n : N) (acc : list ascii) : list ascii :=
  match k with
  | O => acc
  | S k' => hex_digits k' (n / 16)%N (hex_digit (n mod 16)%N :: acc)
  end.

(** [str(oid)]: two lowercase hexadecimal digits for each byte, 24 of
    them for an id of twelve bytes. *)
Definition str_oid (o : ObjectId) : string :=
  if (o <? 2 ^ 96)%N then string_of_list_ascii (hex_digits 24 o [])
  else
    string_of_list_ascii
      (hex_digits (2 * N.to_nat (o / 2 ^ 96 - 1)) (o mod 2 ^ 96) []).

(** A character [str(oid)] prints: a hexadecimal digit, not a space. *)
Definition printed_digit (c : ascii) : Prop :=
  is_hex_space c = false /\ exists m, hex_of c = Some m.

(** [_to_jsonable(value)], given [datetime.isoformat]. *)
Fixpoint _to_jsonable (isoformat : Z -> string) (v : value) : value :=
  match v with
  | VOid o => VStr (str_oid o)
  | VDate t => VStr (isoformat t)
  | VList l => VList (map (_to_jsonable isoformat) l)
  | VDict d =>
      VDict (map (fun kv : string * value =>
                    let (k, x) := kv in (k, _to_jsonable isoformat x)) d)
  | _ => v
  end.

(** [del d[k]] *)
Definition dict_del (k : string) (d : dict) : dict :=
  filter (fun kv => negb (String.eqb k (fst kv))) d.

(** [doc_to_dict(doc)]: [None] for a missing or empty document; otherwise
    the converted document with [_id] renamed to [id]. *)
Definition doc_to_dict (isoformat : Z -> string) (doc : option dict) : value :=
  match doc with
  | None => VNone
  | Some d =>
      if negb (truthy (VDict d)) then VNone
      else
        match _to_jsonable isoformat (VDict d) with
        | VDict raw =>
            if dict_mem "_id" raw
            then VDict (dict_del "_id" (dict_set "id" (dict_get "_id" raw) raw))
            else VDict raw
        | other => other
        end
  end.

(** No ObjectId and no datetime is left anywhere in the value. *)
Fixpoint json_safe (v : value) : bool :=
  match v with
  | VOid _ | VDate _ => false
  | VList l => forallb json_safe l
  | VDict d =>
      forallb (fun kv : string * value => let (_, x) := kv in json_safe x) d
  | _ => true
  end.

End Json.

(** ** Batch numbers *)

Definition digit_char (d : Z) : ascii := ascii_of_N (Z.to_N (48 + d)).

(** The decimal digits of [n], most significant first, in front of [acc]. *)
Fixpoint dec_digits (fuel : nat) (n : Z) (acc : list Z) : list Z :=
  match fuel with
  | O => acc
  | S fuel' =>
      if n <? 10 then n :: acc
      else dec_digits fuel' (n / 10) (n mod 10 :: acc)
  end.

(** A decimal digit, and the value of a run of digits after [a]. *)
Definition is_digit (d : Z) : Prop := 0 <= d <= 9.

Definition horner (ds : list Z) (a : Z) : Z :=
  fold_left (fun a d => 10 * a + d) ds a.

(** [str(n)] for an integer. *)
Definition str_int (n : Z) : list ascii :=
  let ds := dec_digits (S (Z.to_nat (Z.log2 (Z.abs n)))) (Z.abs n) [] in
  if n <? 0 then "-"%char :: map digit_char ds else map digit_char ds.

(** [s.zfill(width)]: zeros go after a leading sign. *)
Definition zfill (width : nat) (s : list ascii) : list ascii :=
  let pad := repeat "0"%char (width - List.length s) in
  match s with
  | c :: rest =>
      if Ascii.eqb c "-" || Ascii.eqb c "+" then c :: pad ++ rest
      else pad ++ s
  | [] => pad
  end.

(** [generate_batch_number()], given the year of [datetime.now()]. *)
Definition generate_batch_number (year : Z) (st : store) : string :=
  let count := Z.of_nat (List.length st.(items_col)) in
  string_of_list_ascii
    (list_ascii_of_string "BATCH-" ++ str_int year ++
     list_ascii_of_string "-" ++ zfill 3 (str_int (count + 1))).

(** ** Items: the other endpoints *)

(** [s.strip()] on a value: only a string has the method. *)
Definition py_strip (v : value) : result string :=
  match v with
  | VStr s => Ok (string_of_list_ascii (strip (list_ascii_of_string s)))
  | _ => Raise AttributeError
  end.

(** [s.lower()] on a value, for ASCII text (see [ascii_text]). *)
Definition py_lower (v : value) : result (list ascii) :=
  match v with
  | VStr s => Ok (map lower (list_ascii_of_string s))
  | _ => Raise AttributeError
  end.

(** [d.get(k, default)] *)
Definition dict_get_default (k : string) (default : value) (d : dict) : value :=
  if dict_mem k d then dict_get k d else default.

Fixpoint is_prefix (p l : list ascii) : bool :=
  match p, l with
  | [], _ => true
  | _ :: _, [] => false
  | a :: p', b :: l' => Ascii.eqb a b && is_prefix p' l'
  end.

(** [p in l] for two strings. *)
Fixpoint contains (p l : list ascii) : bool :=
  is_prefix p l
  || match l with
     | [] => false
     | _ :: l' => contains p l'
     end.

(** [search in d.get(field, "").lower()] on a converted document. *)
Definition field_has (search : list ascii) (field : string) (d : value)
  : result bool :=
  match d with
  | VDict raw =>
      (s <- py_lower (dict_get_default field (VStr "") raw) ;;
       Ok (contains search s))%result
  | _ => Raise AttributeError
  end.

(** The test of [list_items] on one converted document; [or] stops at the
    first field that matches. *)
Definition item_matches (search : list ascii) (d : value) : result bool :=
  (a <- field_has search "name" d ;;
   if a then Ok true
   else b <- field_has search "sku" d ;;
        if b then Ok true
        else field_has search "category" d)%result.

(** The loop of [list_items]. *)
Fixpoint filter_items (isoformat : Z -> string) (search : list ascii)
  (docs : list dict) : result (list value) :=
  match docs with
  | [] => Ok []
  | d :: rest =>
      let d1 := Json.doc_to_dict isoformat (Some d) in
      (keep <- (match search with
                | [] => Ok true
                | _ => item_matches search d1
                end) ;;
       tl <- filter_items isoformat search rest ;;
       Ok (if keep then d1 :: tl else tl))%result
  end.

(** GET /api/items, with the [search] query argument ([""] when absent). *)
Definition list_items (isoformat : Z -> string) (search_arg : string)
  (st : store) : response :=
  let search := map lower (strip (list_ascii_of_string search_arg)) in
  match filter_items isoformat search st.(items_col) with
  | Raise e => Uncaught e
  | Ok result => Resp 200 (BDoc (VList result))
  end.


(** GET /api/items/<id> *)
Definition get_item (isoformat : Z -> string) (item_id : string) (st : store)
  : response :=
  match ObjectId_of (VStr item_id) with
  | Raise _ => Resp 400 (BError "Invalid item id")
  | Ok oid =>
      match find_one oid st.(items_col) with
      | None => Resp 404 (BError "Item not found")
      | Some doc => Resp 200 (BDoc (Json.doc_to_dict isoformat (Some doc)))
      end
  end.

(** [col.delete_one({"_id": oid})]: the first match. *)
Fixpoint delete_one (oid : ObjectId) (col : list dict) : list dict :=
  match col with
  | [] => []
  | d :: col' => if has_id oid d then col' else d :: delete_one oid col'
  end.

(** DELETE /api/items/<id>.  [deleted_count == 0] is read off [find_one]. *)
Definition delete_item (item_id : string) (st : store) : store * response :=
  match ObjectId_of (VStr item_id) with
  | Raise _ => (st, Resp 400 (BError "Invalid item id"))
  | Ok oid =>
      match find_one oid st.(items_col) with
      | None => (st, Resp 404 (BError "Item not found"))
      | Some _ =>
          (set_items (delete_one oid st.(items_col)) st,
           Resp 200 (BDoc (VDict [("status", VStr "ok")])))
      end
  end.

(** ** The search of [list_items], in words *)

(** Text in which every character is ASCII.  On such text [strip] and
    [lower] are Python's [str.strip] and [str.lower], which go by the
    Unicode tables for the other characters. *)
Definition ascii_text (s : string) : bool :=
  forallb (fun c => (N_of_ascii c <? 128)%N) (list_ascii_of_string s).

(** A field the search reads is an ASCII string, or is missing. *)
Definition text_field (k : string) (d : dict) : Prop :=
  dict_mem k d = false
  \/ exists s, dict_get k d = VStr s /\ ascii_text s = true.

(** A stored item the search can read. *)
Definition searchable (d : dict) : Prop :=
  (exists o, dict_get "_id" d = VOid o)
  /\ text_field "name" d /\ text_field "sku" d /\ text_field "category" d.

(** The lower-case text of a field, empty when the field is missing. *)
Definition field_text (k : string) (d : dict) : list ascii :=
  match dict_get k d with
  | VStr s => map lower (list_ascii_of_string s)
  | _ => []
  end.

(** [p] occurs in [l] as a run of consecutive characters. *)
Definition occurs (p l : list ascii) : Prop :=
  exists pre post, l = pre ++ p ++ post.

(** ** Listings, newest first *)

(** [docs.sort(key=..., reverse=True)] on string keys: the sort is stable,
    so a document goes in front of the first one whose key is not greater
    than its own. *)
Fixpoint insert_desc (key : dict -> string) (x : dict) (l : list dict)
  : list dict :=
  match l with
  | [] => [x]
  | y :: l' =>
      if String.ltb (key x) (key y) then y :: insert_desc key x l'
      else x :: l
  end.

Definition sort_desc (key : dict -> string) (l : list dict) : list dict :=
  fold_right (insert_desc key) [] l.

(** One document is not older than another, by its key. *)
Definition not_older (key : dict -> string) (a b : dict) : Prop :=
  String.leb (key b) (key a) = true.

(** The dict [compute_invoice_totals] returns. *)
Definition totals_value (t : Totals) : value :=
  VDict [ ("subtotal", VFloat t.(t_subtotal));
          ("discountRate", VFloat t.(t_discountRate));
          ("discountAmount", VFloat t.(t_discountAmount));
          ("taxRate", VFloat t.(t_taxRate));
          ("taxAmount", VFloat t.(t_taxAmount));
          ("total", VFloat t.(t_total)) ].

(** [inv_dict = doc_to_dict(doc); inv_dict["totals"] =
    compute_invoice_totals(doc)]: the totals are computed before the
    assignment is tried. *)
Definition invoice_json (iso : Z -> string) (doc : dict) : result value :=
  let inv_dict := Json.doc_to_dict iso (Some doc) in
  (t <- compute_invoice_totals doc ;;
   match inv_dict with
   | VDict raw => Ok (VDict (dict_set "totals" (totals_value t) raw))
   | _ => Raise TypeError
   end)%result.

Fixpoint invoices_json (iso : Z -> string) (docs : list dict)
  : result (list value) :=
  match docs with
  | [] => Ok []
  | d :: rest =>
      (v <- invoice_json iso d ;;
       vs <- invoices_json iso rest ;;
       Ok (v :: vs))%result
  end.

(** The sort key of [list_invoices], given [str]. *)
Definition printed_key (py_str : value -> string) (d : dict) : string :=
  py_str (por (dict_get "printedAt" d) (VStr "")).

(** GET /api/invoices *)
Definition list_invoices (py_str : value -> string) (iso : Z -> string)
  (st : store) : response :=
  match invoices_json iso (sort_desc (printed_key py_str) st.(invoices_col)) with
  | Raise e => Uncaught e
  | Ok result => Resp 200 (BDoc (VList result))
  end.

(** GET /api/invoices/<id> *)
Definition get_invoice (iso : Z -> string) (invoice_id : string) (st : store)
  : response :=
  match ObjectId_of (VStr invoice_id) with
  | Raise _ => Resp 400 (BError "Invalid invoice id")
  | Ok oid =>
      match find_one oid st.(invoices_col) with
      | None => Resp 404 (BError "Invoice not found")
      | Some doc =>
          match invoice_json iso doc with
          | Raise e => Uncaught e
          | Ok v => Resp 200 (BDoc v)
          end
      end
  end.

(** The sort key of the receipt listing. *)
Definition received_key (py_str : value -> string) (d : dict) : string :=
  py_str (por (por (dict_get "receivedAt" d) (dict_get "createdAt" d))
              (VStr "")).

Inductive http_method : Set := GET | POST | OPTIONS.

(** /api/receipts with its three methods; POST is [receipts]. *)
Definition receipts_route (py_str : value -> string) (iso : Z -> string)
  (method : http_method) (ev : env) (data : dict) (st : store)
  : store * response :=
  match method with
  | OPTIONS => (st, Resp 204 (BDoc (VStr "")))
  | GET =>
      (st,
       Resp 200
         (BDoc (VList (map (fun d => Json.doc_to_dict iso (Some d))
                         (sort_desc (received_key py_str) st.(receipts_col))))))
  | POST => receipts ev data st
  end.

(** ** Users *)

(** werkzeug's two functions, the salt made explicit. *)
Record hasher : Type := mkHasher {
  generate_password_hash : string -> value -> result string;
  check_password_hash : value -> value -> result bool
}.

(** The hash of a password checks against that password. *)
Definition hasher_sound (h : hasher) : Prop :=
  forall salt p hash,
    h.(generate_password_hash) salt (VStr p) = Ok hash ->
    h.(check_password_hash) (VStr hash) (VStr p) = Ok true.

(** The filter [{"username": username}]: the field is that string, or an
    array with that string as an element. *)
Definition has_username (username : string) (d : dict) : bool :=
  match dict_get "username" d with
  | VStr s => String.eqb s username
  | VList l =>
      existsb (fun v => match v with
                        | VStr s => String.eqb s username
                        | _ => false
                        end) l
  | _ => false
  end.

(** [users_col.find_one({"username": username})] *)
Definition find_user (username : string) (users : list dict) : option dict :=
  find (has_username username) users.

(** POST /api/login (the OPTIONS branch answers 204 at once). *)
Definition login (h : hasher) (data : dict) (users : list dict) : response :=
  match py_strip (por (dict_get "username" data) (VStr "")) with
  | Raise e => Uncaught e
  | Ok username =>
  let password := por (dict_get "password" data) (VStr "") in
  if negb (truthy (VStr username)) || negb (truthy password) then
    Resp 400 (BError "username and password are required")
  else
  match find_user username users with
  | None => Resp 401 (BError "Invalid username or password")
  | Some user =>
  match h.(check_password_hash)
          (dict_get_default "passwordHash" (VStr "") user) password with
  | Raise e => Uncaught e
  | Ok false => Resp 401 (BError "Invalid username or password")
  | Ok true =>
      Resp 200
        (BDoc (VDict [ ("username", dict_get "username" user);
                       ("role", dict_get_default "role" (VStr "saler") user) ]))
  end end end.

(** [role not in ("admin", "saler")] *)
Definition role_ok (role : value) : bool :=
  match role with
  | VStr s => String.eqb s "admin" || String.eqb s "saler"
  | _ => false
  end.

(** [del user["passwordHash"]] when the key is there, on a converted
    document. *)
Definition drop_hash (user : value) : result value :=
  match user with
  | VDict raw =>
      Ok (VDict (if dict_mem "passwordHash" raw
                 then Json.dict_del "passwordHash" raw else raw))
  | _ => Raise TypeError
  end.

(** POST /api/users *)
Definition create_user (h : hasher) (salt : string) (iso : Z -> string)
  (ev : env) (data : dict) (users : list dict) : list dict * response :=
  match py_strip (por (dict_get "username" data) (VStr "")) with
  | Raise e => (users, Uncaught e)
  | Ok username =>
  let password := por (dict_get "password" data) (VStr "") in
  let role := por (dict_get "role" data) (VStr "saler") in
  if negb (truthy (VStr username)) || negb (truthy password) then
    (users, Resp 400 (BError "username and password are required"))
  else if negb (role_ok role) then
    (users, Resp 400 (BError "role must be 'admin' or 'saler'"))
  else
  match find_user username users with
  | Some _ => (users, Resp 400 (BError "Username already exists"))
  | None =>
  match h.(generate_password_hash) salt password with
  | Raise e => (users, Uncaught e)
  | Ok password_hash =>
  let doc :=
    [ ("username", VStr username);
      ("passwordHash", VStr password_hash);
      ("role", role);
      ("createdAt", VDate ev.(utcnow)) ] in
  match insert_one ev.(new_id) doc users with
  | Raise e => (users, Uncaught e)
  | Ok users1 =>
  let doc1 := dict_set "_id" (VOid ev.(new_id)) doc in
  match drop_hash (Json.doc_to_dict iso (Some doc1)) with
  | Raise e => (users1, Uncaught e)
  | Ok user => (users1, Resp 201 (BDoc user))
  end end end end end.

Fixpoint public_users (iso : Z -> string) (docs : list dict)
  : result (list value) :=
  match docs with
  | [] => Ok []
  | d :: rest =>
      (u <- drop_hash (Json.doc_to_dict iso (Some d)) ;;
       us <- public_users iso rest ;;
       Ok (u :: us))%result
  end.

(** GET /api/users *)
Definition list_users (iso : Z -> string) (users : list dict) : response :=
  match public_users iso users with
  | Raise e => Uncaught e
  | Ok l => Resp 200 (BDoc (VList l))
  end.

(** PUT /api/users/<id>/password.  The new hash is computed before the
    user is looked for. *)
Definition change_user_password (h : hasher) (salt : string)
  (user_id : string) (data : dict) (users : list dict)
  : list dict * response :=
  match ObjectId_of (VStr user_id) with
  | Raise _ => (users, Resp 400 (BError "Invalid user id"))
  | Ok oid =>
  let new_password := por (dict_get "password" data) (VStr "") in
  if negb (truthy new_password) then
    (users, Resp 400 (BError "password is required"))
  else
  match h.(generate_password_hash) salt new_password with
  | Raise e => (users, Uncaught e)
  | Ok password_hash =>
  match find_one oid users with
  | None => (users, Resp 404 (BError "User not found"))
  | Some _ =>
      match update_one oid [("passwordHash", VStr password_hash)] users with
      | Raise e => (users, Uncaught e)
      | Ok users1 =>
          (users1, Resp 200 (BDoc (VDict [("status", VStr "ok")])))
      end
  end end end.

(** [seed_users_if_empty()]; an exception of the hash function escapes. *)
Definition seed_users_if_empty (h : hasher) (salt : string) (ev : env)
  (users : list dict) : result (list dict) :=
  match users with
  | _ :: _ => Ok users
  | [] =>
      (password_hash <- h.(generate_password_hash) salt (VStr "admin123") ;;
       insert_one ev.(new_id)
         [ ("username", VStr "admin");
           ("passwordHash", VStr password_hash);
           ("role", VStr "admin");
           ("createdAt", VDate ev.(utcnow)) ] users)%result
  end.

(** A hasher for examples only: the hash is the password. *)
Definition plain_hasher : hasher :=
  mkHasher
    (fun _ p =>
       match p with
       | VStr s => Ok s
       | _ => Raise AttributeError
       end)
    (fun hash p =>
       match hash, p with
       | VStr hs, VStr s => Ok (String.eqb hs s)
       | _, _ => Raise AttributeError
       end).

(** The usernames held by the stored users, in order. *)
Definition usernames (users : list dict) : list value :=
  map (dict_get "username") users.


(** * Properties *)

(** ** Dictionaries and collections *)

Lemma dict_get_set_eq k v d : dict_get k (dict_set k v d) = v.
Proof.
  induction d as [|[k' v'] d IH]; simpl.
  - now rewrite String.eqb_refl.
  - destruct (String.eqb k k') eqn:E; simpl; rewrite E; auto.
Qed.

Lemma dict_get_set_neq k k' v d :
  k' <> k -> dict_get k' (dict_set k v d) = dict_get k' d.
Proof.
  intros Hne. induction d as [|[k0 v0] d IH]; simpl.
  - destruct (String.eqb k' k) eqn:E; auto.
    apply String.eqb_eq in E. contradiction.
  - destruct (String.eqb k k0) eqn:E; simpl.
    + apply String.eqb_eq in E. subst k0.
      destruct (String.eqb k' k) eqn:E'; auto.
      apply String.eqb_eq in E'. contradiction.
    + now rewrite IH.
Qed.

Lemma dict_get_update_notin k u : forall d,
  dict_mem k u = false -> dict_get k (dict_update u d) = dict_get k d.
Proof.
  unfold dict_update.
  induction u as [|[k0 v0] u IH]; intros d H; simpl in *; auto.
  apply orb_false_iff in H. destruct H as [H1 H2].
  rewrite IH by assumption. apply dict_get_set_neq.
  intros ->. now rewrite String.eqb_refl in H1.
Qed.

Lemma has_id_update oid u d :
  dict_mem "_id" u = false -> has_id oid (dict_update u d) = has_id oid d.
Proof. intros H. unfold has_id. now rewrite dict_get_update_notin. Qed.

Lemma find_one_has_id oid col d :
  find_one oid col = Some d -> has_id oid d = true.
Proof. intros H. now apply find_some in H. Qed.

Lemma has_id_inj o1 o2 d :
  has_id o1 d = true -> has_id o2 d = true -> o1 = o2.
Proof.
  unfold has_id. destruct (dict_get "_id" d); try discriminate.
  intros H1 H2. apply N.eqb_eq in H1, H2. congruence.
Qed.

Lemma find_one_update_same oid u col d :
  dict_mem "_id" u = false ->
  find_one oid col = Some d ->
  find_one oid (set_fields oid u col) = Some (dict_update u d).
Proof.
  intros Hu. unfold find_one.
  induction col as [|d0 col IH]; simpl; [discriminate|].
  destruct (has_id oid d0) eqn:E; simpl.
  - intros [= ->]. now rewrite has_id_update, E.
  - rewrite E. exact IH.
Qed.

Lemma find_one_update_other oid oid' u col :
  dict_mem "_id" u = false ->
  oid' <> oid ->
  find_one oid' (set_fields oid u col) = find_one oid' col.
Proof.
  intros Hu Hne. unfold find_one.
  induction col as [|d0 col IH]; simpl; auto.
  destruct (has_id oid d0) eqn:E; simpl.
  - rewrite has_id_update by assumption.
    destruct (has_id oid' d0) eqn:E'; auto.
    exfalso. apply Hne. eapply has_id_inj; eauto.
  - now rewrite IH.
Qed.

Lemma find_one_update_none oid u col :
  find_one oid col = None -> set_fields oid u col = col.
Proof.
  unfold find_one. induction col as [|d0 col IH]; simpl; auto.
  destruct (has_id oid d0); [discriminate|].
  intros H. now rewrite IH.
Qed.

Lemma py_int_por_int z : py_int (por (VInt z) (VInt 0)) = Ok z.
Proof.
  unfold por. simpl. destruct (z =? 0) eqn:E; simpl; auto.
  apply Z.eqb_eq in E. now subst.
Qed.

(** ** Writes the store takes *)

Lemma update_one_ok oid u col d :
  find_one oid col = Some d ->
  bson_error (VDict u) = None ->
  update_one oid u col = Ok (set_fields oid u col).
Proof. intros Hf Hu. unfold update_one. now rewrite Hf, Hu. Qed.

Lemma update_one_inv oid u col col' :
  update_one oid u col = Ok col' -> col' = set_fields oid u col.
Proof.
  unfold update_one. destruct (find_one oid col) eqn:Ef.
  - destruct (bson_error (VDict u)); [discriminate|]. now intros [= <-].
  - intros [= <-]. symmetry. now apply find_one_update_none.
Qed.

Lemma update_one_raise oid u col e :
  update_one oid u col = Raise e -> bson_error (VDict u) = Some e.
Proof.
  unfold update_one. destruct (find_one oid col); [|discriminate].
  destruct (bson_error (VDict u)); [|discriminate]. now intros [= <-].
Qed.

Lemma bson_error_quantity n :
  int64 n = true -> bson_error (VDict [("quantity", VInt n)]) = None.
Proof. intros H. cbn. now rewrite H. Qed.

Lemma int64_iff n : int64 n = true <-> - 2 ^ 63 <= n < 2 ^ 63.
Proof. unfold int64. rewrite andb_true_iff, Z.leb_le, Z.ltb_lt. tauto. Qed.

Lemma insert_one_ok oid doc col :
  bson_error (VDict doc) = None ->
  insert_one oid doc col = Ok (col ++ [dict_set "_id" (VOid oid) doc]).
Proof. intros H. unfold insert_one. now rewrite H. Qed.

Lemma insert_one_inv oid doc col col' :
  insert_one oid doc col = Ok col' ->
  col' = col ++ [dict_set "_id" (VOid oid) doc].
Proof.
  unfold insert_one. destruct (bson_error (VDict doc)); [discriminate|].
  now intros [= <-].
Qed.

Lemma quantity_update_get n d :
  dict_get "quantity" (dict_update [("quantity", VInt n)] d) = VInt n.
Proof. unfold dict_update. simpl. apply dict_get_set_eq. Qed.

Lemma quantity_of_int d q :
  dict_get "quantity" d = VInt q -> quantity_of d = Ok q.
Proof.
  intros H. unfold quantity_of, por. rewrite H. simpl.
  destruct (q =? 0) eqn:E; simpl; auto.
  apply Z.eqb_eq in E. now subst.
Qed.

Lemma ObjectId_of_str_truthy s oid :
  ObjectId_of (VStr s) = Ok oid -> truthy (VStr s) = true.
Proof.
  destruct s; simpl; [discriminate | reflexivity].
Qed.

(** ** What the store can encode *)

Lemma bson_error_dict d :
  bson_error (VDict d) = None <->
  Forall (fun kv => has_nul (fst kv) = false /\ bson_error (snd kv) = None) d.
Proof.
  induction d as [|[k x] d IH].
  - split; [constructor | reflexivity].
  - change (bson_error (VDict ((k, x) :: d))) with
      (if has_nul k then Some InvalidDocument
       else match bson_error x with
            | Some e => Some e
            | None => bson_error (VDict d)
            end).
    split.
    + destruct (has_nul k) eqn:Ek; [discriminate|].
      destruct (bson_error x) eqn:Ex; [discriminate|].
      intros H. constructor; [split; assumption | now apply IH].
    + intros H. inversion H as [|? ? [H1 H2] H3]; subst.
      cbn [fst snd] in H1, H2. rewrite H1, H2. now apply IH.
Qed.

Lemma bson_error_list l :
  bson_error (VList l) = None <-> Forall (fun x => bson_error x = None) l.
Proof.
  induction l as [|x l IH].
  - split; [constructor | reflexivity].
  - change (bson_error (VList (x :: l))) with
      (match bson_error x with
       | Some e => Some e
       | None => bson_error (VList l)
       end).
    split.
    + destruct (bson_error x) eqn:Ex; [discriminate|].
      intros H. constructor; [assumption | now apply IH].
    + intros H. inversion H as [|? ? H1 H2]; subst.
      rewrite H1. now apply IH.
Qed.

Lemma bson_error_get k d :
  bson_error (VDict d) = None -> bson_error (dict_get k d) = None.
Proof.
  rewrite bson_error_dict.
  induction 1 as [|[k' x] d [_ Hx] _ IH]; simpl; [reflexivity|].
  destruct (String.eqb k k'); assumption.
Qed.

Lemma bson_error_por a b :
  bson_error a = None -> bson_error b = None -> bson_error (por a b) = None.
Proof. intros Ha Hb. unfold por. now destruct (truthy a). Qed.

Lemma bson_error_int z :
  bson_error (VInt z) = None <-> - 2 ^ 63 <= z < 2 ^ 63.
Proof.
  rewrite <- int64_iff. cbn. destruct (int64 z); split; congruence.
Qed.

(** ** Stock ledger *)

(** The receipt [adjust_stock] builds. *)
Lemma adjust_stock_receipt_encodes ev oid data doc delta :
  bson_error (VDict data) = None ->
  bson_error (VDict doc) = None ->
  dict_get "delta" data = VInt delta ->
  bson_error
    (VDict [ ("itemId", VOid oid);
             ("sku", por (dict_get "sku" doc) (VStr ""));
             ("name", por (dict_get "name" doc) (VStr ""));
             ("quantity", VInt delta);
             ("receivedAt", VDate ev.(utcnow));
             ("createdAt", VDate ev.(utcnow));
             ("receivedBy", por (dict_get "changedBy" data) VNone) ]) = None.
Proof.
  intros Hdata Hdoc Hd.
  apply bson_error_dict.
  repeat (constructor; [split; [reflexivity|]; cbn [snd]|]);
    try reflexivity; try (apply bson_error_por; [now apply bson_error_get | reflexivity]).
  - rewrite <- Hd. now apply bson_error_get.
  - constructor.
Qed.

(** [adjust_stock] on an existing item with an integer quantity, for an
    integer delta, when the store takes both writes. *)
Lemma adjust_stock_run ev item_id oid data st doc q delta :
  ObjectId_of (VStr item_id) = Ok oid ->
  find_one oid st.(items_col) = Some doc ->
  dict_get "quantity" doc = VInt q ->
  dict_get "delta" data = VInt delta ->
  Z.max 0 (q + delta) < 2 ^ 63 ->
  (0 < delta ->
   bson_error
     (VDict [ ("itemId", VOid oid);
              ("sku", por (dict_get "sku" doc) (VStr ""));
              ("name", por (dict_get "name" doc) (VStr ""));
              ("quantity", VInt delta);
              ("receivedAt", VDate ev.(utcnow));
              ("createdAt", VDate ev.(utcnow));
              ("receivedBy", por (dict_get "changedBy" data) VNone) ])
   = None) ->
  adjust_stock ev item_id data st =
  (let st1 :=
     set_items (set_fields oid [("quantity", VInt (Z.max 0 (q + delta)))]
                  st.(items_col)) st in
   let st2 :=
     if 0 <? delta then
       set_receipts
         (st1.(receipts_col) ++
          [dict_set "_id" (VOid ev.(new_id))
             [ ("itemId", VOid oid);
               ("sku", por (dict_get "sku" doc) (VStr ""));
               ("name", por (dict_get "name" doc) (VStr ""));
               ("quantity", VInt delta);
               ("receivedAt", VDate ev.(utcnow));
               ("createdAt", VDate ev.(utcnow));
               ("receivedBy", por (dict_get "changedBy" data) VNone) ]]) st1
     else st1 in
   (st2, Resp 200 (BDoc (doc_to_dict (find_one oid st2.(items_col)))))).
Proof.
  intros Hid Hfind Hq Hd Hfit Hrec. unfold adjust_stock.
  rewrite Hid, Hd, py_int_por_int, Hfind, (quantity_of_int _ _ Hq).
  rewrite (update_one_ok _ _ _ doc Hfind)
    by (apply bson_error_quantity, int64_iff; lia).
  destruct (0 <? delta) eqn:E; [|reflexivity].
  apply Z.ltb_lt in E.
  rewrite insert_one_ok by (exact (Hrec E)). reflexivity.
Qed.

(** The quantity is written before the receipt, so it is stored as soon
    as it fits, whatever becomes of the receipt. *)
Lemma adjust_stock_sets_max ev item_id oid data st doc q delta :
  ObjectId_of (VStr item_id) = Ok oid ->
  find_one oid st.(items_col) = Some doc ->
  dict_get "quantity" doc = VInt q ->
  dict_get "delta" data = VInt delta ->
  Z.max 0 (q + delta) < 2 ^ 63 ->
  exists doc',
    find_one oid (fst (adjust_stock ev item_id data st)).(items_col) = Some doc'
    /\ dict_get "quantity" doc' = VInt (Z.max 0 (q + delta)).
Proof.
  intros Hid Hfind Hq Hd Hfit. unfold adjust_stock.
  rewrite Hid, Hd, py_int_por_int, Hfind, (quantity_of_int _ _ Hq).
  rewrite (update_one_ok _ _ _ doc Hfind)
    by (apply bson_error_quantity, int64_iff; lia).
  eexists. split; [|apply quantity_update_get].
  destruct (0 <? delta); [destruct (insert_one _ _ _)|]; cbn [fst items_col set_items set_receipts];
    (apply find_one_update_same; [reflexivity | eassumption]).
Qed.

Lemma receipts_sets_max ev data st s oid doc q qty :
  dict_get "itemId" data = VStr s ->
  ObjectId_of (VStr s) = Ok oid ->
  find_one oid st.(items_col) = Some doc ->
  dict_get "quantity" doc = VInt q ->
  dict_get "quantity" data = VInt qty ->
  0 < qty ->
  Z.max 0 (q + qty) < 2 ^ 63 ->
  exists doc',
    find_one oid (fst (receipts ev data st)).(items_col) = Some doc'
    /\ dict_get "quantity" doc' = VInt (Z.max 0 (q + qty)).
Proof.
  intros Hs Hid Hfind Hq Hqty Hpos Hfit. unfold receipts.
  rewrite Hs, (ObjectId_of_str_truthy _ _ Hid). cbn [negb]. cbv iota.
  rewrite Hid, Hqty, py_int_por_int.
  replace (qty <=? 0) with false by (symmetry; apply Z.leb_gt; lia).
  rewrite Hfind, (quantity_of_int _ _ Hq).
  rewrite (update_one_ok _ _ _ doc Hfind)
    by (apply bson_error_quantity, int64_iff; lia).
  eexists. split; [|apply quantity_update_get].
  destruct (insert_one _ _ _); cbn [fst items_col set_items set_receipts];
    (apply find_one_update_same; [reflexivity | eassumption]).
Qed.

(** A quantity that does not fit is refused by the store before anything
    is written. *)
Lemma adjust_stock_refused ev item_id oid data st doc q delta :
  ObjectId_of (VStr item_id) = Ok oid ->
  find_one oid st.(items_col) = Some doc ->
  dict_get "quantity" doc = VInt q ->
  dict_get "delta" data = VInt delta ->
  2 ^ 63 <= Z.max 0 (q + delta) ->
  adjust_stock ev item_id data st = (st, Uncaught OverflowError).
Proof.
  intros Hid Hfind Hq Hd Hbig. unfold adjust_stock.
  rewrite Hid, Hd, py_int_por_int, Hfind, (quantity_of_int _ _ Hq).
  unfold update_one. rewrite Hfind. cbn [bson_error has_nul list_ascii_of_string existsb].
  cbn.
  replace (int64 (Z.max 0 (q + delta))) with false; [reflexivity|].
  symmetry. destruct (int64 _) eqn:E; [|reflexivity].
  apply int64_iff in E. lia.
Qed.

Lemma receipts_refused ev data st s oid doc q qty :
  dict_get "itemId" data = VStr s ->
  ObjectId_of (VStr s) = Ok oid ->
  find_one oid st.(items_col) = Some doc ->
  dict_get "quantity" doc = VInt q ->
  dict_get "quantity" data = VInt qty ->
  0 < qty ->
  2 ^ 63 <= Z.max 0 (q + qty) ->
  receipts ev data st = (st, Uncaught OverflowError).
Proof.
  intros Hs Hid Hfind Hq Hqty Hpos Hbig. unfold receipts.
  rewrite Hs, (ObjectId_of_str_truthy _ _ Hid). cbn [negb]. cbv iota.
  rewrite Hid, Hqty, py_int_por_int.
  replace (qty <=? 0) with false by (symmetry; apply Z.leb_gt; lia).
  rewrite Hfind, (quantity_of_int _ _ Hq).
  unfold update_one. rewrite Hfind. cbn.
  replace (int64 (Z.max 0 (q + qty))) with false; [reflexivity|].
  symmetry. destruct (int64 _) eqn:E; [|reflexivity].
  apply int64_iff in E. lia.
Qed.

Lemma adjust_stock_items ev item_id data st :
  items_col (fst (adjust_stock ev item_id data st)) = items_col st
  \/ exists oid n,
       0 <= n /\
       items_col (fst (adjust_stock ev item_id data st)) =
         set_fields oid [("quantity", VInt n)] (items_col st).
Proof.
  unfold adjust_stock.
  destruct (ObjectId_of (VStr item_id)) as [oid|]; [|now left].
  destruct (py_int (por (dict_get "delta" data) (VInt 0))) as [delta|];
    [|now left].
  destruct (find_one oid (items_col st)) as [doc|]; [|now left].
  destruct (quantity_of doc) as [qty|]; [|now left].
  destruct (update_one oid _ (items_col st)) as [items1|] eqn:Eu; [|now left].
  apply update_one_inv in Eu. subst items1.
  right. exists oid, (Z.max 0 (qty + delta)). split; [lia|].
  destruct (0 <? delta); [destruct (insert_one _ _ _)|]; reflexivity.
Qed.

Lemma receipts_items ev data st :
  items_col (fst (receipts ev data st)) = items_col st
  \/ exists oid n,
       0 <= n /\
       items_col (fst (receipts ev data st)) =
         set_fields oid [("quantity", VInt n)] (items_col st).
Proof.
  unfold receipts.
  destruct (negb (truthy (dict_get "itemId" data))); [now left|].
  destruct (ObjectId_of (dict_get "itemId" data)) as [oid|]; [|now left].
  destruct (py_int (por (dict_get "quantity" data) (VInt 0))) as [qty|];
    [|now left].
  destruct (qty <=? 0); [now left|].
  destruct (find_one oid (items_col st)) as [doc|]; [|now left].
  destruct (quantity_of doc) as [old|]; [|now left].
  destruct (update_one oid _ (items_col st)) as [items1|] eqn:Eu; [|now left].
  apply update_one_inv in Eu. subst items1.
  right. exists oid, (Z.max 0 (old + qty)). split; [lia|].
  destruct (insert_one _ _ _); reflexivity.
Qed.

Lemma update_quantity_keeps_nonneg oid oid0 n col d :
  find_one oid col = Some d ->
  nonneg_quantity d ->
  0 <= n ->
  exists d',
    find_one oid (set_fields oid0 [("quantity", VInt n)] col) = Some d'
    /\ nonneg_quantity d'.
Proof.
  intros Hfind Hd Hn.
  destruct (N.eq_dec oid oid0) as [->|Hne].
  - eexists. split.
    + apply find_one_update_same; [reflexivity | eassumption].
    + exists n. split; [apply quantity_update_get | assumption].
  - exists d. split; [|assumption].
    rewrite find_one_update_other; auto.
Qed.

Lemma step_keeps_nonneg oid st c d :
  find_one oid st.(items_col) = Some d ->
  nonneg_quantity d ->
  exists d',
    find_one oid (step st c).(items_col) = Some d' /\ nonneg_quantity d'.
Proof.
  intros Hfind Hd. unfold step.
  destruct c as [ev [item_id data | data]]; simpl.
  - destruct (adjust_stock_items ev item_id data st)
      as [-> | (oid0 & n & Hn & ->)]; eauto.
    now apply update_quantity_keeps_nonneg with (d := d).
  - destruct (receipts_items ev data st)
      as [-> | (oid0 & n & Hn & ->)]; eauto.
    now apply update_quantity_keeps_nonneg with (d := d).
Qed.

Lemma run_keeps_nonneg calls : forall st oid d,
  find_one oid st.(items_col) = Some d ->
  nonneg_quantity d ->
  exists d',
    find_one oid (run calls st).(items_col) = Some d' /\ nonneg_quantity d'.
Proof.
  unfold run.
  induction calls as [|c calls IH]; intros st oid d Hfind Hd; simpl.
  - eauto.
  - destruct (step_keeps_nonneg oid st c d Hfind Hd) as (d1 & Hf1 & Hd1).
    eapply IH; eauto.
Qed.

(** C1: on the item with quantity 5 and delta 3, the receipt appended by
    [adjust_stock] has quantity 3 but carries neither previousQuantity nor
    newQuantity, while the receipt of POST /api/receipts for the same
    request records 5 and 8. *)
Theorem adjust_stock_receipt_omits_quantities :
  (exists r,
      receipts_col (fst (adjust_stock ev0 hex7 [("delta", VInt 3)] shop)) = [r]
      /\ dict_get "quantity" r = VInt 3
      /\ dict_get "previousQuantity" r = VNone
      /\ dict_get "newQuantity" r = VNone)
  /\ (exists r,
      receipts_col
        (fst (receipts ev0
                [("itemId", VStr hex7); ("quantity", VInt 3)] shop)) = [r]
      /\ dict_get "quantity" r = VInt 3
      /\ dict_get "previousQuantity" r = VInt 5
      /\ dict_get "newQuantity" r = VInt 8).
Proof.
  split; eexists; (split; [vm_compute; reflexivity|]); repeat split.
Qed.

(** C2, as amended: an item whose stored quantity is not negative still
    has a stored quantity that is not negative after any sequence of
    adjust_stock and receive calls, whatever their arguments; a call on
    an existing item stores max(0, quantity + delta) whenever that number
    fits in eight bytes, and is refused by the store, with nothing
    written, when it does not. *)
Theorem ledger_keeps_quantity_nonneg :
  (forall (calls : list (env * call)) (st : store) (oid : ObjectId) (d : dict),
      find_one oid st.(items_col) = Some d ->
      nonneg_quantity d ->
      exists d',
        find_one oid (run calls st).(items_col) = Some d'
        /\ nonneg_quantity d')
  /\ (forall (ev : env) (item_id : string) (oid : ObjectId) (data : dict)
             (st : store) (doc : dict) (q delta : Z),
        ObjectId_of (VStr item_id) = Ok oid ->
        find_one oid st.(items_col) = Some doc ->
        dict_get "quantity" doc = VInt q ->
        dict_get "delta" data = VInt delta ->
        (Z.max 0 (q + delta) < 2 ^ 63 ->
         exists doc',
           find_one oid (step st (ev, AdjustStock item_id data)).(items_col)
             = Some doc'
           /\ dict_get "quantity" doc' = VInt (Z.max 0 (q + delta)))
        /\ (2 ^ 63 <= Z.max 0 (q + delta) ->
            adjust_stock ev item_id data st = (st, Uncaught OverflowError)))
  /\ (forall (ev : env) (data : dict) (st : store) (s : string)
             (oid : ObjectId) (doc : dict) (q qty : Z),
        dict_get "itemId" data = VStr s ->
        ObjectId_of (VStr s) = Ok oid ->
        find_one oid st.(items_col) = Some doc ->
        dict_get "quantity" doc = VInt q ->
        dict_get "quantity" data = VInt qty ->
        0 < qty ->
        (Z.max 0 (q + qty) < 2 ^ 63 ->
         exists doc',
           find_one oid (step st (ev, ReceiveStock data)).(items_col)
             = Some doc'
           /\ dict_get "quantity" doc' = VInt (Z.max 0 (q + qty)))
        /\ (2 ^ 63 <= Z.max 0 (q + qty) ->
            receipts ev data st = (st, Uncaught OverflowError))).
Proof.
  split; [|split].
  - intros calls st oid d. apply run_keeps_nonneg.
  - intros ev item_id oid data st doc q delta Hid Hfind Hq Hd. split.
    + intros Hfit.
      exact (adjust_stock_sets_max ev item_id oid data st doc q delta
               Hid Hfind Hq Hd Hfit).
    + intros Hbig.
      exact (adjust_stock_refused ev item_id oid data st doc q delta
               Hid Hfind Hq Hd Hbig).
  - intros ev data st s oid doc q qty Hs Hid Hfind Hq Hqty Hpos. split.
    + intros Hfit. unfold step. cbn [fst snd].
      exact (receipts_sets_max ev data st s oid doc q qty
               Hs Hid Hfind Hq Hqty Hpos Hfit).
    + intros Hbig.
      exact (receipts_refused ev data st s oid doc q qty
               Hs Hid Hfind Hq Hqty Hpos Hbig).
Qed.

Lemma ledger_keeps_quantity_nonneg_witness :
  (exists d',
      find_one 7%N
        (run [ (ev0, AdjustStock hex7 [("delta", VInt (-100))]);
               (ev0, ReceiveStock [("itemId", VStr hex7); ("quantity", VInt 4)]);
               (ev0, AdjustStock hex7 [("delta", VInt (-1))]) ]
             shop).(items_col) = Some d'
      /\ nonneg_quantity d')
  /\ (exists doc',
        find_one 7%N
          (step shop (ev0, AdjustStock hex7 [("delta", VInt (-100))])).(items_col)
          = Some doc'
        /\ dict_get "quantity" doc' = VInt 0)
  /\ (exists doc',
        find_one 7%N
          (step shop (ev0, ReceiveStock [("itemId", VStr hex7);
                                         ("quantity", VInt 4)])).(items_col)
          = Some doc'
        /\ dict_get "quantity" doc' = VInt 9).
Proof.
  destruct ledger_keeps_quantity_nonneg as (Hinv & Hadj & Hrec).
  split; [|split].
  - apply (Hinv _ shop 7%N mouse).
    + reflexivity.
    + exists 5. split; [reflexivity | lia].
  - destruct (Hadj ev0 hex7 7%N [("delta", VInt (-100))] shop mouse 5 (-100)
                eq_refl eq_refl eq_refl eq_refl) as [H _].
    apply H. reflexivity.
  - destruct (Hrec ev0 [("itemId", VStr hex7); ("quantity", VInt 4)] shop
                hex7 7%N mouse 5 4 eq_refl eq_refl eq_refl eq_refl eq_refl
                eq_refl) as [H _].
    apply H. reflexivity.
Defined.

(** C2, as stated, fails: a delta of 2^70 on the item with quantity 5
    makes max(0, 5 + 2^70), which the store cannot hold; the OverflowError
    of the write escapes the handler and the quantity is still 5. *)
Lemma adjust_stock_huge_delta_not_stored :
  let data := [("delta", VInt (2 ^ 70))] in
  adjust_stock ev0 hex7 data shop = (shop, Uncaught OverflowError)
  /\ error_of (snd (adjust_stock ev0 hex7 data shop)) = Some Unclassified
  /\ find_one 7%N (fst (adjust_stock ev0 hex7 data shop)).(items_col)
       = Some mouse
  /\ dict_get "quantity" mouse = VInt 5
  /\ VInt 5 <> VInt (Z.max 0 (5 + 2 ^ 70)).
Proof.
  intros data. repeat split. discriminate.
Qed.

(** C3: receiving a quantity that is not positive for an existing item is
    answered 400 (InvalidArgument) and the store, receipts and item
    quantities included, is the one the call started from. *)
Theorem receive_nonpositive_rejected :
  forall (ev : env) (data : dict) (st : store) (s : string)
         (oid : ObjectId) (doc : dict) (q : Z),
    dict_get "itemId" data = VStr s ->
    ObjectId_of (VStr s) = Ok oid ->
    find_one oid st.(items_col) = Some doc ->
    dict_get "quantity" data = VInt q ->
    q <= 0 ->
    receipts ev data st = (st, Resp 400 (BError "quantity must be > 0"))
    /\ error_of (snd (receipts ev data st)) = Some InvalidArgument
    /\ receipts_col (fst (receipts ev data st)) = receipts_col st
    /\ find_one oid (fst (receipts ev data st)).(items_col) = Some doc.
Proof.
  intros ev data st s oid doc q Hs Hid Hfind Hq Hle.
  assert (E : receipts ev data st =
              (st, Resp 400 (BError "quantity must be > 0"))).
  { unfold receipts. rewrite Hs, (ObjectId_of_str_truthy _ _ Hid).
    simpl negb. cbv iota. rewrite Hid, Hq.
    replace (py_int (por (VInt q) (VInt 0))) with (Ok q).
    2:{ unfold por. simpl. destruct (q =? 0) eqn:E; simpl; auto.
        apply Z.eqb_eq in E. now subst. }
    apply Z.leb_le in Hle. now rewrite Hle. }
  rewrite E. simpl. auto.
Qed.

Lemma receive_nonpositive_rejected_witness :
  let data := [("itemId", VStr hex7); ("quantity", VInt (-2))] in
  receipts ev0 data shop = (shop, Resp 400 (BError "quantity must be > 0"))
  /\ error_of (snd (receipts ev0 data shop)) = Some InvalidArgument
  /\ receipts_col (fst (receipts ev0 data shop)) = receipts_col shop
  /\ find_one 7%N (fst (receipts ev0 data shop)).(items_col) = Some mouse.
Proof.
  apply (receive_nonpositive_rejected ev0 _ shop hex7 7%N mouse (-2));
    [reflexivity | reflexivity | reflexivity | reflexivity | lia].
Defined.

(** ** Items *)

(** C7: [update_item] with the non-numeric quantity "abc" lets the
    ValueError of [int] escape, which the caller sees as an unclassified
    failure and not as InvalidArgument (the store is left as it was);
    [adjust_stock] answers the same bad number with 400. *)
Theorem update_item_bad_quantity_unclassified :
  update_item hex7 [("quantity", VStr "abc")] shop = (shop, Uncaught ValueError)
  /\ error_of (snd (update_item hex7 [("quantity", VStr "abc")] shop))
       = Some Unclassified
  /\ error_of (snd (adjust_stock ev0 hex7 [("delta", VStr "abc")] shop))
       = Some InvalidArgument.
Proof. repeat split. Qed.

(** C10, as amended: [update_item] stores a negative quantity that fits
    in eight bytes as it is given, with no floor at zero. *)
Theorem update_item_stores_negative_quantity :
  forall (item_id : string) (oid : ObjectId) (st : store) (doc : dict) (n : Z),
    ObjectId_of (VStr item_id) = Ok oid ->
    find_one oid st.(items_col) = Some doc ->
    n < 0 ->
    - 2 ^ 63 <= n ->
    exists doc',
      find_one oid (fst (update_item item_id [("quantity", VInt n)] st)).(items_col)
        = Some doc'
      /\ dict_get "quantity" doc' = VInt n
      /\ ~ nonneg_quantity doc'
      /\ snd (update_item item_id [("quantity", VInt n)] st)
           = Resp 200 (BDoc (VDict doc')).
Proof.
  intros item_id oid st doc n Hid Hfind Hn Hmin.
  unfold update_item. rewrite Hid. simpl collect_fields.
  cbv beta iota. simpl negb. cbv iota. rewrite Hfind.
  rewrite (update_one_ok _ _ _ doc Hfind)
    by (apply bson_error_quantity, int64_iff; lia).
  simpl fst. simpl snd. simpl items_col.
  rewrite (find_one_update_same oid [("quantity", VInt n)] _ doc eq_refl Hfind).
  eexists. split; [reflexivity|].
  assert (G : dict_get "quantity" (dict_update [("quantity", VInt n)] doc)
              = VInt n) by apply quantity_update_get.
  repeat split; auto.
  intros (q & Hq & Hpos). rewrite G in Hq. injection Hq as <-. lia.
Qed.

Lemma update_item_stores_negative_quantity_witness :
  exists doc',
    find_one 7%N (fst (update_item hex7 [("quantity", VInt (-4))] shop)).(items_col)
      = Some doc'
    /\ dict_get "quantity" doc' = VInt (-4)
    /\ ~ nonneg_quantity doc'
    /\ snd (update_item hex7 [("quantity", VInt (-4))] shop)
         = Resp 200 (BDoc (VDict doc')).
Proof.
  apply (update_item_stores_negative_quantity hex7 7%N shop mouse (-4));
    [reflexivity | reflexivity | lia | lia].
Defined.

(** C10, as stated, fails: the negative quantity -(2^70) does not fit in
    eight bytes; the OverflowError of the write escapes [update_item] and
    the stored quantity is still 5. *)
Lemma update_item_huge_negative_not_stored :
  let data := [("quantity", VInt (- 2 ^ 70))] in
  update_item hex7 data shop = (shop, Uncaught OverflowError)
  /\ find_one 7%N (fst (update_item hex7 data shop)).(items_col) = Some mouse
  /\ dict_get "quantity" mouse = VInt 5
  /\ VInt 5 <> VInt (- 2 ^ 70).
Proof.
  intros data. repeat split. discriminate.
Qed.

(** ** Invoices: what [update_invoice] leaves alone *)

Lemma dict_mem_set k k' v d :
  dict_mem k (dict_set k' v d) = String.eqb k k' || dict_mem k d.
Proof.
  induction d as [|[k0 v0] d IH]; simpl.
  - now rewrite orb_false_r.
  - destruct (String.eqb k' k0) eqn:E; simpl.
    + apply String.eqb_eq in E. subst k0.
      destruct (String.eqb k k'); reflexivity.
    + rewrite IH. destruct (String.eqb k k0), (String.eqb k k'); reflexivity.
Qed.

Lemma dict_mem_true_get_set k v d :
  forall k', dict_mem k' (dict_set k v d) = true ->
             k' = k \/ dict_mem k' d = true.
Proof.
  intros k' H. rewrite dict_mem_set in H.
  apply orb_true_iff in H. destruct H as [H|H]; auto.
  left. now apply String.eqb_eq.
Qed.

(** Every key of the collected update is one of the five invoice fields
    and is present in the request. *)
Lemma invoice_update_fields_keys data u :
  invoice_update_fields data = Ok u ->
  forall k, dict_mem k u = true ->
            In k invoice_fields /\ dict_mem k data = true.
Proof.
  unfold invoice_update_fields.
  set (u1 := if dict_mem "customerName" data then _ else _).
  set (u2 := if dict_mem "customerPhone" data then _ else _).
  assert (K1 : forall k, dict_mem k u1 = true ->
                         In k invoice_fields /\ dict_mem k data = true).
  { intros k. subst u1. destruct (dict_mem "customerName" data) eqn:E.
    - intros H. apply dict_mem_true_get_set in H.
      destruct H as [-> | H]; [|discriminate]. simpl. auto.
    - discriminate. }
  assert (K2 : forall k, dict_mem k u2 = true ->
                         In k invoice_fields /\ dict_mem k data = true).
  { intros k. subst u2. destruct (dict_mem "customerPhone" data) eqn:E; auto.
    intros H. apply dict_mem_true_get_set in H.
    destruct H as [-> | H]; auto. simpl. auto. }
  clearbody u1 u2. clear K1.
  intros H.
  assert (K3 : exists u3,
             (forall k, dict_mem k u3 = true ->
                        In k invoice_fields /\ dict_mem k data = true) /\
             (u4 <- (if dict_mem "discountRate" data
                     then f <- py_float (por (dict_get "discountRate" data)
                                             (VInt 0)) ;;
                          Ok (dict_set "discountRate" (VFloat f) u3)
                     else Ok u3) ;;
              if dict_mem "lines" data
              then ls <- py_iter (por (dict_get "lines" data) (VList [])) ;;
                   norm_lines <- normalize_lines ls ;;
                   Ok (dict_set "lines"
                         (VList (map (fun l => VDict (line_doc l)) norm_lines))
                         u4)
              else Ok u4)%result = Ok u).
  { destruct (dict_mem "taxRate" data) eqn:E.
    - destruct (py_float (por (dict_get "taxRate" data) (VInt 0)))
        as [f|]; [|discriminate].
      simpl in H. eexists. split; [|exact H].
      intros k Hk. apply dict_mem_true_get_set in Hk.
      destruct Hk as [-> | Hk]; auto. simpl. auto.
    - simpl in H. eauto. }
  clear H K2. destruct K3 as (u3 & K3 & H).
  assert (K4 : exists u4,
             (forall k, dict_mem k u4 = true ->
                        In k invoice_fields /\ dict_mem k data = true) /\
             (if dict_mem "lines" data
              then ls <- py_iter (por (dict_get "lines" data) (VList [])) ;;
                   norm_lines <- normalize_lines ls ;;
                   Ok (dict_set "lines"
                         (VList (map (fun l => VDict (line_doc l)) norm_lines))
                         u4)
              else Ok u4)%result = Ok u).
  { destruct (dict_mem "discountRate" data) eqn:E.
    - destruct (py_float (por (dict_get "discountRate" data) (VInt 0)))
        as [f|]; [|discriminate].
      simpl in H. eexists. split; [|exact H].
      intros k Hk. apply dict_mem_true_get_set in Hk.
      destruct Hk as [-> | Hk]; auto. simpl. auto 6.
    - simpl in H. eauto. }
  clear H K3. destruct K4 as (u4 & K4 & H).
  destruct (dict_mem "lines" data) eqn:E.
  - destruct (py_iter (por (dict_get "lines" data) (VList [])))
      as [ls|]; [|discriminate].
    simpl in H.
    destruct (normalize_lines ls) as [nls|]; [|discriminate].
    simpl in H. injection H as <-.
    intros k Hk. apply dict_mem_true_get_set in Hk.
    destruct Hk as [-> | Hk]; auto. simpl. auto 7.
  - injection H as <-. exact K4.
Qed.

Lemma update_invoice_store invoice_id data st :
  fst (update_invoice invoice_id data st) = st
  \/ exists oid u,
       ObjectId_of (VStr invoice_id) = Ok oid
       /\ invoice_update_fields data = Ok u
       /\ fst (update_invoice invoice_id data st) =
            set_invoices (set_fields oid u st.(invoices_col)) st.
Proof.
  unfold update_invoice.
  destruct (ObjectId_of (VStr invoice_id)) as [oid|]; [|now left].
  destruct (invoice_update_fields data) as [u|]; [|now left].
  destruct (negb (truthy (VDict u))); [now left|].
  destruct (find_one oid (invoices_col st)) as [d|]; [|now left].
  destruct (update_one oid u (invoices_col st)) as [invoices1|] eqn:Eu;
    [|now left].
  apply update_one_inv in Eu. subst invoices1.
  right. exists oid, u. repeat split.
  cbn [invoices_col set_invoices].
  destruct (find_one oid _) as [doc|]; [|reflexivity].
  destruct (compute_invoice_totals doc); reflexivity.
Qed.

(** C6: [update_invoice] leaves the items and the receipts as they were,
    whatever the request; every invoice is still there, an invoice other
    than the addressed one is unchanged, and in the addressed one a field
    keeps its value unless it is one of customerName, customerPhone,
    taxRate, discountRate and lines and is present in the request. *)
Theorem update_invoice_frame :
  forall (invoice_id : string) (data : dict) (st : store),
    items_col (fst (update_invoice invoice_id data st)) = items_col st
    /\ receipts_col (fst (update_invoice invoice_id data st)) = receipts_col st
    /\ forall (oid : ObjectId) (doc : dict),
         find_one oid (invoices_col st) = Some doc ->
         exists doc',
           find_one oid (invoices_col (fst (update_invoice invoice_id data st)))
             = Some doc'
           /\ (ObjectId_of (VStr invoice_id) <> Ok oid -> doc' = doc)
           /\ forall k,
                ~ In k invoice_fields \/ dict_mem k data = false ->
                dict_get k doc' = dict_get k doc.
Proof.
  intros invoice_id data st.
  destruct (update_invoice_store invoice_id data st)
    as [-> | (oid0 & u & Hid & Hu & ->)].
  - repeat split; auto. intros oid doc H. exists doc. auto.
  - simpl. repeat split; auto.
    intros oid doc Hfind.
    assert (Hkeys := invoice_update_fields_keys data u Hu).
    assert (Hnoid : dict_mem "_id" u = false).
    { destruct (dict_mem "_id" u) eqn:E; auto.
      destruct (Hkeys _ E) as [Hin _]. simpl in Hin.
      repeat (destruct Hin as [Hin|Hin]; [discriminate|]). contradiction. }
    destruct (N.eq_dec oid oid0) as [->|Hne].
    + exists (dict_update u doc). split; [|split].
      * now apply find_one_update_same.
      * intros Hcontra. exfalso. now apply Hcontra.
      * intros k Hk. apply dict_get_update_notin.
        destruct (dict_mem k u) eqn:E; auto.
        destruct (Hkeys _ E) as [Hin Hmem].
        destruct Hk as [Hk|Hk]; [contradiction | congruence].
    + exists doc. split; [|auto].
      rewrite find_one_update_other; auto.
Qed.

Lemma update_invoice_frame_witness :
  let st :=
    mkStore [mouse]
      [[("_id", VOid 3%N); ("number", VStr "INV-1");
        ("lines", VList [VDict [("itemId", VOid 7%N); ("quantity", VInt 1)]])]]
      [] in
  let data :=
    [("lines", VList [VDict [("itemId", VStr hex7); ("quantity", VInt 4)]])] in
  let st' := fst (update_invoice "000000000000000000000003" data st) in
  items_col st' = [mouse]
  /\ exists doc',
       find_one 3%N (invoices_col st') = Some doc'
       /\ dict_get "number" doc' = VStr "INV-1".
Proof.
  intros st data st'.
  destruct (update_invoice_frame "000000000000000000000003" data st)
    as (Hitems & _ & Hinv).
  split; [exact Hitems|].
  destruct (Hinv 3%N _ eq_refl) as (doc' & Hf & _ & Hk).
  exists doc'. split; [exact Hf|].
  rewrite Hk; [reflexivity|]. left. simpl. intuition discriminate.
Defined.

(** ** Invoices: creation *)

Lemma int_to_float_ok z :
  in_float_range z = true -> exists f, int_to_float z = Ok f.
Proof.
  unfold in_float_range, int_to_float.
  destruct (of_Z z); intros H; try discriminate; eauto.
Qed.

Lemma py_float_numeric v :
  numeric_field v = true -> exists f, py_float (por v (VInt 0)) = Ok f.
Proof.
  destruct v; simpl; try discriminate; intros H.
  - now exists (of_Z 0).
  - unfold por. simpl. destruct (z =? 0); simpl.
    + now exists (of_Z 0).
    + now apply int_to_float_ok.
  - unfold por. simpl. destruct (is_zero f); simpl; eauto.
    now exists (of_Z 0).
Qed.

Lemma py_int_integer v :
  integer_field v = true ->
  exists z, py_int (por v (VInt 0)) = Ok z /\ in_float_range z = true.
Proof.
  destruct v; simpl; try discriminate; intros H.
  - now exists 0.
  - exists z. split; [apply py_int_por_int | assumption].
Qed.

Lemma normalize_line_ok l :
  line_input_ok l = true ->
  exists n, normalize_line l = Ok n /\ in_float_range n.(nl_quantity) = true.
Proof.
  destruct l; simpl; try discriminate. intros H.
  apply andb_true_iff in H. destruct H as [Hp Hq].
  destruct (py_float_numeric _ Hp) as (f & Hf).
  destruct (py_int_integer _ Hq) as (z & Hz & Hr).
  unfold normalize_line. simpl. rewrite Hf. simpl. rewrite Hz. simpl.
  eexists. split; [reflexivity | exact Hr].
Qed.

Lemma normalize_lines_ok ls :
  forallb line_input_ok ls = true ->
  exists ns,
    normalize_lines ls = Ok ns
    /\ Forall (fun n => in_float_range n.(nl_quantity) = true) ns
    /\ List.length ns = List.length ls.
Proof.
  induction ls as [|l ls IH]; simpl; intros H.
  - exists []. auto.
  - apply andb_true_iff in H. destruct H as [Hl Hls].
    destruct (normalize_line_ok l Hl) as (n & Hn & Hr).
    destruct (IH Hls) as (ns & Hns & Hrs & Hlen).
    rewrite Hn. simpl. rewrite Hns. simpl.
    exists (n :: ns). repeat split; auto. simpl. now rewrite Hlen.
Qed.

(** A normalized line of a request the store can encode can be encoded. *)
Lemma normalize_line_encodes l n :
  line_input_ok l = true ->
  normalize_line l = Ok n ->
  bson_error l = None ->
  bson_error (VDict (line_doc n)) = None.
Proof.
  intros Hok Hn Hl. destruct l; try discriminate Hn.
  simpl in Hok. apply andb_true_iff in Hok. destruct Hok as [_ Hq].
  unfold normalize_line in Hn. simpl in Hn.
  destruct (py_float (por (dict_get "price" d) (VInt 0))) as [price|];
    [|discriminate].
  simpl in Hn.
  assert (Hz : exists z,
             py_int (por (dict_get "quantity" d) (VInt 0)) = Ok z
             /\ bson_error (VInt z) = None).
  { pose proof (bson_error_get "quantity" d Hl) as Hg.
    destruct (dict_get "quantity" d); try discriminate.
    - now exists 0.
    - exists z. split; [apply py_int_por_int | exact Hg]. }
  destruct Hz as (z & Hz & Hfit). rewrite Hz in Hn.
  simpl in Hn. injection Hn as <-.
  unfold line_doc. cbn [nl_itemId nl_name nl_sku nl_price nl_quantity].
  apply bson_error_dict.
  repeat (constructor; [split; [reflexivity|]; cbn [snd]|]).
  - destruct (if truthy (dict_get "itemId" d) then _ else _); reflexivity.
  - apply bson_error_por; [now apply bson_error_get | reflexivity].
  - apply bson_error_por; [now apply bson_error_get | reflexivity].
  - reflexivity.
  - exact Hfit.
  - constructor.
Qed.

Lemma normalize_lines_encode ls : forall ns,
  forallb line_input_ok ls = true ->
  normalize_lines ls = Ok ns ->
  bson_error (VList ls) = None ->
  bson_error (VList (map (fun l => VDict (line_doc l)) ns)) = None.
Proof.
  induction ls as [|l ls IH]; intros ns Hok Hns Hls.
  - injection Hns as <-. reflexivity.
  - simpl in Hok. apply andb_true_iff in Hok. destruct Hok as [Hok1 Hok2].
    simpl in Hns.
    destruct (normalize_line l) as [n|] eqn:En; [|discriminate].
    simpl in Hns.
    destruct (normalize_lines ls) as [ns'|]; [|discriminate].
    injection Hns as <-.
    apply bson_error_list in Hls.
    inversion Hls as [|? ? Hl1 Hl2]; subst.
    apply bson_error_list. simpl. constructor.
    + now apply normalize_line_encodes with (l := l).
    + apply bson_error_list. apply IH; auto. now apply bson_error_list.
Qed.

Lemma invoice_doc_encodes data t tax disc ns :
  bson_error (VDict data) = None ->
  bson_error (VList (map (fun l => VDict (line_doc l)) ns)) = None ->
  bson_error (VDict (invoice_doc data t tax disc ns)) = None.
Proof.
  intros Hdata Hlines. unfold invoice_doc.
  apply bson_error_dict.
  repeat (constructor; [split; [reflexivity|]; cbn [snd]|]);
    try reflexivity;
    try (apply bson_error_por; [now apply bson_error_get | reflexivity]).
  - now apply bson_error_get.
  - exact Hlines.
  - constructor.
Qed.

Lemma line_doc_quantity n : quantity_of (line_doc n) = Ok n.(nl_quantity).
Proof. apply quantity_of_int. reflexivity. Qed.

Lemma Forall_set_fields (P : dict -> Prop) oid u col :
  (forall d, P d -> P (dict_update u d)) ->
  Forall P col -> Forall P (set_fields oid u col).
Proof.
  intros HP. induction 1 as [|d col Hd Hcol IH]; simpl; auto.
  destruct (has_id oid d); auto.
Qed.

Lemma find_one_In oid col d : find_one oid col = Some d -> In d col.
Proof. intros H. now apply find_some in H. Qed.

Lemma find_one_update_none_other oid oid' u col :
  dict_mem "_id" u = false ->
  find_one oid' col = None -> find_one oid' (set_fields oid u col) = None.
Proof.
  intros Hu Hn. destruct (N.eq_dec oid' oid) as [->|Hne].
  - now rewrite find_one_update_none.
  - now rewrite find_one_update_other.
Qed.

Lemma sold_cons oid line lines :
  sold oid (line :: lines) =
  if refers_to oid line then nl_quantity line :: sold oid lines
  else sold oid lines.
Proof. unfold sold. simpl. now destruct (refers_to oid line). Qed.

(** A line that does not refer to a stored item leaves the writes to
    come as they were. *)
Lemma writes_fit_skip line lines items :
  (forall oid doc, find_one oid items = Some doc -> refers_to oid line = false) ->
  writes_fit (line :: lines) items -> writes_fit lines items.
Proof.
  intros Hskip Hfit oid doc q k Hf Hq.
  specialize (Hfit oid doc q k Hf Hq).
  now rewrite sold_cons, (Hskip oid doc Hf) in Hfit.
Qed.

(** After the write of a line, the writes to come still fit. *)
Lemma writes_fit_step oid0 line lines items doc0 a :
  nl_itemId line = Some oid0 ->
  find_one oid0 items = Some doc0 ->
  dict_get "quantity" doc0 = VInt a ->
  writes_fit (line :: lines) items ->
  writes_fit lines
    (set_fields oid0 [("quantity", VInt (Z.max 0 (a - nl_quantity line)))]
       items).
Proof.
  intros Eid Ef Ha Hfit oid doc q k Hf Hq.
  destruct (N.eq_dec oid oid0) as [->|Hne].
  - rewrite (find_one_update_same oid0
               [("quantity", VInt (Z.max 0 (a - nl_quantity line)))]
               items doc0 eq_refl Ef) in Hf.
    injection Hf as Hdoc. subst doc. rewrite dict_get_set_eq in Hq.
    injection Hq as Hqn. subst q.
    specialize (Hfit oid0 doc0 a (S k) Ef Ha).
    rewrite sold_cons in Hfit. unfold refers_to in Hfit.
    now rewrite Eid, N.eqb_refl in Hfit.
  - rewrite find_one_update_other in Hf by (auto; reflexivity).
    specialize (Hfit oid doc q k Hf Hq).
    rewrite sold_cons in Hfit. unfold refers_to in Hfit. rewrite Eid in Hfit.
    replace (N.eqb oid0 oid) with false in Hfit; [exact Hfit|].
    symmetry. apply N.eqb_neq. congruence.
Qed.

(** The stock loop over normalized lines, on items with integer
    quantities, when every quantity it writes fits in eight bytes: it
    runs to the end; an item ends with its quantity decremented by each
    line that refers to it, floored at zero each time, and with its other
    fields untouched; no item appears. *)
Lemma apply_stock_change_spec lines :
  forall items,
    Forall int_quantity items ->
    writes_fit lines items ->
    exists items',
      apply_stock_change lines items = (items', None)
      /\ Forall int_quantity items'
      /\ (forall oid doc q,
            find_one oid items = Some doc ->
            dict_get "quantity" doc = VInt q ->
            exists doc',
              find_one oid items' = Some doc'
              /\ dict_get "quantity" doc' = VInt (clamp_all q (sold oid lines))
              /\ forall k, k <> "quantity" -> dict_get k doc' = dict_get k doc)
      /\ (forall oid, find_one oid items = None -> find_one oid items' = None).
Proof.
  induction lines as [|line lines IH]; intros items Hitems Hfit.
  - exists items. simpl. repeat split; auto.
    intros oid doc q Hf Hq. exists doc. auto.
  - simpl apply_stock_change. unfold sold. simpl filter. unfold refers_to at 1.
    destruct (nl_itemId line) as [oid0|] eqn:Eid.
    2:{ assert (Hfit' : writes_fit lines items).
        { apply writes_fit_skip with (line := line); [|exact Hfit].
          intros oid doc _. unfold refers_to. now rewrite Eid. }
        destruct (IH items Hitems Hfit') as (items' & Hrun & Hall & Hq & Hnone).
        exists items'. auto. }
    destruct (find_one oid0 items) as [doc0|] eqn:Ef.
    2:{ assert (Hfit' : writes_fit lines items).
        { apply writes_fit_skip with (line := line); [|exact Hfit].
          intros oid doc Hf. unfold refers_to. rewrite Eid.
          apply N.eqb_neq. intros ->. congruence. }
        destruct (IH items Hitems Hfit') as (items' & Hrun & Hall & Hq & Hnone).
        exists items'. repeat split; auto.
        intros oid doc q Hf Hdq.
        destruct (N.eqb oid0 oid) eqn:E.
        - apply N.eqb_eq in E. subst. congruence.
        - now apply Hq. }
    assert (Hint : int_quantity doc0).
    { eapply Forall_forall; [exact Hitems | eapply find_one_In; eauto]. }
    destruct Hint as (a & Ha).
    rewrite (quantity_of_int _ _ Ha), line_doc_quantity. cbn [rbind].
    set (n := Z.max 0 (a - nl_quantity line)).
    assert (Hn : n < 2 ^ 63).
    { pose proof (Hfit oid0 doc0 a 1%nat Ef Ha) as H.
      rewrite sold_cons in H. unfold refers_to in H.
      rewrite Eid, N.eqb_refl in H. exact H. }
    rewrite (update_one_ok _ _ _ doc0 Ef)
      by (apply bson_error_quantity, int64_iff; subst n; lia).
    set (items1 := set_fields oid0 [("quantity", VInt n)] items).
    assert (H1 : Forall int_quantity items1).
    { apply Forall_set_fields; auto.
      intros d _. exists n. apply quantity_update_get. }
    assert (H2 : writes_fit lines items1).
    { subst items1 n. now apply writes_fit_step with (doc0 := doc0). }
    destruct (IH items1 H1 H2) as (items' & Hrun & Hall & Hq & Hnone).
    exists items'. repeat split; auto.
    + intros oid doc q Hf Hdq.
      destruct (N.eqb oid0 oid) eqn:E.
      * apply N.eqb_eq in E. subst oid0.
        assert (doc = doc0) by congruence. subst doc0.
        assert (q = a) by congruence. subst q.
        destruct (Hq oid (dict_update [("quantity", VInt n)] doc) n)
          as (doc' & Hf' & Hq' & Hk').
        { apply find_one_update_same; auto. }
        { apply quantity_update_get. }
        exists doc'. repeat split; auto.
        intros k Hk. rewrite Hk' by assumption.
        apply dict_get_update_notin. simpl.
        destruct (String.eqb k "quantity") eqn:Ek; auto.
        apply String.eqb_eq in Ek. contradiction.
      * apply N.eqb_neq in E.
        apply Hq; auto. subst items1.
        rewrite find_one_update_other; auto.
    + intros oid Hn'. apply Hnone. subst items1.
      now apply find_one_update_none_other.
Qed.

(** Lines that ask for quantities that are not negative only take from
    the stock: the writes fit as soon as the stored quantities do. *)
Lemma clamp_all_le sales : forall q,
  Forall (fun b => 0 <= b) sales -> clamp_all q sales <= Z.max 0 q.
Proof.
  unfold clamp_all. induction sales as [|b sales IH]; intros q H; simpl.
  - lia.
  - inversion H as [|? ? Hb Hs]; subst.
    specialize (IH (Z.max 0 (q - b)) Hs). lia.
Qed.

Lemma writes_fit_nonneg lines items :
  Forall (fun l => 0 <= nl_quantity l) lines ->
  Forall (fun d => forall q, dict_get "quantity" d = VInt q -> q < 2 ^ 63)
    items ->
  writes_fit lines items.
Proof.
  intros Hl Hi oid doc q k Hf Hq.
  assert (Hs : Forall (fun b => 0 <= b) (firstn k (sold oid lines))).
  { apply Forall_forall. intros b Hb.
    assert (Hb' : In b (sold oid lines)).
    { rewrite <- (firstn_skipn k (sold oid lines)).
      apply in_or_app. now left. }
    clear Hb. rename Hb' into Hb.
    unfold sold in Hb. apply in_map_iff in Hb.
    destruct Hb as (l & <- & Hin). apply filter_In in Hin.
    destruct Hin as [Hin _].
    exact (proj1 (Forall_forall _ _) Hl l Hin). }
  pose proof (clamp_all_le _ q Hs) as Hle.
  assert (q < 2 ^ 63).
  { eapply (proj1 (Forall_forall _ _) Hi); [eapply find_one_In|]; eauto. }
  lia.
Qed.

Lemma sum_lines_norm ns :
  Forall (fun n => in_float_range n.(nl_quantity) = true) ns ->
  forall acc,
    exists f,
      sum_lines acc (map (fun l => VDict (line_doc l)) ns) = Ok f.
Proof.
  induction 1 as [|n ns Hn Hns IH]; intros acc; simpl.
  - eauto.
  - destruct (int_to_float_ok _ Hn) as (y & Hy).
    unfold line_amount. simpl.
    assert (Hp : exists p, py_float (por (VFloat (nl_price n)) (VInt 0)) = Ok p).
    { now apply py_float_numeric. }
    destruct Hp as (p & Hp). rewrite Hp. simpl.
    rewrite py_int_por_int. simpl. unfold fmul_int. rewrite Hy. simpl.
    apply IH.
Qed.

Lemma por_list_nil l : por (VList l) (VList []) = VList l.
Proof. destruct l; reflexivity. Qed.

Lemma totals_of_created data ev t tax disc ns :
  Forall (fun n => in_float_range n.(nl_quantity) = true) ns ->
  exists totals,
    compute_invoice_totals
      (dict_set "_id" (VOid ev.(new_id)) (invoice_doc data t tax disc ns))
    = Ok totals.
Proof.
  intros Hns. unfold compute_invoice_totals, subtotal_of.
  replace (dict_get "lines" (dict_set "_id" (VOid ev.(new_id))
                               (invoice_doc data t tax disc ns)))
    with (VList (map (fun l => VDict (line_doc l)) ns)) by reflexivity.
  replace (dict_get "taxRate" (dict_set "_id" (VOid ev.(new_id))
                                 (invoice_doc data t tax disc ns)))
    with (VFloat tax) by reflexivity.
  replace (dict_get "discountRate" (dict_set "_id" (VOid ev.(new_id))
                                      (invoice_doc data t tax disc ns)))
    with (VFloat disc) by reflexivity.
  rewrite por_list_nil. simpl py_iter. simpl rbind.
  destruct (sum_lines_norm ns Hns pzero) as (s & Hs). rewrite Hs. simpl rbind.
  destruct (py_float_numeric (VFloat tax) eq_refl) as (a & Ha).
  destruct (py_float_numeric (VFloat disc) eq_refl) as (b & Hb).
  rewrite Ha, Hb. simpl. eauto.
Qed.

Lemma truthy_por_list v : truthy (por v (VList [])) = truthy v.
Proof. unfold por. destruct (truthy v) eqn:E; auto. Qed.

(** A request with a number and well-formed lines that the store can
    encode goes through every stage of [create_invoice]; when it asks for
    the stock change, the writes of the stock loop are to fit. *)
Lemma create_invoice_ok ev data st ls :
  truthy (dict_get "number" data) = true ->
  dict_get "lines" data = VList ls ->
  ls <> [] ->
  invoice_input_ok data = true ->
  bson_error (VDict data) = None ->
  (truthy (dict_get "applyStockChange" data) = true ->
   stock_change_fits ls st.(items_col)) ->
  exists tax disc ns totals,
    normalize_lines ls = Ok ns
    /\ create_invoice ev data st =
       (mkStore
          (if truthy (dict_get "applyStockChange" data)
           then fst (apply_stock_change ns st.(items_col))
           else st.(items_col))
          (st.(invoices_col) ++
             [dict_set "_id" (VOid ev.(new_id))
                (invoice_doc data (printed_at_of ev (dict_get "printedAt" data))
                   tax disc ns)])
          st.(receipts_col),
        Resp 201
          (BInvoice
             (dict_set "_id" (VOid ev.(new_id))
                (invoice_doc data (printed_at_of ev (dict_get "printedAt" data))
                   tax disc ns))
             totals))
    /\ compute_invoice_totals
         (dict_set "_id" (VOid ev.(new_id))
            (invoice_doc data (printed_at_of ev (dict_get "printedAt" data))
               tax disc ns)) = Ok totals.
Proof.
  intros Hnum Hlines Hne Hok Henc Hitems.
  unfold invoice_input_ok in Hok. rewrite Hlines in Hok.
  apply andb_true_iff in Hok. destruct Hok as [Hok Hd].
  apply andb_true_iff in Hok. destruct Hok as [Hls Ht].
  destruct (py_float_numeric _ Ht) as (tax & Htax).
  destruct (py_float_numeric _ Hd) as (disc & Hdisc).
  destruct (normalize_lines_ok ls Hls) as (ns & Hns & Hrange & _).
  destruct (totals_of_created data ev
              (printed_at_of ev (dict_get "printedAt" data)) tax disc ns Hrange)
    as (totals & Htot).
  exists tax, disc, ns, totals.
  split; [exact Hns|]. split; [|exact Htot].
  assert (Hdoc : bson_error
                   (VDict (invoice_doc data
                             (printed_at_of ev (dict_get "printedAt" data))
                             tax disc ns)) = None).
  { apply invoice_doc_encodes; [exact Henc|].
    apply normalize_lines_encode with (ls := ls); auto.
    rewrite <- Hlines. now apply bson_error_get. }
  unfold create_invoice. rewrite Hnum, Hlines, por_list_nil.
  assert (Htl : truthy (VList ls) = true) by (destruct ls; [contradiction|reflexivity]).
  rewrite Htl. simpl orb. cbv iota.
  unfold invoice_numbers. rewrite Htax, Hdisc. simpl py_iter. simpl rbind.
  rewrite Hns. simpl rbind. cbv iota beta.
  destruct (truthy (dict_get "applyStockChange" data)).
  - destruct (Hitems eq_refl) as [Hint Hfit].
    destruct (apply_stock_change_spec ns _ Hint (Hfit ns Hns))
      as (items' & Hrun & _).
    rewrite Hrun. simpl fst. cbv iota beta.
    cbn [invoices_col set_items].
    rewrite (insert_one_ok _ _ _ Hdoc). rewrite Htot. reflexivity.
  - cbv iota beta. cbn [invoices_col set_items].
    rewrite (insert_one_ok _ _ _ Hdoc). rewrite Htot. reflexivity.
Qed.

Lemma clamp_all_nonneg sales : forall q, sales <> [] -> 0 <= clamp_all q sales.
Proof.
  unfold clamp_all.
  induction sales as [|b sales IH]; intros q Hne; [contradiction|].
  simpl. destruct sales as [|c sales].
  - simpl. lia.
  - apply IH. discriminate.
Qed.

(** C5, as amended: on a well-formed request with applyStockChange set
    that the store can encode, when every quantity the stock is set to
    on the way fits in eight bytes, the invoice is appended and no
    receipt is written; every existing item ends with its quantity
    decremented by each line that refers to it, floored at zero each time
    (so it is not negative once a line refers to it), and lines whose
    itemId is absent or resolves to no item change nothing. *)
Theorem create_invoice_decrements_stock :
  forall (ev : env) (data : dict) (st : store) (ls : list value),
    truthy (dict_get "number" data) = true ->
    dict_get "lines" data = VList ls ->
    ls <> [] ->
    invoice_input_ok data = true ->
    truthy (dict_get "applyStockChange" data) = true ->
    bson_error (VDict data) = None ->
    stock_change_fits ls st.(items_col) ->
    exists (ns : list norm_line) (inv : dict),
      normalize_lines ls = Ok ns
      /\ receipts_col (fst (create_invoice ev data st)) = receipts_col st
      /\ invoices_col (fst (create_invoice ev data st))
           = invoices_col st ++ [inv]
      /\ dict_get "lines" inv = VList (map (fun l => VDict (line_doc l)) ns)
      /\ (forall oid item q,
            find_one oid st.(items_col) = Some item ->
            dict_get "quantity" item = VInt q ->
            exists item',
              find_one oid (items_col (fst (create_invoice ev data st)))
                = Some item'
              /\ dict_get "quantity" item'
                   = VInt (clamp_all q (sold oid ns))
              /\ (sold oid ns <> [] -> 0 <= clamp_all q (sold oid ns))
              /\ (sold oid ns = [] -> dict_get "quantity" item' = VInt q))
      /\ (forall oid,
            find_one oid st.(items_col) = None ->
            find_one oid (items_col (fst (create_invoice ev data st))) = None).
Proof.
  intros ev data st ls Hnum Hlines Hne Hok Happly Henc Hitems.
  destruct (create_invoice_ok ev data st ls Hnum Hlines Hne Hok Henc
              (fun _ => Hitems))
    as (tax & disc & ns & totals & Hns & Hrun & _).
  rewrite Happly in Hrun.
  destruct Hitems as [Hint Hfit].
  destruct (apply_stock_change_spec ns _ Hint (Hfit ns Hns))
    as (items' & Hloop & _ & Hq & Hnone).
  rewrite Hloop in Hrun. simpl fst in Hrun.
  exists ns. eexists. rewrite Hrun. simpl.
  split; [exact Hns|]. split; [reflexivity|]. split; [reflexivity|].
  split; [reflexivity|]. split; [|exact Hnone].
  intros oid item q Hf Hiq.
  destruct (Hq oid item q Hf Hiq) as (item' & Hf' & Hq' & _).
  exists item'. repeat split; auto.
  - now apply clamp_all_nonneg.
  - intros E. now rewrite Hq', E.
Qed.

Lemma create_invoice_decrements_stock_witness :
  let data :=
    [ ("number", VStr "INV-1");
      ("applyStockChange", VBool true);
      ("lines",
       VList [ VDict [("itemId", VStr hex7); ("price", VInt 3);
                      ("quantity", VInt 9)];
               VDict [("itemId", VStr "00000000000000000000000a");
                      ("quantity", VInt 2)] ]) ] in
  exists inv item',
    invoices_col (fst (create_invoice ev0 data shop)) = [inv]
    /\ receipts_col (fst (create_invoice ev0 data shop)) = []
    /\ find_one 7%N (items_col (fst (create_invoice ev0 data shop)))
         = Some item'
    /\ dict_get "quantity" item' = VInt 0
    /\ find_one 10%N (items_col (fst (create_invoice ev0 data shop))) = None.
Proof.
  intros data.
  destruct (create_invoice_decrements_stock ev0 data shop
              [ VDict [("itemId", VStr hex7); ("price", VInt 3);
                       ("quantity", VInt 9)];
                VDict [("itemId", VStr "00000000000000000000000a");
                       ("quantity", VInt 2)] ])
    as (ns & inv & Hns & Hrec & Hinv & _ & Hq & Hnone);
    [ reflexivity | reflexivity | discriminate | reflexivity | reflexivity
    | reflexivity
    | split;
      [ repeat constructor; exists 5; reflexivity
      | intros ns Hns; vm_compute in Hns; injection Hns as <-;
        apply writes_fit_nonneg;
        [ repeat constructor; cbn; lia
        | repeat constructor; intros q Hq; vm_compute in Hq;
          injection Hq as <-; lia ] ]
    | ].
  destruct (Hq 7%N mouse 5 eq_refl eq_refl) as (item' & Hf & Hq' & _).
  exists inv, item'. repeat split; auto.
  rewrite Hq'. vm_compute in Hns. injection Hns as <-. reflexivity.
Defined.

(** C5, as stated, fails: the only line of this request names no stored
    item and asks for 2^70 units; the line is skipped, but the invoice is
    not created: 2^70 does not fit in eight bytes, the OverflowError of
    the insert escapes the handler and no invoice is stored. *)
Lemma create_invoice_huge_quantity_not_created :
  let data :=
    [ ("number", VStr "INV-1");
      ("applyStockChange", VBool true);
      ("lines",
       VList [ VDict [("itemId", VStr "00000000000000000000000a");
                      ("quantity", VInt (2 ^ 70))] ]) ] in
  find_one 10%N shop.(items_col) = None
  /\ create_invoice ev0 data shop = (shop, Uncaught OverflowError)
  /\ invoices_col (fst (create_invoice ev0 data shop)) = [].
Proof.
  intros data. repeat split.
Qed.

(** C8: this request has a number and a line, yet the ValueError of
    [int("two")] escapes [create_invoice]: the caller sees an
    unclassified failure, nothing is returned and no invoice is stored;
    [adjust_stock] answers the same bad number with 400. *)
Lemma create_invoice_bad_quantity_not_persisted :
  let data :=
    [ ("number", VStr "INV-1");
      ("lines", VList [VDict [("price", VInt 3); ("quantity", VStr "two")]]) ] in
  truthy (dict_get "number" data) = true
  /\ truthy (dict_get "lines" data) = true
  /\ create_invoice ev0 data shop = (shop, Uncaught ValueError)
  /\ error_of (snd (create_invoice ev0 data shop)) = Some Unclassified
  /\ ~ (exists inv totals,
          snd (create_invoice ev0 data shop) = Resp 201 (BInvoice inv totals)
          /\ In inv (invoices_col (fst (create_invoice ev0 data shop))))
  /\ error_of (snd (adjust_stock ev0 hex7 [("delta", VStr "two")] shop))
       = Some InvalidArgument.
Proof.
  intros data. repeat split.
  intros (inv & totals & H & _). discriminate H.
Qed.

(** ** Invoice totals *)

Lemma py_float_stored f :
  neg_zero f = false -> py_float (por (VFloat f) (VInt 0)) = Ok f.
Proof.
  destruct f as [[|]| | |]; simpl; intros H; try discriminate; reflexivity.
Qed.

Lemma int_to_float_in_range z :
  in_float_range z = true -> int_to_float z = Ok (of_Z z).
Proof.
  unfold in_float_range, int_to_float.
  destruct (of_Z z); intros H; try discriminate; reflexivity.
Qed.

Lemma sum_lines_stored lines pqs :
  Forall2 stored_line lines pqs ->
  Forall line_in_range pqs ->
  forall acc,
    sum_lines acc lines =
    Ok (fold_left (fun a pq => fadd a (fmul (fst pq) (of_Z (snd pq)))) pqs acc).
Proof.
  induction 1 as [|l pq lines pqs Hl Hrest IH]; intros Hr acc; simpl.
  - reflexivity.
  - inversion Hr as [|? ? [Hz Hq] Hr']; subst.
    destruct Hl as (d & -> & Hp & Hn).
    unfold line_amount. simpl. rewrite Hp, Hn.
    rewrite (py_float_stored _ Hz). simpl.
    rewrite py_int_por_int. simpl.
    unfold fmul_int. rewrite (int_to_float_in_range _ Hq). simpl.
    now apply IH.
Qed.

Lemma compute_invoice_totals_eq inv subtotal tax disc :
  subtotal_of inv = Ok subtotal ->
  py_float (por (dict_get "taxRate" inv) (VInt 0)) = Ok tax ->
  py_float (por (dict_get "discountRate" inv) (VInt 0)) = Ok disc ->
  compute_invoice_totals inv =
  Ok (mkTotals (round2 subtotal) disc
        (round2 (fdiv (fmul subtotal disc) hundred)) tax
        (round2 (fdiv (fmul (after_discount subtotal disc) tax) hundred))
        (round2 (fadd (after_discount subtotal disc)
                      (fdiv (fmul (after_discount subtotal disc) tax) hundred)))).
Proof.
  intros Hs Ht Hd. unfold compute_invoice_totals.
  rewrite Hs. simpl. rewrite Ht. simpl. rewrite Hd. reflexivity.
Qed.

Lemma py_float_finite f :
  is_finite f = true ->
  exists g, py_float (por (VFloat f) (VInt 0)) = Ok g /\ is_finite g = true.
Proof.
  destruct f as [s| | |s m e]; simpl; intros H; try discriminate.
  - now exists (of_Z 0).
  - now exists (S754_finite s m e).
Qed.

Lemma py_float_of_float f :
  exists g,
    py_float (por (VFloat f) (VInt 0)) = Ok g
    /\ (is_zero f = false -> g = f)
    /\ (is_zero f = true -> g = pzero).
Proof.
  destruct f as [s| | |s m e]; simpl.
  - exists (of_Z 0). repeat split. discriminate.
  - eexists. repeat split. discriminate.
  - eexists. repeat split. discriminate.
  - eexists. repeat split. discriminate.
Qed.

(** With a subtotal of zero the value after discount is zero whatever the
    discount rate, an infinity or a NaN included: [max] keeps its first
    argument unless the second is greater. *)
Lemma zero_subtotal_after_discount z disc :
  is_zero z = true -> after_discount z disc = pzero.
Proof.
  destruct z as [sz| | |]; try discriminate. intros _.
  destruct disc as [sd| | |sd md ed]; destruct sz; try destruct sd;
    reflexivity.
Qed.

Lemma zero_subtotal_total z disc tax :
  is_zero z = true -> is_finite tax = true ->
  round2 (fadd (after_discount z disc)
               (fdiv (fmul (after_discount z disc) tax) hundred)) = pzero.
Proof.
  intros Hz Ht. rewrite (zero_subtotal_after_discount z disc Hz).
  destruct tax as [st| | |st mt et]; try discriminate;
    destruct st; reflexivity.
Qed.

(** C4, as amended: on a stored invoice whose lines hold float prices
    (negative zero aside) and integer quantities within float range, the
    returned totals are the rounded values of the formulas of the data
    model; when the subtotal is 100 and the rates are 10 and 8 the totals
    are 10.00, 7.20 and 97.20 and the value after discount is 90.00; when
    the subtotal is zero the total is zero for every discount rate and
    every finite tax rate. *)
Theorem compute_invoice_totals_spec :
  (forall (inv : dict) (lines : list value) (pqs : list (float * Z))
          (disc tax : float),
      dict_get "lines" inv = VList lines ->
      Forall2 stored_line lines pqs ->
      Forall line_in_range pqs ->
      dict_get "discountRate" inv = VFloat disc ->
      dict_get "taxRate" inv = VFloat tax ->
      neg_zero disc = false ->
      neg_zero tax = false ->
      compute_invoice_totals inv = Ok (spec_totals pqs disc tax))
  /\ (forall (inv : dict),
        subtotal_of inv = Ok (dec "100") ->
        dict_get "discountRate" inv = VFloat (dec "10") ->
        dict_get "taxRate" inv = VFloat (dec "8") ->
        compute_invoice_totals inv =
          Ok (mkTotals (dec "100.00") (dec "10") (dec "10.00")
                       (dec "8") (dec "7.20") (dec "97.20"))
        /\ after_discount (dec "100") (dec "10") = dec "90.00")
  /\ (forall (inv : dict) (z disc tax : float),
        subtotal_of inv = Ok z ->
        is_zero z = true ->
        dict_get "discountRate" inv = VFloat disc ->
        dict_get "taxRate" inv = VFloat tax ->
        is_finite tax = true ->
        exists t, compute_invoice_totals inv = Ok t /\ t_total t = pzero).
Proof.
  split; [|split].
  - intros inv lines pqs disc tax Hl Hst Hr Hd Ht Hzd Hzt.
    apply compute_invoice_totals_eq.
    + unfold subtotal_of. rewrite Hl, por_list_nil. simpl.
      now apply sum_lines_stored.
    + rewrite Ht. now apply py_float_stored.
    + rewrite Hd. now apply py_float_stored.
  - intros inv Hs Hd Ht. split; [|reflexivity].
    rewrite (compute_invoice_totals_eq inv (dec "100") (dec "8") (dec "10"));
      auto.
    + rewrite Ht. reflexivity.
    + rewrite Hd. reflexivity.
  - intros inv z disc tax Hs Hz Hd Ht Hft.
    destruct (py_float_of_float disc) as (d & Hpd & _).
    destruct (py_float_finite _ Hft) as (t & Hpt & Ht').
    eexists. split.
    + apply compute_invoice_totals_eq; eauto.
      * rewrite Ht. exact Hpt.
      * rewrite Hd. exact Hpd.
    + simpl. now apply zero_subtotal_total.
Qed.

Lemma compute_invoice_totals_spec_witness :
  compute_invoice_totals invoice100
    = Ok (spec_totals [(dec "25", 4)] (dec "10") (dec "8"))
  /\ compute_invoice_totals invoice100
       = Ok (mkTotals (dec "100.00") (dec "10") (dec "10.00")
                      (dec "8") (dec "7.20") (dec "97.20"))
  /\ exists t, compute_invoice_totals invoice0 = Ok t /\ t_total t = pzero.
Proof.
  destruct compute_invoice_totals_spec as (HA & HB & HC).
  split; [|split].
  - apply (HA invoice100
              [VDict [("price", VFloat (dec "25")); ("quantity", VInt 4)]]);
      try reflexivity.
    + repeat constructor. eexists. repeat split.
    + repeat constructor.
  - apply (HB invoice100); reflexivity.
  - apply (HC invoice0 pzero (dec "-5") (dec "8")); reflexivity.
Defined.

(** With a subtotal of zero and a finite tax rate the total is zero even
    for an infinite discount rate. *)
Example zero_subtotal_infinite_discount :
  round2 (fadd (after_discount pzero (S754_infinity false))
               (fdiv (fmul (after_discount pzero (S754_infinity false))
                           (dec "8")) hundred)) = pzero.
Proof. reflexivity. Qed.

(** C4, as stated, fails: a request whose taxRate is the string "inf" is
    accepted by [float]; the stored invoice has subtotal zero and its
    total is NaN, not zero. *)
Lemma infinite_tax_rate_total_nan :
  let data :=
    [ ("number", VStr "INV-1");
      ("taxRate", VStr "inf");
      ("lines", VList [VDict [("price", VInt 0); ("quantity", VInt 1)]]) ] in
  exists inv t,
    snd (create_invoice ev0 data shop) = Resp 201 (BInvoice inv t)
    /\ subtotal_of inv = Ok pzero
    /\ compute_invoice_totals inv = Ok t
    /\ t_total t = S754_nan
    /\ t_total t <> pzero.
Proof.
  intros data. eexists. eexists.
  split; [vm_compute; reflexivity|].
  repeat split. discriminate.
Qed.

(** ** Dashboard stats *)

Lemma existsb_py_eqb_str c cs :
  existsb (py_eqb (VStr c)) (map VStr cs) = existsb (String.eqb c) cs.
Proof. induction cs as [|x cs IH]; simpl; [reflexivity | now rewrite IH]. Qed.

Lemma stats_step_stored a cs d it :
  stored_item d it ->
  item_in_range it ->
  a.(categories) = map VStr cs ->
  stats_step a d =
  Ok (mkAcc (a.(total_quantity) + it.(i_quantity))
            (if low_stock it
             then a.(low_stock_items) ++ [VStr it.(i_name)]
             else a.(low_stock_items))
            (fadd a.(total_value) (fmul (of_Z it.(i_quantity)) it.(i_price)))
            (map VStr (if nonempty it.(i_category)
                       then add_cat cs it.(i_category) else cs))).
Proof.
  intros (Hn & Hc & Hq & Hm & Hp) (Hz & Hr) Hcats.
  unfold stats_step. rewrite Hq, Hm, Hp, Hn.
  rewrite !py_int_por_int. simpl rbind.
  rewrite (py_float_stored _ Hz). simpl rbind.
  unfold int_fmul. rewrite (int_to_float_in_range _ Hr). simpl rbind.
  assert (Hname : por (VStr (i_name it)) (VStr "") = VStr (i_name it)).
  { unfold por. simpl. destruct (String.eqb (i_name it) "") eqn:E; auto.
    apply String.eqb_eq in E. now rewrite E. }
  rewrite Hname. fold (low_stock it).
  assert (Hcat :
    (if truthy (dict_get "category" d)
     then set_add (dict_get "category" d) (categories a)
     else Ok (categories a)) =
    Ok (map VStr (if nonempty (i_category it)
                  then add_cat cs (i_category it) else cs))).
  { destruct Hc as [Hc | [Hc Hempty]].
    - rewrite Hc. simpl truthy. fold (nonempty (i_category it)).
      destruct (nonempty (i_category it)); [|now rewrite Hcats].
      unfold set_add, add_cat. rewrite Hcats, existsb_py_eqb_str.
      destruct (existsb (String.eqb (i_category it)) cs); [reflexivity|].
      now rewrite map_app.
    - rewrite Hc, Hempty. simpl. now rewrite Hcats. }
  rewrite Hcat. reflexivity.
Qed.

Lemma stats_loop_stored docs its :
  Forall2 stored_item docs its ->
  Forall item_in_range its ->
  forall tq low tv cs,
    stats_loop (mkAcc tq low tv (map VStr cs)) docs =
    Ok (mkAcc
          (tq + fold_right Z.add 0 (map i_quantity its))
          (low ++ map (fun it => VStr it.(i_name)) (filter low_stock its))
          (fold_left
             (fun acc it => fadd acc (fmul (of_Z it.(i_quantity)) it.(i_price)))
             its tv)
          (map VStr
             (fold_left add_cat (filter nonempty (map i_category its)) cs))).
Proof.
  induction 1 as [|d it docs its Hd Hrest IH]; intros Hr tq low tv cs.
  - simpl. now rewrite Z.add_0_r, app_nil_r.
  - inversion Hr as [|? ? Hit Hr']; subst.
    simpl stats_loop.
    rewrite (stats_step_stored (mkAcc tq low tv (map VStr cs)) cs d it
               Hd Hit eq_refl).
    simpl rbind.
    simpl total_quantity. simpl low_stock_items. simpl total_value.
    rewrite (IH Hr'). simpl map. simpl filter. simpl fold_right.
    f_equal. f_equal.
    + lia.
    + destruct (low_stock it); simpl; [now rewrite <- app_assoc | reflexivity].
    + destruct (nonempty (i_category it)); reflexivity.
Qed.

Lemma add_cat_spec cs : forall cs0,
  NoDup cs0 ->
  NoDup (fold_left add_cat cs cs0)
  /\ forall x, In x (fold_left add_cat cs cs0) <-> In x cs0 \/ In x cs.
Proof.
  induction cs as [|c cs IH]; intros cs0 Hnd; simpl.
  - split; [assumption | intuition].
  - assert (Hstep : NoDup (add_cat cs0 c)
                    /\ forall x, In x (add_cat cs0 c) <-> In x cs0 \/ x = c).
    { unfold add_cat. destruct (existsb (String.eqb c) cs0) eqn:E.
      - split; [assumption|]. intros x. split; [auto|].
        intros [H | ->]; auto.
        apply existsb_exists in E. destruct E as (y & Hy & Heq).
        apply String.eqb_eq in Heq. now subst.
      - split.
        + apply NoDup_app; auto.
          * constructor; [intros []| constructor].
          * intros x Hx Hc. destruct Hc as [Hc | []]. subst x.
            assert (existsb (String.eqb c) cs0 = true).
            { apply existsb_exists. exists c. split; auto.
              apply String.eqb_refl. }
            congruence.
        + intros x. rewrite in_app_iff. simpl. intuition. }
    destruct Hstep as [Hnd1 Hin1].
    destruct (IH _ Hnd1) as [Hnd2 Hin2]. split; [assumption|].
    intros x. rewrite Hin2, Hin1. intuition.
Qed.

Lemma distinct_count cs :
  List.length (fold_left add_cat cs []) = List.length (nodup string_dec cs).
Proof.
  destruct (add_cat_spec cs [] (NoDup_nil _)) as [Hnd Hin].
  apply Permutation_length, NoDup_Permutation; auto.
  - apply NoDup_nodup.
  - intros x. rewrite Hin, nodup_In. simpl. intuition.
Qed.

(** C9: over an item store whose documents hold a string name, a string
    or no category, integer quantity and minStockLevel and a float price,
    [stats] answers 200 with the sum of the quantities, the names of the
    items with minStockLevel > 0 and quantity < minStockLevel and their
    number, the sum of quantity * price rounded to two decimals, and the
    number of distinct non-empty categories. *)
Theorem stats_spec :
  forall (st : store) (its : list item),
    Forall2 stored_item st.(items_col) its ->
    Forall item_in_range its ->
    stats st = Resp 200 (BStats (spec_stats its)).
Proof.
  intros st its Hst Hr. unfold stats.
  change (@nil value) with (map VStr []) at 2.
  rewrite (stats_loop_stored _ its Hst Hr). simpl.
  unfold spec_stats. rewrite !length_map. now rewrite distinct_count.
Qed.

(** The example of the claim: quantities 5 and 20, thresholds 10 and 5,
    prices 2 and 1, one category. *)
Lemma stats_spec_witness :
  stats (mkStore [first_item; second_item] [] []) =
  Resp 200 (BStats (mkStats 25 1 [VStr "First"] (dec "30.00") 1)).
Proof.
  rewrite (stats_spec _ [ mkItem "First" "" 5 10 (dec "2");
                          mkItem "Second" "A" 20 5 (dec "1") ]).
  - reflexivity.
  - repeat (constructor; [unfold stored_item; simpl; intuition|]).
    constructor.
  - repeat constructor.
Defined.

(** * Further properties *)

(** ** ObjectId and JSON conversion *)

Lemma hex_of_hex_digit m :
  (m < 16)%N -> hex_of (Json.hex_digit m) = Some m.
Proof.
  intros H.
  assert (Hall : forallb (fun k => match hex_of (Json.hex_digit k) with
                                   | Some j => N.eqb j k
                                   | None => false
                                   end)
                   (map N.of_nat (seq 0 16)) = true) by reflexivity.
  rewrite forallb_forall in Hall.
  specialize (Hall m).
  assert (Hin : In m (map N.of_nat (seq 0 16))).
  { replace m with (N.of_nat (N.to_nat m)) by apply N2Nat.id.
    apply in_map, in_seq. lia. }
  specialize (Hall Hin).
  destruct (hex_of (Json.hex_digit m)) as [j|]; [|discriminate].
  apply N.eqb_eq in Hall. now subst.
Qed.

Lemma hex_digits_length k : forall n acc,
  List.length (Json.hex_digits k n acc) = (k + List.length acc)%nat.
Proof.
  induction k as [|k IH]; intros n acc; simpl; [reflexivity|].
  rewrite IH. simpl. lia.
Qed.

Lemma hex_value_digits k : forall n a acc,
  hex_value a (Json.hex_digits k n acc) =
  hex_value (a * 16 ^ N.of_nat k + n mod 16 ^ N.of_nat k)%N acc.
Proof.
  induction k as [|k IH]; intros n a acc.
  - simpl. f_equal. rewrite N.mod_1_r. lia.
  - cbn [Json.hex_digits]. rewrite IH. cbn [hex_value].
    rewrite hex_of_hex_digit by (apply N.mod_lt; discriminate).
    f_equal. rewrite Nat2N.inj_succ, N.pow_succ_r'.
    rewrite (N.Div0.mod_mul_r n 16 (16 ^ N.of_nat k)). lia.
Qed.

Lemma hex_digit_printed m : (m < 16)%N -> Json.printed_digit (Json.hex_digit m).
Proof.
  intros H. split; [|exists m; now apply hex_of_hex_digit].
  assert (Hall : forallb (fun k => negb (is_hex_space (Json.hex_digit k)))
                   (map N.of_nat (seq 0 16)) = true) by reflexivity.
  rewrite forallb_forall in Hall.
  assert (Hin : In m (map N.of_nat (seq 0 16))).
  { replace m with (N.of_nat (N.to_nat m)) by apply N2Nat.id.
    apply in_map, in_seq. lia. }
  specialize (Hall m Hin). now apply negb_true_iff in Hall.
Qed.

Lemma hex_digits_printed k : forall n acc,
  Forall Json.printed_digit acc -> Forall Json.printed_digit (Json.hex_digits k n acc).
Proof.
  induction k as [|k IH]; intros n acc Hacc; [exact Hacc|].
  cbn [Json.hex_digits]. apply IH. constructor; [|exact Hacc].
  apply hex_digit_printed. apply N.mod_lt. discriminate.
Qed.

(** On digits without white space [bytes.fromhex] reads one byte for two
    digits and the number is the one the digits spell. *)
Lemma fromhex_digits p : forall l k acc,
  List.length l = (2 * p)%nat ->
  Forall Json.printed_digit l ->
  fromhex k acc l =
  match hex_value acc l with
  | Some v => Some ((k + N.of_nat p)%N, v)
  | None => None
  end.
Proof.
  induction p as [|p IH]; intros l k acc Hlen Hall.
  - destruct l; [|discriminate]. cbn. now rewrite N.add_0_r.
  - destruct l as [|c1 [|c2 l]]; try discriminate; [cbn in Hlen; lia|].
    inversion Hall as [|? ? (Hs1 & a & Ha) Hall1]; subst.
    inversion Hall1 as [|? ? (Hs2 & b & Hb) Hall2]; subst.
    cbn [fromhex hex_value]. rewrite Hs1, Ha, Hb.
    rewrite (IH l) by (cbn in Hlen; auto; lia).
    replace (256 * acc + 16 * a + b)%N with (16 * (16 * acc + a) + b)%N by lia.
    destruct (hex_value _ l) as [v|]; [|reflexivity].
    replace (k + 1 + N.of_nat p)%N with (k + N.of_nat (S p))%N by lia.
    reflexivity.
Qed.

Lemma str_oid_parses o :
  (o < 2 ^ 96)%N -> ObjectId_of (VStr (Json.str_oid o)) = Ok o.
Proof.
  intros Ho. unfold ObjectId_of, Json.str_oid.
  replace (o <? 2 ^ 96)%N with true by (symmetry; now apply N.ltb_lt).
  rewrite list_ascii_of_string_of_list_ascii.
  rewrite hex_digits_length. simpl Nat.eqb. cbv iota.
  rewrite (fromhex_digits 12)
    by (rewrite ?hex_digits_length; auto using hex_digits_printed).
  rewrite hex_value_digits. simpl hex_value.
  change (16 ^ N.of_nat 24)%N with (2 ^ 96)%N.
  rewrite N.mod_small by assumption. reflexivity.
Qed.

(** X1: an ObjectId of twelve bytes printed as 24 hexadecimal digits is
    read back by [ObjectId] as the same id. *)
Theorem ObjectId_of_str_oid :
  forall o : ObjectId,
    (o < 2 ^ 96)%N -> ObjectId_of (VStr (Json.str_oid o)) = Ok o.
Proof. exact str_oid_parses. Qed.

Lemma ObjectId_of_str_oid_witness :
  ObjectId_of (VStr (Json.str_oid 255%N)) = Ok 255%N.
Proof. apply ObjectId_of_str_oid. reflexivity. Defined.

(** Induction over a value and the values nested in it. *)
Lemma value_nested_ind (P : value -> Prop) :
  P VNone ->
  (forall b, P (VBool b)) ->
  (forall z, P (VInt z)) ->
  (forall f, P (VFloat f)) ->
  (forall s, P (VStr s)) ->
  (forall l, Forall P l -> P (VList l)) ->
  (forall d, Forall (fun kv => P (snd kv)) d -> P (VDict d)) ->
  (forall o, P (VOid o)) ->
  (forall t, P (VDate t)) ->
  forall v, P v.
Proof.
  intros HN HB HI HF HS HL HD HO HT.
  fix IH 1.
  intros [ |b|z|f|s|l|d|o|t];
    [ apply HN | apply HB | apply HI | apply HF | apply HS | | | apply HO
    | apply HT ].
  - apply HL. induction l as [|x l IHl]; constructor; [apply IH | exact IHl].
  - apply HD. induction d as [|[k x] d IHd]; constructor;
      [apply IH | exact IHd].
Qed.

Lemma to_jsonable_safe iso v : Json.json_safe (Json._to_jsonable iso v) = true.
Proof.
  induction v using value_nested_ind; simpl; auto.
  - rewrite forallb_forall. intros x Hx. apply in_map_iff in Hx.
    destruct Hx as (y & <- & Hy).
    rewrite Forall_forall in H. now apply H.
  - rewrite forallb_forall. intros [k x] Hx. apply in_map_iff in Hx.
    destruct Hx as ([k' y] & Heq & Hy). injection Heq as <- <-.
    rewrite Forall_forall in H. now apply (H (k', y)).
Qed.

Lemma to_jsonable_of_safe iso v :
  Json.json_safe v = true -> Json._to_jsonable iso v = v.
Proof.
  induction v using value_nested_ind; simpl; auto; try discriminate.
  - intros Hs. f_equal. rewrite forallb_forall in Hs.
    rewrite Forall_forall in H.
    rewrite <- (map_id l) at 2. apply map_ext_in. auto.
  - intros Hs. f_equal. rewrite forallb_forall in Hs.
    rewrite Forall_forall in H.
    rewrite <- (map_id d) at 2. apply map_ext_in.
    intros [k x] Hin. f_equal. apply (H (k, x) Hin). exact (Hs (k, x) Hin).
Qed.

(** X2: [_to_jsonable] leaves no ObjectId and no datetime at any depth,
    changes nothing in a value that has none, and so converting twice is
    converting once. *)
Theorem to_jsonable_json_safe :
  forall (iso : Z -> string) (v : value),
    Json.json_safe (Json._to_jsonable iso v) = true
    /\ (Json.json_safe v = true -> Json._to_jsonable iso v = v)
    /\ Json._to_jsonable iso (Json._to_jsonable iso v) = Json._to_jsonable iso v.
Proof.
  intros iso v. split; [apply to_jsonable_safe|]. split.
  - apply to_jsonable_of_safe.
  - apply to_jsonable_of_safe, to_jsonable_safe.
Qed.

Lemma to_jsonable_json_safe_witness :
  Json._to_jsonable (fun _ => "2025-01-01T00:00:00")
    (VList [VInt 1; VStr "a"]) = VList [VInt 1; VStr "a"].
Proof.
  destruct (to_jsonable_json_safe (fun _ => "2025-01-01T00:00:00")
              (VList [VInt 1; VStr "a"])) as (_ & H & _).
  apply H. reflexivity.
Defined.

Lemma dict_get_map_jsonable iso k d :
  dict_get k
    (map (fun kv : string * value =>
            let (k0, x) := kv in (k0, Json._to_jsonable iso x)) d)
  = Json._to_jsonable iso (dict_get k d).
Proof.
  induction d as [|[k0 x] d IH]; simpl; [reflexivity|].
  destruct (String.eqb k k0); auto.
Qed.

Lemma dict_mem_map_jsonable iso k d :
  dict_mem k
    (map (fun kv : string * value =>
            let (k0, x) := kv in (k0, Json._to_jsonable iso x)) d)
  = dict_mem k d.
Proof.
  induction d as [|[k0 x] d IH]; simpl; [reflexivity|]. now rewrite IH.
Qed.

Lemma dict_mem_del k d : dict_mem k (Json.dict_del k d) = false.
Proof.
  unfold Json.dict_del.
  induction d as [|[k0 x] d IH]; simpl; [reflexivity|].
  destruct (String.eqb k k0) eqn:E; simpl; [exact IH|]. now rewrite E.
Qed.

Lemma dict_get_del_neq k k' d :
  k' <> k -> dict_get k' (Json.dict_del k d) = dict_get k' d.
Proof.
  intros Hne. unfold Json.dict_del.
  induction d as [|[k0 x] d IH]; simpl; [reflexivity|].
  destruct (String.eqb k k0) eqn:E; simpl.
  - apply String.eqb_eq in E. subst k0.
    destruct (String.eqb k' k) eqn:E'; auto.
    apply String.eqb_eq in E'. contradiction.
  - now rewrite IH.
Qed.

Lemma dict_mem_del_neq k k' d :
  k' <> k -> dict_mem k' (Json.dict_del k d) = dict_mem k' d.
Proof.
  intros Hne. unfold Json.dict_del.
  induction d as [|[k0 x] d IH]; simpl; [reflexivity|].
  destruct (String.eqb k k0) eqn:E; simpl.
  - apply String.eqb_eq in E. subst k0.
    destruct (String.eqb k' k) eqn:E'; auto.
    apply String.eqb_eq in E'. contradiction.
  - now rewrite IH.
Qed.

Lemma dict_mem_get_none k d : dict_mem k d = false -> dict_get k d = VNone.
Proof.
  induction d as [|[k0 x] d IH]; simpl; [reflexivity|].
  destruct (String.eqb k k0); simpl; [discriminate | exact IH].
Qed.

(** What [doc_to_dict] makes of a stored document, which has an [_id]. *)
Lemma doc_to_dict_stored iso d o :
  dict_get "_id" d = VOid o ->
  exists raw,
    Json.doc_to_dict iso (Some d) = VDict raw
    /\ dict_mem "_id" raw = false
    /\ dict_get "id" raw = VStr (Json.str_oid o)
    /\ forall k, k <> "_id" -> k <> "id" ->
                 dict_get k raw = Json._to_jsonable iso (dict_get k d)
                 /\ dict_mem k raw = dict_mem k d.
Proof.
  intros Hid. unfold Json.doc_to_dict.
  assert (Hmem : dict_mem "_id" d = true).
  { destruct (dict_mem "_id" d) eqn:E; auto.
    rewrite (dict_mem_get_none _ _ E) in Hid. discriminate. }
  assert (Ht : truthy (VDict d) = true).
  { destruct d; [discriminate | reflexivity]. }
  rewrite Ht. cbn [negb Json._to_jsonable].
  rewrite dict_mem_map_jsonable, Hmem, dict_get_map_jsonable, Hid.
  cbn [Json._to_jsonable].
  eexists. split; [reflexivity|]. split; [apply dict_mem_del|]. split.
  - rewrite dict_get_del_neq by discriminate. apply dict_get_set_eq.
  - intros k H1 H2. split.
    + rewrite dict_get_del_neq by assumption.
      rewrite dict_get_set_neq by assumption. apply dict_get_map_jsonable.
    + rewrite dict_mem_del_neq by assumption.
      rewrite dict_mem_set, dict_mem_map_jsonable.
      destruct (String.eqb k "id") eqn:E; [|reflexivity].
      apply String.eqb_eq in E. contradiction.
Qed.

(** X3: [doc_to_dict] renames [_id] to [id]: the result has no [_id], its
    [id] is the hexadecimal string that [ObjectId] reads back as the id of
    the document, and every other field is the converted stored field. *)
Theorem doc_to_dict_promotes_id :
  forall (iso : Z -> string) (d : dict) (o : ObjectId),
    dict_get "_id" d = VOid o ->
    (o < 2 ^ 96)%N ->
    exists raw,
      Json.doc_to_dict iso (Some d) = VDict raw
      /\ dict_mem "_id" raw = false
      /\ ObjectId_of (dict_get "id" raw) = Ok o
      /\ forall k, k <> "_id" -> k <> "id" ->
                   dict_get k raw = Json._to_jsonable iso (dict_get k d).
Proof.
  intros iso d o Hid Ho.
  destruct (doc_to_dict_stored iso d o Hid) as (raw & Hr & Hm & Hi & Hk).
  exists raw. split; [exact Hr|]. split; [exact Hm|]. split.
  - rewrite Hi. now apply str_oid_parses.
  - intros k H1 H2. now apply Hk.
Qed.

Lemma doc_to_dict_promotes_id_witness :
  exists raw,
    Json.doc_to_dict (fun _ => "") (Some mouse) = VDict raw
    /\ dict_mem "_id" raw = false
    /\ ObjectId_of (dict_get "id" raw) = Ok 7%N
    /\ forall k, k <> "_id" -> k <> "id" ->
                 dict_get k raw = Json._to_jsonable (fun _ => "") (dict_get k mouse).
Proof.
  apply (doc_to_dict_promotes_id (fun _ => "") mouse 7%N); reflexivity.
Defined.

(** ** Batch numbers *)

Lemma digit_cases d : is_digit d ->
  d = 0 \/ d = 1 \/ d = 2 \/ d = 3 \/ d = 4 \/ d = 5 \/ d = 6 \/ d = 7
  \/ d = 8 \/ d = 9.
Proof. unfold is_digit. lia. Qed.

Lemma digit_char_facts d :
  is_digit d ->
  digit_of (digit_char d) = Some d
  /\ is_space (digit_char d) = false
  /\ Ascii.eqb (digit_char d) "-" = false
  /\ Ascii.eqb (digit_char d) "+" = false.
Proof.
  intros H. apply digit_cases in H.
  repeat (destruct H as [-> | H]; [repeat split|]). subst. repeat split.
Qed.

Lemma digits_tail_digits ds : forall a c,
  Forall is_digit ds ->
  digits_tail a c (map digit_char ds)
  = (horner ds a, c + Z.of_nat (List.length ds), []).
Proof.
  induction ds as [|d ds IH]; intros a c H.
  - simpl. now rewrite Z.add_0_r.
  - inversion H as [|? ? Hd Hds]; subst.
    cbn [map digits_tail].
    destruct (digit_char_facts d Hd) as (-> & _).
    rewrite IH by assumption. cbn [horner fold_left List.length].
    f_equal. f_equal. lia.
Qed.

Lemma strip_no_space l :
  Forall (fun c => is_space c = false) l -> strip l = l.
Proof.
  intros H.
  assert (L : forall l', Forall (fun c => is_space c = false) l' ->
                         lstrip l' = l').
  { intros [|c l'] H'; [reflexivity|].
    inversion H'; subst. simpl. now replace (is_space c) with false. }
  unfold strip. rewrite (L l H).
  rewrite L by (apply Forall_rev; exact H).
  apply rev_involutive.
Qed.

(** A non-empty list of digits is read by [int_of_string] as its value. *)
Lemma int_of_string_digits d ds :
  Forall is_digit (d :: ds) ->
  int_of_string (string_of_list_ascii (map digit_char (d :: ds)))
  = Some (horner (d :: ds) 0).
Proof.
  intros H. unfold int_of_string.
  rewrite list_ascii_of_string_of_list_ascii.
  rewrite strip_no_space.
  2:{ apply Forall_map. eapply Forall_impl; [|exact H].
      intros x Hx. now destruct (digit_char_facts x Hx) as (_ & ? & _). }
  inversion H as [|? ? Hd Hds]; subst.
  destruct (digit_char_facts d Hd) as (Hdig & _ & Hm & Hp).
  cbn [map sign_of]. rewrite Hm, Hp.
  unfold digits. rewrite Hdig.
  rewrite digits_tail_digits by assumption.
  cbn [horner fold_left]. now rewrite Z.mul_0_r, Z.add_0_l.
Qed.

Lemma horner_app ds1 ds2 a : horner (ds1 ++ ds2) a = horner ds2 (horner ds1 a).
Proof. unfold horner. apply fold_left_app. Qed.

Lemma horner_zeros k a : a = 0 -> horner (repeat 0 k) a = 0.
Proof. intros ->. induction k as [|k IH]; simpl; auto. Qed.

(** With enough fuel, [dec_digits] puts the decimal digits of [n] in
    front of the accumulator. *)
Lemma dec_digits_spec f : forall n acc,
  0 <= n < 2 ^ Z.of_nat (S f) ->
  exists d ds,
    dec_digits (S f) n acc = (d :: ds) ++ acc
    /\ Forall is_digit (d :: ds)
    /\ horner (d :: ds) 0 = n
    /\ forall k, (0 < k)%nat -> n < 10 ^ Z.of_nat k ->
                 (List.length (d :: ds) <= k)%nat.
Proof.
  induction f as [|f IH]; intros n acc Hn.
  - exists n, []. change (2 ^ Z.of_nat 1) with 2 in Hn.
    cbn [dec_digits]. replace (n <? 10) with true by (symmetry; apply Z.ltb_lt; lia).
    split; [reflexivity|]. split; [|split].
    + constructor; [unfold is_digit; lia | constructor].
    + cbn. lia.
    + intros k Hk _. simpl. lia.
  - change (dec_digits (S (S f)) n acc)
      with (if n <? 10 then n :: acc
            else dec_digits (S f) (n / 10) (n mod 10 :: acc)).
    destruct (n <? 10) eqn:E.
    + apply Z.ltb_lt in E. exists n, [].
      split; [reflexivity|]. split; [|split].
      * constructor; [unfold is_digit; lia | constructor].
      * cbn. lia.
      * intros k Hk _. simpl. lia.
    + apply Z.ltb_ge in E.
      assert (Hdiv : 0 <= n / 10 < 2 ^ Z.of_nat (S f)).
      { split; [apply Z.div_pos; lia|].
        replace (Z.of_nat (S (S f))) with (Z.of_nat (S f) + 1) in Hn by lia.
        rewrite Z.pow_add_r in Hn by lia.
        change (2 ^ 1) with 2 in Hn.
        apply Z.div_lt_upper_bound; [lia|].
        destruct Hn as [_ Hn]. rewrite Z.mul_comm in Hn.
        eapply Z.lt_le_trans; [exact Hn|].
        apply Z.mul_le_mono_nonneg_r; [apply Z.pow_nonneg|]; lia. }
      destruct (IH (n / 10) (n mod 10 :: acc) Hdiv)
        as (d & ds & Heq & Hdig & Hval & Hlen).
      exists d, (ds ++ [n mod 10]). split; [|split; [|split]].
      * rewrite Heq. cbn [app]. now rewrite <- app_assoc.
      * change (d :: ds ++ [n mod 10]) with ((d :: ds) ++ [n mod 10]).
        apply Forall_app. split; [assumption|].
        constructor; [|constructor].
        unfold is_digit. pose proof (Z.mod_pos_bound n 10). lia.
      * change (d :: ds ++ [n mod 10]) with ((d :: ds) ++ [n mod 10]).
        rewrite horner_app, Hval. unfold horner. cbn [fold_left].
        pose proof (Z.div_mod n 10). lia.
      * intros k Hk Hlt.
        change (d :: ds ++ [n mod 10]) with ((d :: ds) ++ [n mod 10]).
        rewrite length_app. cbn [List.length].
        destruct k as [|[|k]];
          [lia | change (10 ^ Z.of_nat 1) with 10 in Hlt; lia |].
        assert (n / 10 < 10 ^ Z.of_nat (S k)).
        { replace (Z.of_nat (S (S k))) with (Z.of_nat (S k) + 1) in Hlt by lia.
          rewrite Z.pow_add_r in Hlt by lia.
          change (10 ^ 1) with 10 in Hlt.
          apply Z.div_lt_upper_bound; [lia|].
          rewrite Z.mul_comm. exact Hlt. }
        specialize (Hlen (S k) ltac:(lia) H). cbn [List.length] in Hlen. lia.
Qed.

(** [str(n)] of a natural number is a non-empty run of digits of value
    [n], of at most [k] digits when [n < 10^k]. *)
Lemma str_int_nonneg n :
  0 <= n ->
  exists d ds,
    str_int n = map digit_char (d :: ds)
    /\ Forall is_digit (d :: ds)
    /\ horner (d :: ds) 0 = n
    /\ forall k, (0 < k)%nat -> n < 10 ^ Z.of_nat k ->
                 (List.length (d :: ds) <= k)%nat.
Proof.
  intros Hn. unfold str_int.
  replace (n <? 0) with false by (symmetry; apply Z.ltb_ge; lia).
  rewrite Z.abs_eq by assumption.
  destruct (dec_digits_spec (Z.to_nat (Z.log2 n)) n []) as (d & ds & Heq & H).
  { split; [assumption|].
    rewrite Nat2Z.inj_succ, Z2Nat.id by apply Z.log2_nonneg.
    destruct (Z.eq_dec n 0) as [->|Hne]; [reflexivity|].
    apply Z.log2_spec. lia. }
  exists d, ds. rewrite Heq, app_nil_r. split; [reflexivity | exact H].
Qed.

(** The zero-padded counter of a batch number reads back as the counter. *)
Lemma zfill_str_int n :
  0 <= n ->
  int_of_string (string_of_list_ascii (zfill 3 (str_int n))) = Some n
  /\ (3 <= List.length (zfill 3 (str_int n)))%nat
  /\ (n < 1000 -> List.length (zfill 3 (str_int n)) = 3%nat).
Proof.
  intros Hn.
  destruct (str_int_nonneg n Hn) as (d & ds & Heq & Hdig & Hval & Hlen).
  pose proof (Forall_inv Hdig) as Hd.
  destruct (digit_char_facts d Hd) as (_ & _ & Hm & Hp).
  assert (Hz : zfill 3 (str_int n)
               = map digit_char
                   (repeat 0 (3 - List.length (d :: ds)) ++ d :: ds)).
  { unfold zfill. rewrite Heq. cbn [map]. rewrite Hm, Hp. cbn [orb].
    rewrite map_app, map_repeat. cbn [map List.length].
    now rewrite length_map. }
  rewrite Hz. split; [|split].
  - set (k := (3 - List.length (d :: ds))%nat).
    assert (Hall : Forall is_digit (repeat 0 k ++ d :: ds)).
    { apply Forall_app. split; [|assumption].
      apply Forall_forall. intros x Hx. apply repeat_spec in Hx. subst.
      unfold is_digit. lia. }
    destruct (repeat 0 k ++ d :: ds) as [|x xs] eqn:E.
    { destruct k; discriminate. }
    rewrite int_of_string_digits by assumption.
    rewrite <- E, horner_app, horner_zeros by reflexivity. now rewrite Hval.
  - rewrite length_map, length_app, repeat_length. lia.
  - intros Hlt. rewrite length_map, length_app, repeat_length.
    specialize (Hlen 3%nat ltac:(lia) Hlt). lia.
Qed.

(** X4: a batch number is [BATCH-], the year, a dash and a counter; the
    counter reads back as one more than the number of items, has at least
    three characters, and exactly three while there are fewer than 999
    items. *)
Theorem generate_batch_number_counter :
  forall (year : Z) (st : store),
    exists counter : list ascii,
      generate_batch_number year st =
        string_of_list_ascii
          (list_ascii_of_string "BATCH-" ++ str_int year ++
           list_ascii_of_string "-" ++ counter)
      /\ int_of_string (string_of_list_ascii counter)
           = Some (Z.of_nat (List.length st.(items_col)) + 1)
      /\ (3 <= List.length counter)%nat
      /\ ((List.length st.(items_col) < 999)%nat ->
          List.length counter = 3%nat).
Proof.
  intros year st.
  destruct (zfill_str_int (Z.of_nat (List.length st.(items_col)) + 1))
    as (Hp & Hl & H3); [lia|].
  eexists. split; [reflexivity|]. repeat split; auto.
  intros Hlt. apply H3. lia.
Qed.

(** X5: in one year, two stores get the same batch number exactly when
    they hold the same number of items. *)
Theorem generate_batch_number_same_iff_same_count :
  forall (year : Z) (st1 st2 : store),
    generate_batch_number year st1 = generate_batch_number year st2
    <-> List.length st1.(items_col) = List.length st2.(items_col).
Proof.
  intros year st1 st2. split.
  - unfold generate_batch_number. intros H.
    apply (f_equal list_ascii_of_string) in H.
    rewrite !list_ascii_of_string_of_list_ascii in H.
    apply app_inv_head in H. apply app_inv_head in H.
    apply app_inv_head in H.
    destruct (zfill_str_int (Z.of_nat (List.length st1.(items_col)) + 1))
      as (H1 & _); [lia|].
    destruct (zfill_str_int (Z.of_nat (List.length st2.(items_col)) + 1))
      as (H2 & _); [lia|].
    rewrite H in H1. rewrite H1 in H2. injection H2 as H2. lia.
  - unfold generate_batch_number. now intros ->.
Qed.

(** ** Items: create, fetch, delete *)

Lemma find_one_app_none oid l1 l2 :
  find_one oid l1 = None -> find_one oid (l1 ++ l2) = find_one oid l2.
Proof.
  unfold find_one. induction l1 as [|d l1 IH]; simpl; [reflexivity|].
  destruct (has_id oid d); [discriminate | exact IH].
Qed.

Lemma truthy_str_nonempty s : s <> "" -> truthy (VStr s) = true.
Proof. destruct s; [contradiction | reflexivity]. Qed.







Lemma delete_one_length oid col d :
  find_one oid col = Some d ->
  S (List.length (delete_one oid col)) = List.length col.
Proof.
  unfold find_one. induction col as [|d0 col IH]; simpl; [discriminate|].
  destruct (has_id oid d0); [reflexivity|].
  intros H. simpl. now rewrite IH.
Qed.

Lemma find_one_delete_other oid oid' col :
  oid' <> oid -> find_one oid' (delete_one oid col) = find_one oid' col.
Proof.
  intros Hne. unfold find_one.
  induction col as [|d0 col IH]; simpl; [reflexivity|].
  destruct (has_id oid d0) eqn:E; simpl.
  - destruct (has_id oid' d0) eqn:E'; [|reflexivity].
    exfalso. apply Hne. eapply has_id_inj; eauto.
  - now rewrite IH.
Qed.

Lemma find_one_filter_nil oid col :
  filter (has_id oid) col = [] -> find_one oid col = None.
Proof.
  unfold find_one. induction col as [|d0 col IH]; simpl; [reflexivity|].
  destruct (has_id oid d0); [discriminate | exact IH].
Qed.

Lemma find_one_delete_same oid col :
  (List.length (filter (has_id oid) col) <= 1)%nat ->
  find_one oid (delete_one oid col) = None.
Proof.
  induction col as [|d0 col IH]; simpl; [reflexivity|].
  destruct (has_id oid d0) eqn:E; simpl; intros H.
  - apply find_one_filter_nil.
    destruct (filter (has_id oid) col); [reflexivity | simpl in H; lia].
  - unfold find_one in *. simpl. rewrite E. now apply IH.
Qed.

(** X8: deleting an existing item removes one document from the items,
    leaves every other item, the invoices and the receipts as they were
    (nothing cascades), and, when the id is held by one document only,
    [get_item] then answers 404. *)
Theorem delete_item_removes_only_the_item :
  forall (iso : Z -> string) (item_id : string) (oid : ObjectId)
         (st : store) (doc : dict),
    ObjectId_of (VStr item_id) = Ok oid ->
    find_one oid st.(items_col) = Some doc ->
    snd (delete_item item_id st) = Resp 200 (BDoc (VDict [("status", VStr "ok")]))
    /\ S (List.length (fst (delete_item item_id st)).(items_col))
       = List.length st.(items_col)
    /\ (forall oid', oid' <> oid ->
          find_one oid' (fst (delete_item item_id st)).(items_col)
          = find_one oid' st.(items_col))
    /\ invoices_col (fst (delete_item item_id st)) = invoices_col st
    /\ receipts_col (fst (delete_item item_id st)) = receipts_col st
    /\ ((List.length (filter (has_id oid) st.(items_col)) <= 1)%nat ->
        get_item iso item_id (fst (delete_item item_id st))
        = Resp 404 (BError "Item not found")).
Proof.
  intros iso item_id oid st doc Hid Hfind.
  unfold delete_item. rewrite Hid, Hfind. cbn [fst snd items_col set_items
    invoices_col receipts_col].
  split; [reflexivity|]. split; [eapply delete_one_length; eauto|].
  split; [intros; now apply find_one_delete_other|].
  split; [reflexivity|]. split; [reflexivity|].
  intros Huniq. unfold get_item. rewrite Hid. cbn [items_col set_items].
  now rewrite find_one_delete_same.
Qed.

Lemma delete_item_removes_only_the_item_witness :
  snd (delete_item hex7 shop) = Resp 200 (BDoc (VDict [("status", VStr "ok")]))
  /\ get_item (fun _ => "") hex7 (fst (delete_item hex7 shop))
     = Resp 404 (BError "Item not found").
Proof.
  destruct (delete_item_removes_only_the_item (fun _ => "") hex7 7%N shop mouse
              eq_refl eq_refl) as (H1 & _ & _ & _ & _ & H6).
  split; [exact H1|]. apply H6. cbn. lia.
Defined.

(** ** Listing items *)

Lemma is_prefix_iff p : forall l,
  is_prefix p l = true <-> exists post, l = p ++ post.
Proof.
  induction p as [|a p IH]; intros l; simpl.
  - split; eauto.
  - destruct l as [|b l].
    + split; [discriminate | intros (post & H); discriminate].
    + rewrite andb_true_iff, IH. split.
      * intros (E & post & ->). apply Ascii.eqb_eq in E. subst. eauto.
      * intros (post & H). injection H as -> ->.
        split; [apply Ascii.eqb_refl | eauto].
Qed.

Lemma contains_iff p : forall l, contains p l = true <-> occurs p l.
Proof.
  unfold occurs. induction l as [|b l IH].
  - simpl. rewrite orb_false_r, is_prefix_iff. split.
    + intros (post & H). exists [], post. exact H.
    + intros (pre & post & H). destruct pre; [eauto | discriminate].
  - cbn [contains]. rewrite orb_true_iff, is_prefix_iff, IH. split.
    + intros [(post & H) | (pre & post & H)].
      * exists [], post. exact H.
      * exists (b :: pre), post. simpl. now rewrite H.
    + intros (pre & post & H). destruct pre as [|c pre].
      * left. eauto.
      * right. injection H as -> H. eauto.
Qed.

(** The test a searchable item gets, read on the stored document. *)
Lemma field_has_stored iso s k d raw :
  k <> "_id" -> k <> "id" ->
  text_field k d ->
  (forall k0, k0 <> "_id" -> k0 <> "id" ->
      dict_get k0 raw = Json._to_jsonable iso (dict_get k0 d)
      /\ dict_mem k0 raw = dict_mem k0 d) ->
  field_has s k (VDict raw) = Ok (contains s (field_text k d)).
Proof.
  intros H1 H2 Ht Hraw. destruct (Hraw k H1 H2) as [Hg Hm].
  unfold field_has, dict_get_default, field_text. rewrite Hm, Hg.
  destruct Ht as [Hmiss | (x & Hx & _)].
  - rewrite Hmiss, (dict_mem_get_none _ _ Hmiss). reflexivity.
  - rewrite Hx.
    destruct (dict_mem k d) eqn:E; [reflexivity|].
    rewrite (dict_mem_get_none _ _ E) in Hx. discriminate.
Qed.

Lemma item_matches_stored iso s d :
  searchable d ->
  item_matches s (Json.doc_to_dict iso (Some d))
  = Ok (contains s (field_text "name" d)
        || contains s (field_text "sku" d)
        || contains s (field_text "category" d)).
Proof.
  intros ((o & Hid) & Hn & Hs & Hc).
  destruct (doc_to_dict_stored iso d o Hid) as (raw & -> & _ & _ & Hraw).
  unfold item_matches.
  rewrite (field_has_stored iso s "name" d raw) by (auto; discriminate).
  rewrite (field_has_stored iso s "sku" d raw) by (auto; discriminate).
  rewrite (field_has_stored iso s "category" d raw) by (auto; discriminate).
  cbn [rbind].
  destruct (contains s (field_text "name" d)); [reflexivity|].
  cbn [rbind orb].
  destruct (contains s (field_text "sku" d)); reflexivity.
Qed.

Lemma filter_items_stored iso s docs :
  Forall searchable docs ->
  filter_items iso s docs =
  Ok (map (fun d => Json.doc_to_dict iso (Some d))
        (filter (fun d => match s with
                          | [] => true
                          | _ => contains s (field_text "name" d)
                                 || contains s (field_text "sku" d)
                                 || contains s (field_text "category" d)
                          end) docs)).
Proof.
  induction 1 as [|d docs Hd Hdocs IH]; [reflexivity|].
  cbn [filter_items filter]. rewrite IH.
  destruct s as [|c s]; [reflexivity|].
  rewrite (item_matches_stored iso (c :: s) d Hd). cbn [rbind].
  destruct (contains (c :: s) (field_text "name" d)
            || contains (c :: s) (field_text "sku" d)
            || contains (c :: s) (field_text "category" d)); reflexivity.
Qed.

(** X9: for an ASCII search text, over items whose name, sku and category
    are ASCII strings or missing, [list_items] answers 200 with the
    converted items that pass the search, in collection order: all of
    them when the search is empty or blank, otherwise those in whose
    lower-cased name, sku or category the stripped, lower-cased search
    text occurs. *)
Theorem list_items_search :
  forall (iso : Z -> string) (search : string) (st : store),
    ascii_text search = true ->
    Forall searchable st.(items_col) ->
    exists keep : dict -> bool,
      list_items iso search st =
        Resp 200
          (BDoc (VList (map (fun d => Json.doc_to_dict iso (Some d))
                          (filter keep st.(items_col)))))
      /\ forall d,
           keep d = true <->
           (let s := map lower (strip (list_ascii_of_string search)) in
            s = []
            \/ occurs s (field_text "name" d)
            \/ occurs s (field_text "sku" d)
            \/ occurs s (field_text "category" d)).
Proof.
  intros iso search st _ Hall. unfold list_items.
  rewrite (filter_items_stored iso _ _ Hall).
  eexists. split; [reflexivity|].
  intros d. cbv zeta.
  destruct (map lower (strip (list_ascii_of_string search))) as [|c s] eqn:E.
  - split; auto.
  - rewrite !orb_true_iff, !contains_iff. split.
    + intros [[H|H]|H]; auto.
    + intros [H|[H|[H|H]]]; [discriminate | auto | auto | auto].
Qed.

Lemma list_items_search_witness :
  exists keep : dict -> bool,
    list_items (fun _ => "") " MOUSE " shop =
      Resp 200
        (BDoc (VList (map (fun d => Json.doc_to_dict (fun _ => "") (Some d))
                        (filter keep [mouse]))))
    /\ keep mouse = true.
Proof.
  destruct (list_items_search (fun _ => "") " MOUSE " shop)
    as (keep & Hrun & Hkeep).
  - reflexivity.
  - constructor; [|constructor].
    split; [exists 7%N; reflexivity|].
    split; [right; eexists; split; reflexivity|].
    split; [right; eexists; split; reflexivity | left; reflexivity].
  - exists keep. split; [exact Hrun|].
    apply Hkeep. right. left.
    exists (list_ascii_of_string "wireless "), []. reflexivity.
Defined.

(** ** Stock ledger: effects, log and errors *)

Lemma dict_get_quantity_update_other n k d :
  k <> "quantity" ->
  dict_get k (dict_update [("quantity", VInt n)] d) = dict_get k d.
Proof.
  intros H. apply dict_get_update_notin. simpl.
  destruct (String.eqb k "quantity") eqn:E; [|reflexivity].
  apply String.eqb_eq in E. contradiction.
Qed.

Lemma set_fields_length oid u col :
  List.length (set_fields oid u col) = List.length col.
Proof.
  induction col as [|d col IH]; simpl; [reflexivity|].
  destruct (has_id oid d); simpl; [reflexivity | now rewrite IH].
Qed.

(** X10: [adjust_stock] with an integer delta on an existing item, when
    request and item are documents the store can encode and the new
    quantity fits in eight bytes, answers 200 with the updated item, whose
    quantity is max(0, quantity + delta) and whose other fields are as
    before; every other item and the invoices are untouched. *)
Theorem adjust_stock_updates_one_item :
  forall (ev : env) (item_id : string) (oid : ObjectId) (data : dict)
         (st : store) (doc : dict) (q delta : Z),
    ObjectId_of (VStr item_id) = Ok oid ->
    find_one oid st.(items_col) = Some doc ->
    dict_get "quantity" doc = VInt q ->
    dict_get "delta" data = VInt delta ->
    bson_error (VDict data) = None ->
    bson_error (VDict doc) = None ->
    Z.max 0 (q + delta) < 2 ^ 63 ->
    exists doc',
      snd (adjust_stock ev item_id data st) = Resp 200 (BDoc (VDict doc'))
      /\ find_one oid (fst (adjust_stock ev item_id data st)).(items_col)
           = Some doc'
      /\ dict_get "quantity" doc' = VInt (Z.max 0 (q + delta))
      /\ (forall k, k <> "quantity" -> dict_get k doc' = dict_get k doc)
      /\ (forall oid', oid' <> oid ->
            find_one oid' (fst (adjust_stock ev item_id data st)).(items_col)
            = find_one oid' st.(items_col))
      /\ invoices_col (fst (adjust_stock ev item_id data st)) = invoices_col st.
Proof.
  intros ev item_id oid data st doc q delta Hid Hfind Hq Hd Hdata Hdoc Hfit.
  rewrite (adjust_stock_run ev item_id oid data st doc q delta Hid Hfind Hq Hd
             Hfit (fun _ => adjust_stock_receipt_encodes ev oid data doc delta
                               Hdata Hdoc Hd)).
  exists (dict_update [("quantity", VInt (Z.max 0 (q + delta)))] doc).
  assert (Hf : find_one oid
                 (set_fields oid [("quantity", VInt (Z.max 0 (q + delta)))]
                    (items_col st))
               = Some (dict_update [("quantity", VInt (Z.max 0 (q + delta)))] doc)).
  { now apply find_one_update_same. }
  destruct (0 <? delta); cbn [fst snd items_col invoices_col set_items
                                set_receipts]; rewrite Hf;
    (split; [reflexivity|]; split; [reflexivity|];
     split; [apply quantity_update_get|];
     split; [intros; now apply dict_get_quantity_update_other|];
     split; [intros; now apply find_one_update_other | reflexivity]).
Qed.

Lemma adjust_stock_updates_one_item_witness :
  exists doc',
    snd (adjust_stock ev0 hex7 [("delta", VInt (-2))] shop)
      = Resp 200 (BDoc (VDict doc'))
    /\ dict_get "quantity" doc' = VInt 3
    /\ dict_get "name" doc' = VStr "Wireless Mouse".
Proof.
  destruct (adjust_stock_updates_one_item ev0 hex7 7%N [("delta", VInt (-2))]
              shop mouse 5 (-2) eq_refl eq_refl eq_refl eq_refl eq_refl
              eq_refl eq_refl)
    as (doc' & H1 & _ & H3 & H4 & _).
  exists doc'. split; [exact H1|]. split; [exact H3|].
  rewrite H4; [reflexivity | discriminate].
Defined.

(** X11: the receipt log under [adjust_stock], when request and item are
    documents the store can encode and the new quantity fits in eight
    bytes: a delta that is not positive writes nothing; a positive delta
    appends one receipt that carries the item id, the name and sku of the
    item as they were, the delta as quantity, the clock as receivedAt and
    changedBy as receivedBy. *)
Theorem adjust_stock_receipt_log :
  forall (ev : env) (item_id : string) (oid : ObjectId) (data : dict)
         (st : store) (doc : dict) (q delta : Z),
    ObjectId_of (VStr item_id) = Ok oid ->
    find_one oid st.(items_col) = Some doc ->
    dict_get "quantity" doc = VInt q ->
    dict_get "delta" data = VInt delta ->
    bson_error (VDict data) = None ->
    bson_error (VDict doc) = None ->
    Z.max 0 (q + delta) < 2 ^ 63 ->
    (delta <= 0 ->
     receipts_col (fst (adjust_stock ev item_id data st)) = receipts_col st)
    /\ (0 < delta ->
        exists r,
          receipts_col (fst (adjust_stock ev item_id data st))
            = receipts_col st ++ [r]
          /\ dict_get "_id" r = VOid ev.(new_id)
          /\ dict_get "itemId" r = VOid oid
          /\ dict_get "name" r = por (dict_get "name" doc) (VStr "")
          /\ dict_get "sku" r = por (dict_get "sku" doc) (VStr "")
          /\ dict_get "quantity" r = VInt delta
          /\ dict_get "receivedAt" r = VDate ev.(utcnow)
          /\ dict_get "receivedBy" r = por (dict_get "changedBy" data) VNone).
Proof.
  intros ev item_id oid data st doc q delta Hid Hfind Hq Hd Hdata Hdoc Hfit.
  rewrite (adjust_stock_run ev item_id oid data st doc q delta Hid Hfind Hq Hd
             Hfit (fun _ => adjust_stock_receipt_encodes ev oid data doc delta
                               Hdata Hdoc Hd)).
  split; intros Hdelta.
  - replace (0 <? delta) with false by (symmetry; apply Z.ltb_ge; lia).
    reflexivity.
  - replace (0 <? delta) with true by (symmetry; apply Z.ltb_lt; lia).
    eexists. split; [reflexivity|]. repeat split.
Qed.

Lemma adjust_stock_receipt_log_witness :
  receipts_col (fst (adjust_stock ev0 hex7 [("delta", VInt (-2))] shop)) = []
  /\ exists r,
       receipts_col (fst (adjust_stock ev0 hex7 [("delta", VInt 4)] shop)) = [r]
       /\ dict_get "quantity" r = VInt 4
       /\ dict_get "name" r = VStr "Wireless Mouse".
Proof.
  split.
  - apply (adjust_stock_receipt_log ev0 hex7 7%N [("delta", VInt (-2))]
             shop mouse 5 (-2) eq_refl eq_refl eq_refl eq_refl eq_refl eq_refl
             eq_refl). lia.
  - destruct (adjust_stock_receipt_log ev0 hex7 7%N [("delta", VInt 4)]
                shop mouse 5 4 eq_refl eq_refl eq_refl eq_refl eq_refl eq_refl
                eq_refl) as [_ H].
    destruct (H ltac:(lia)) as (r & H1 & _ & _ & H4 & _ & H6 & _).
    exists r. split; [exact H1|]. split; [exact H6 | exact H4].
Defined.

(** X12: receiving a positive integer quantity for an existing item, when
    request and item are documents the store can encode and the new
    quantity fits in eight bytes, answers 201 with the updated item and
    the receipt; the item holds max(0, old + quantity), the receipt is the
    last of the log and records quantity, previousQuantity and
    newQuantity, and newQuantity is previousQuantity + quantity when the
    old quantity was not negative. *)
Theorem receive_stock_records_receipt :
  forall (ev : env) (data : dict) (st : store) (s : string)
         (oid : ObjectId) (doc : dict) (old qty : Z),
    dict_get "itemId" data = VStr s ->
    ObjectId_of (VStr s) = Ok oid ->
    find_one oid st.(items_col) = Some doc ->
    dict_get "quantity" doc = VInt old ->
    dict_get "quantity" data = VInt qty ->
    0 < qty ->
    bson_error (VDict data) = None ->
    bson_error (VDict doc) = None ->
    Z.max 0 (old + qty) < 2 ^ 63 ->
    exists doc' r,
      snd (receipts ev data st) = Resp 201 (BReceipt (VDict doc') r)
      /\ find_one oid (fst (receipts ev data st)).(items_col) = Some doc'
      /\ dict_get "quantity" doc' = VInt (Z.max 0 (old + qty))
      /\ receipts_col (fst (receipts ev data st)) = receipts_col st ++ [r]
      /\ dict_get "itemId" r = VOid oid
      /\ dict_get "quantity" r = VInt qty
      /\ dict_get "previousQuantity" r = VInt old
      /\ dict_get "newQuantity" r = VInt (Z.max 0 (old + qty))
      /\ (0 <= old -> dict_get "newQuantity" r = VInt (old + qty)).
Proof.
  intros ev data st s oid doc old qty Hs Hid Hfind Hold Hq Hpos Hdata Hdoc Hfit.
  unfold receipts.
  rewrite Hs, (ObjectId_of_str_truthy _ _ Hid). cbn [negb]. cbv iota.
  rewrite Hid, Hq, py_int_por_int.
  replace (qty <=? 0) with false by (symmetry; apply Z.leb_gt; lia).
  rewrite Hfind, (quantity_of_int _ _ Hold).
  rewrite (update_one_ok _ _ _ doc Hfind)
    by (apply bson_error_quantity, int64_iff; lia).
  rewrite insert_one_ok.
  2:{ apply bson_error_dict.
      repeat (constructor; [split; [reflexivity|]; cbn [snd]|]);
        try reflexivity;
        try (apply bson_error_por; [now apply bson_error_get | reflexivity]).
      - rewrite <- Hq. now apply bson_error_get.
      - rewrite <- Hold. now apply bson_error_get.
      - apply bson_error_int. lia.
      - constructor. }
  cbn [fst snd items_col receipts_col set_items set_receipts].
  rewrite (find_one_update_same oid [("quantity", VInt (Z.max 0 (old + qty)))]
             _ doc eq_refl Hfind).
  eexists. eexists. split; [reflexivity|]. split; [reflexivity|].
  split; [apply quantity_update_get|]. split; [reflexivity|].
  repeat (split; [reflexivity|]).
  intros Hnn. cbn. f_equal. lia.
Qed.

Lemma receive_stock_records_receipt_witness :
  exists doc' r,
    snd (receipts ev0 [("itemId", VStr hex7); ("quantity", VInt 3)] shop)
      = Resp 201 (BReceipt (VDict doc') r)
    /\ dict_get "quantity" doc' = VInt 8
    /\ dict_get "newQuantity" r = VInt 8.
Proof.
  destruct (receive_stock_records_receipt ev0
              [("itemId", VStr hex7); ("quantity", VInt 3)] shop hex7 7%N
              mouse 5 3 eq_refl eq_refl eq_refl eq_refl eq_refl ltac:(lia)
              eq_refl eq_refl eq_refl)
    as (doc' & r & H1 & _ & H3 & _ & _ & _ & _ & H8 & _).
  exists doc', r. auto.
Defined.

(** X13: [adjust_stock] and POST /api/receipts leave the store as it was
    whenever they answer with a status other than 200 and 201, and write
    no receipt when an exception escapes them (the quantity may be
    written by then: nothing is rolled back); [update_item] changes the
    store only when it answers 200. *)
Theorem ledger_errors_leave_store :
  forall (ev : env) (item_id : string) (data : dict) (st : store),
    (forall s b,
        snd (adjust_stock ev item_id data st) = Resp s b -> s <> 200 ->
        fst (adjust_stock ev item_id data st) = st)
    /\ (forall e,
          snd (adjust_stock ev item_id data st) = Uncaught e ->
          receipts_col (fst (adjust_stock ev item_id data st))
          = receipts_col st)
    /\ (forall s b,
          snd (receipts ev data st) = Resp s b -> s <> 201 ->
          fst (receipts ev data st) = st)
    /\ (forall e,
          snd (receipts ev data st) = Uncaught e ->
          receipts_col (fst (receipts ev data st)) = receipts_col st)
    /\ ((exists b, snd (update_item item_id data st) = Resp 200 b)
        \/ fst (update_item item_id data st) = st).
Proof.
  intros ev item_id data st.
  assert (A : (exists b, snd (adjust_stock ev item_id data st) = Resp 200 b)
              \/ fst (adjust_stock ev item_id data st) = st
              \/ (exists e, snd (adjust_stock ev item_id data st) = Uncaught e)
                 /\ receipts_col (fst (adjust_stock ev item_id data st))
                    = receipts_col st).
  { unfold adjust_stock.
    destruct (ObjectId_of (VStr item_id)) as [oid|]; [|now auto].
    destruct (py_int (por (dict_get "delta" data) (VInt 0))) as [delta|];
      [|now auto].
    destruct (find_one oid (items_col st)) as [doc|]; [|now auto].
    destruct (quantity_of doc) as [q|]; [|now auto].
    destruct (update_one oid _ (items_col st)) as [items1|]; [|now auto].
    destruct (0 <? delta); [|left; eexists; reflexivity].
    destruct (insert_one _ _ _) as [rs|]; [left; eexists; reflexivity|].
    right. right. split; [eexists|]; reflexivity. }
  assert (B : (exists b, snd (receipts ev data st) = Resp 201 b)
              \/ fst (receipts ev data st) = st
              \/ (exists e, snd (receipts ev data st) = Uncaught e)
                 /\ receipts_col (fst (receipts ev data st))
                    = receipts_col st).
  { unfold receipts.
    destruct (negb (truthy (dict_get "itemId" data))); [now auto|].
    destruct (ObjectId_of (dict_get "itemId" data)) as [oid|]; [|now auto].
    destruct (py_int (por (dict_get "quantity" data) (VInt 0))) as [qty|];
      [|now auto].
    destruct (qty <=? 0); [now auto|].
    destruct (find_one oid (items_col st)) as [doc|]; [|now auto].
    destruct (quantity_of doc) as [q|]; [|now auto].
    destruct (update_one oid _ (items_col st)) as [items1|]; [|now auto].
    destruct (insert_one _ _ _) as [rs|]; [left; eexists; reflexivity|].
    right. right. split; [eexists|]; reflexivity. }
  split; [|split; [|split; [|split]]].
  - intros s b H Hs.
    destruct A as [(b' & Hb) | [E | ((e & He) & _)]]; [|exact E|congruence].
    rewrite Hb in H. injection H as <- _. contradiction.
  - intros e H.
    destruct A as [(b' & Hb) | [E | (_ & Hr)]];
      [congruence | now rewrite E | exact Hr].
  - intros s b H Hs.
    destruct B as [(b' & Hb) | [E | ((e & He) & _)]]; [|exact E|congruence].
    rewrite Hb in H. injection H as <- _. contradiction.
  - intros e H.
    destruct B as [(b' & Hb) | [E | (_ & Hr)]];
      [congruence | now rewrite E | exact Hr].
  - unfold update_item.
    destruct (ObjectId_of (VStr item_id)) as [oid|]; [|now right].
    destruct (collect_fields item_fields data []) as [u|]; [|now right].
    destruct (negb (truthy (VDict u))); [now right|].
    destruct (find_one oid (items_col st)); [|now right].
    destruct (update_one oid u (items_col st)); [|now right].
    left. eexists. reflexivity.
Qed.

Lemma two_adjustments ev1 ev2 item_id oid st doc q d1 d2 :
  ObjectId_of (VStr item_id) = Ok oid ->
  find_one oid st.(items_col) = Some doc ->
  dict_get "quantity" doc = VInt q ->
  Z.max 0 (q + d1) < 2 ^ 63 ->
  Z.max 0 (Z.max 0 (q + d1) + d2) < 2 ^ 63 ->
  exists doc',
    find_one oid
      (fst (adjust_stock ev2 item_id [("delta", VInt d2)]
              (fst (adjust_stock ev1 item_id [("delta", VInt d1)] st)))).(items_col)
    = Some doc'
    /\ dict_get "quantity" doc' = VInt (Z.max 0 (Z.max 0 (q + d1) + d2)).
Proof.
  intros Hid Hfind Hq Hfit1 Hfit2.
  destruct (adjust_stock_sets_max ev1 item_id oid [("delta", VInt d1)] st doc
              q d1 Hid Hfind Hq eq_refl Hfit1) as (doc1 & Hf1 & Hq1).
  exact (adjust_stock_sets_max ev2 item_id oid [("delta", VInt d2)] _ doc1
           _ d2 Hid Hf1 Hq1 eq_refl Hfit2).
Qed.

(** X14: two adjustments in a row, on an item whose quantity is not
    negative and fits in eight bytes with [a] added: adding [a] and then
    taking [a] away gives the quantity back, while taking [a] away first
    and then adding it gives max(quantity, a), because the first step
    stops at zero. *)
Theorem adjust_stock_up_down :
  forall (ev1 ev2 : env) (item_id : string) (oid : ObjectId) (st : store)
         (doc : dict) (q a : Z),
    ObjectId_of (VStr item_id) = Ok oid ->
    find_one oid st.(items_col) = Some doc ->
    dict_get "quantity" doc = VInt q ->
    0 <= q -> 0 <= a ->
    q + a < 2 ^ 63 ->
    (exists doc',
        find_one oid
          (fst (adjust_stock ev2 item_id [("delta", VInt (- a))]
                  (fst (adjust_stock ev1 item_id [("delta", VInt a)] st)))).(items_col)
        = Some doc'
        /\ dict_get "quantity" doc' = VInt q)
    /\ (exists doc',
          find_one oid
            (fst (adjust_stock ev2 item_id [("delta", VInt a)]
                    (fst (adjust_stock ev1 item_id [("delta", VInt (- a))] st)))).(items_col)
          = Some doc'
          /\ dict_get "quantity" doc' = VInt (Z.max q a)).
Proof.
  intros ev1 ev2 item_id oid st doc q a Hid Hfind Hq Hq0 Ha0 Hfit. split.
  - destruct (two_adjustments ev1 ev2 item_id oid st doc q a (- a)
                Hid Hfind Hq) as (doc' & Hf & Hv); [lia | lia |].
    exists doc'. split; [exact Hf|]. rewrite Hv. f_equal. lia.
  - destruct (two_adjustments ev1 ev2 item_id oid st doc q (- a) a
                Hid Hfind Hq) as (doc' & Hf & Hv); [lia | lia |].
    exists doc'. split; [exact Hf|]. rewrite Hv. f_equal. lia.
Qed.

Lemma adjust_stock_up_down_witness :
  (exists doc',
      find_one 7%N
        (fst (adjust_stock ev0 hex7 [("delta", VInt (- 9))]
                (fst (adjust_stock ev0 hex7 [("delta", VInt 9)] shop)))).(items_col)
      = Some doc'
      /\ dict_get "quantity" doc' = VInt 5)
  /\ (exists doc',
        find_one 7%N
          (fst (adjust_stock ev0 hex7 [("delta", VInt 9)]
                  (fst (adjust_stock ev0 hex7 [("delta", VInt (- 9))] shop)))).(items_col)
        = Some doc'
        /\ dict_get "quantity" doc' = VInt 9).
Proof.
  apply (adjust_stock_up_down ev0 ev0 hex7 7%N shop mouse 5 9);
    [reflexivity | reflexivity | reflexivity | lia | lia | lia].
Defined.

Lemma step_appends_receipts st c :
  invoices_col (step st c) = invoices_col st
  /\ List.length (items_col (step st c)) = List.length (items_col st)
  /\ (receipts_col (step st c) = receipts_col st
      \/ exists r n,
           receipts_col (step st c) = receipts_col st ++ [r]
           /\ dict_get "quantity" r = VInt n /\ 0 < n).
Proof.
  unfold step. destruct c as [ev [item_id data | data]]; cbn [fst snd].
  - unfold adjust_stock.
    destruct (ObjectId_of (VStr item_id)) as [oid|]; [|now auto].
    destruct (py_int (por (dict_get "delta" data) (VInt 0))) as [delta|];
      [|now auto].
    destruct (find_one oid (items_col st)) as [doc|]; [|now auto].
    destruct (quantity_of doc) as [q|]; [|now auto].
    destruct (update_one oid _ (items_col st)) as [items1|] eqn:Eu;
      [|now auto].
    apply update_one_inv in Eu. subst items1.
    destruct (0 <? delta) eqn:E;
      [destruct (insert_one _ _ _) as [rs|] eqn:Ei;
       [apply insert_one_inv in Ei; subst rs|]|];
      cbn [fst items_col invoices_col receipts_col set_items set_receipts];
      rewrite set_fields_length; (split; [reflexivity|]; split; [reflexivity|]).
    + right. eexists. exists delta. split; [reflexivity|].
      split; [reflexivity | now apply Z.ltb_lt].
    + now left.
    + now left.
  - unfold receipts.
    destruct (negb (truthy (dict_get "itemId" data))); [now auto|].
    destruct (ObjectId_of (dict_get "itemId" data)) as [oid|]; [|now auto].
    destruct (py_int (por (dict_get "quantity" data) (VInt 0))) as [qty|];
      [|now auto].
    destruct (qty <=? 0) eqn:E; [now auto|].
    destruct (find_one oid (items_col st)) as [doc|]; [|now auto].
    destruct (quantity_of doc) as [q|]; [|now auto].
    destruct (update_one oid _ (items_col st)) as [items1|] eqn:Eu;
      [|now auto].
    apply update_one_inv in Eu. subst items1.
    destruct (insert_one _ _ _) as [rs|] eqn:Ei;
      [apply insert_one_inv in Ei; subst rs|];
      cbn [fst items_col invoices_col receipts_col set_items set_receipts];
      rewrite set_fields_length; (split; [reflexivity|]; split; [reflexivity|]).
    + right. eexists. exists qty. split; [reflexivity|].
      split; [reflexivity | now apply Z.leb_gt].
    + now left.
Qed.

(** X15: the receipt log is append-only under the ledger: after any
    sequence of adjust_stock and receive calls the old receipts are still
    there, in place, followed by new ones that each record a positive
    integer quantity; no invoice is touched and no item appears or
    disappears. *)
Theorem ledger_appends_positive_receipts :
  forall (calls : list (env * call)) (st : store),
    invoices_col (run calls st) = invoices_col st
    /\ List.length (items_col (run calls st)) = List.length (items_col st)
    /\ exists added,
         receipts_col (run calls st) = receipts_col st ++ added
         /\ Forall (fun r => exists n, dict_get "quantity" r = VInt n /\ 0 < n)
              added
         /\ (List.length added <= List.length calls)%nat.
Proof.
  unfold run. induction calls as [|c calls IH]; intros st.
  - cbn. repeat split. exists []. rewrite app_nil_r. auto.
  - cbn [fold_left].
    destruct (step_appends_receipts st c) as (Hi & Hl & Hr).
    destruct (IH (step st c)) as (Hi' & Hl' & added & Ha & Hpos & Hlen).
    split; [congruence|]. split; [congruence|].
    destruct Hr as [Hr | (r & n & Hr & Hq & Hn)].
    + exists added. rewrite Ha, Hr. repeat split; auto. cbn. lia.
    + exists (r :: added). rewrite Ha, Hr, <- app_assoc. repeat split.
      * constructor; eauto.
      * cbn. lia.
Qed.

(** ** Items: what [update_item] writes and what it leaves *)

Lemma collect_fields_keys fields data : forall acc u,
  collect_fields fields data acc = Ok u ->
  forall k, dict_mem k u = true ->
            dict_mem k acc = true \/ (In k fields /\ dict_mem k data = true).
Proof.
  induction fields as [|f fields IH]; intros acc u H k Hk.
  - injection H as <-. now left.
  - cbn [collect_fields] in H.
    destruct (dict_mem f data) eqn:E.
    + destruct (convert_field f (dict_get f data)) as [v|]; [|discriminate].
      cbn [rbind] in H.
      destruct (IH _ _ H k Hk) as [Hacc | [Hin Hd]].
      * apply dict_mem_true_get_set in Hacc.
        destruct Hacc as [-> | Hacc]; [right; split; [now left | exact E]
                                      | now left].
      * right. split; [now right | exact Hd].
    + destruct (IH _ _ H k Hk) as [Hacc | [Hin Hd]]; [now left|].
      right. split; [now right | exact Hd].
Qed.

Lemma update_item_store item_id data st :
  fst (update_item item_id data st) = st
  \/ exists oid u doc,
       ObjectId_of (VStr item_id) = Ok oid
       /\ collect_fields item_fields data [] = Ok u
       /\ find_one oid st.(items_col) = Some doc
       /\ update_item item_id data st =
            (set_items (set_fields oid u st.(items_col)) st,
             Resp 200
               (BDoc (doc_to_dict
                        (find_one oid (set_fields oid u st.(items_col)))))).
Proof.
  unfold update_item.
  destruct (ObjectId_of (VStr item_id)) as [oid|]; [|now left].
  destruct (collect_fields item_fields data []) as [u|]; [|now left].
  destruct (negb (truthy (VDict u))); [now left|].
  destruct (find_one oid (items_col st)) as [doc|] eqn:E; [|now left].
  destruct (update_one oid u (items_col st)) as [items1|] eqn:Eu; [|now left].
  apply update_one_inv in Eu. subst items1.
  right. exists oid, u, doc. auto.
Qed.

(** X16: [update_item] never writes the invoices or the receipts, adds or
    removes no item and leaves every item other than the addressed one
    unchanged; in the addressed item a field keeps its value unless it is
    one of the eleven editable fields and is present in the request, so
    [_id] and [batchNumber] are never changed. *)
Theorem update_item_frame :
  forall (item_id : string) (data : dict) (st : store),
    invoices_col (fst (update_item item_id data st)) = invoices_col st
    /\ receipts_col (fst (update_item item_id data st)) = receipts_col st
    /\ List.length (items_col (fst (update_item item_id data st)))
       = List.length (items_col st)
    /\ forall (oid : ObjectId) (doc : dict),
         find_one oid (items_col st) = Some doc ->
         exists doc',
           find_one oid (items_col (fst (update_item item_id data st)))
             = Some doc'
           /\ (ObjectId_of (VStr item_id) <> Ok oid -> doc' = doc)
           /\ (forall k,
                 ~ In k item_fields \/ dict_mem k data = false ->
                 dict_get k doc' = dict_get k doc)
           /\ dict_get "_id" doc' = dict_get "_id" doc
           /\ dict_get "batchNumber" doc' = dict_get "batchNumber" doc.
Proof.
  intros item_id data st.
  destruct (update_item_store item_id data st)
    as [-> | (oid0 & u & doc0 & Hid & Hu & Hf0 & ->)].
  - repeat split; auto. intros oid doc H. exists doc. auto.
  - cbn [fst items_col invoices_col receipts_col set_items].
    split; [reflexivity|]. split; [reflexivity|].
    split; [apply set_fields_length|].
    intros oid doc Hfind.
    assert (Hkeys : forall k, dict_mem k u = true ->
                              In k item_fields /\ dict_mem k data = true).
    { intros k Hk.
      destruct (collect_fields_keys _ _ _ _ Hu k Hk) as [H|H];
        [discriminate | exact H]. }
    assert (Hnot : forall k, ~ In k item_fields \/ dict_mem k data = false ->
                             dict_mem k u = false).
    { intros k Hk. destruct (dict_mem k u) eqn:E; auto.
      destruct (Hkeys _ E) as [Hin Hmem].
      destruct Hk as [Hk|Hk]; [contradiction | congruence]. }
    assert (Hnoid : dict_mem "_id" u = false).
    { apply Hnot. left. cbn. intuition discriminate. }
    destruct (N.eq_dec oid oid0) as [->|Hne].
    + exists (dict_update u doc). split; [now apply find_one_update_same|].
      split; [intros Hc; exfalso; now apply Hc|].
      split; [intros k Hk; apply dict_get_update_notin; now apply Hnot|].
      split; apply dict_get_update_notin; apply Hnot; left; cbn;
        intuition discriminate.
    + exists doc. split; [rewrite find_one_update_other; auto|].
      auto.
Qed.

Lemma update_item_frame_witness :
  exists doc',
    find_one 7%N
      (items_col (fst (update_item hex7
                         [("name", VStr "Mouse"); ("_id", VStr "x")] shop)))
      = Some doc'
    /\ dict_get "sku" doc' = VStr "ELEC-MOUSE-001"
    /\ dict_get "_id" doc' = VOid 7%N.
Proof.
  destruct (update_item_frame hex7 [("name", VStr "Mouse"); ("_id", VStr "x")]
              shop) as (_ & _ & _ & H).
  destruct (H 7%N mouse eq_refl) as (doc' & Hf & _ & Hk & Hid & _).
  exists doc'. split; [exact Hf|]. split; [|exact Hid].
  rewrite Hk; [reflexivity|]. right. reflexivity.
Defined.

Lemma collect_fields_none fields data : forall acc,
  (forall k, In k fields -> dict_mem k data = false) ->
  collect_fields fields data acc = Ok acc.
Proof.
  induction fields as [|f fields IH]; intros acc H; [reflexivity|].
  cbn [collect_fields]. rewrite (H f) by now left.
  apply IH. intros k Hk. apply H. now right.
Qed.

(** X17: a request that holds none of the eleven editable fields is
    answered 400 "Nothing to update" whenever the id is well formed,
    whether or not an item has that id, and nothing is written. *)
Theorem update_item_nothing_to_update :
  forall (item_id : string) (oid : ObjectId) (data : dict) (st : store),
    ObjectId_of (VStr item_id) = Ok oid ->
    (forall k, In k item_fields -> dict_mem k data = false) ->
    update_item item_id data st = (st, Resp 400 (BError "Nothing to update")).
Proof.
  intros item_id oid data st Hid Hnone. unfold update_item.
  now rewrite Hid, (collect_fields_none _ _ [] Hnone).
Qed.

Lemma update_item_nothing_to_update_witness :
  update_item "00000000000000000000000a" [("batchNumber", VStr "B-1")] shop
  = (shop, Resp 400 (BError "Nothing to update")).
Proof.
  apply (update_item_nothing_to_update _ 10%N); [reflexivity|].
  intros k Hk. cbn in Hk.
  repeat (destruct Hk as [<- | Hk]; [reflexivity|]). contradiction.
Defined.

(** ** Invoices: what creation never writes *)

(** X18: [create_invoice] never writes the receipts, whatever the request
    and however it ends; without a truthy applyStockChange it never
    writes the items either; and it stores at most one invoice, after the
    ones already there. *)
Theorem create_invoice_writes :
  forall (ev : env) (data : dict) (st : store),
    receipts_col (fst (create_invoice ev data st)) = receipts_col st
    /\ (truthy (dict_get "applyStockChange" data) = false ->
        items_col (fst (create_invoice ev data st)) = items_col st)
    /\ (invoices_col (fst (create_invoice ev data st)) = invoices_col st
        \/ exists inv,
             invoices_col (fst (create_invoice ev data st))
             = invoices_col st ++ [inv]).
Proof.
  intros ev data st. unfold create_invoice.
  destruct (negb (truthy (dict_get "number" data))
            || negb (truthy (por (dict_get "lines" data) (VList []))));
    [now auto|].
  destruct (invoice_numbers data (por (dict_get "lines" data) (VList [])))
    as [[[tax disc] ns]|]; [|now auto].
  destruct (truthy (dict_get "applyStockChange" data)) eqn:Ea.
  - destruct (apply_stock_change ns (items_col st)) as [items1 [e|]].
    + cbn. split; [reflexivity|]. split; [discriminate | now left].
    + destruct (insert_one _ _ _) as [invoices1|] eqn:Ei.
      * apply insert_one_inv in Ei. subst invoices1.
        destruct (compute_invoice_totals _); cbn;
          (split; [reflexivity|]; split; [discriminate|]; right; eauto).
      * cbn. split; [reflexivity|]. split; [discriminate | now left].
  - destruct (insert_one _ _ _) as [invoices1|] eqn:Ei.
    + apply insert_one_inv in Ei. subst invoices1.
      destruct (compute_invoice_totals _); cbn;
        (split; [reflexivity|]; split; [reflexivity|]; right; eauto).
    + cbn. split; [reflexivity|]. split; [reflexivity | now left].
Qed.

Lemma create_invoice_writes_witness :
  items_col
    (fst (create_invoice ev0
            [("number", VStr "INV-1");
             ("lines", VList [VDict [("itemId", VStr hex7);
                                     ("quantity", VInt 2)]])] shop))
  = [mouse].
Proof.
  destruct (create_invoice_writes ev0
              [("number", VStr "INV-1");
               ("lines", VList [VDict [("itemId", VStr hex7);
                                       ("quantity", VInt 2)]])] shop)
    as (_ & H & _).
  apply H. reflexivity.
Defined.

Lemma collect_fields_get fields data : forall acc u,
  NoDup fields ->
  collect_fields fields data acc = Ok u ->
  (forall k, ~ In k fields -> dict_get k u = dict_get k acc)
  /\ (forall k, In k fields -> dict_mem k data = true ->
                convert_field k (dict_get k data) = Ok (dict_get k u)).
Proof.
  induction fields as [|f fields IH]; intros acc u Hnd H.
  - injection H as <-. split; [reflexivity | intros k []].
  - inversion Hnd as [|? ? Hnotin Hnd']; subst.
    cbn [collect_fields] in H.
    destruct (dict_mem f data) eqn:E.
    + destruct (convert_field f (dict_get f data)) as [v|] eqn:Ev;
        [|discriminate].
      cbn [rbind] in H. destruct (IH _ _ Hnd' H) as [Hout Hin]. split.
      * intros k Hk. rewrite Hout by (intros Hc; apply Hk; now right).
        apply dict_get_set_neq. intros ->. apply Hk. now left.
      * intros k [<- | Hk] Hmem.
        -- rewrite (Hout f Hnotin), dict_get_set_eq. exact Ev.
        -- now apply Hin.
    + destruct (IH _ _ Hnd' H) as [Hout Hin]. split.
      * intros k Hk. apply Hout. intros Hc. apply Hk. now right.
      * intros k [<- | Hk] Hmem; [congruence | now apply Hin].
Qed.

Lemma item_fields_NoDup : NoDup item_fields.
Proof.
  unfold item_fields.
  repeat (constructor; [cbn; intuition discriminate|]). constructor.
Qed.

Lemma dict_mem_In k d : dict_mem k d = true <-> In k (map fst d).
Proof.
  induction d as [|[k0 v0] d IH]; cbn; [split; [discriminate | tauto]|].
  rewrite orb_true_iff, IH, String.eqb_eq. split; intros [H|H]; auto.
Qed.

Lemma dict_set_keys_NoDup k v d :
  NoDup (map fst d) -> NoDup (map fst (dict_set k v d)).
Proof.
  induction d as [|[k0 v0] d IH]; cbn; intros H.
  - constructor; [intros [] | constructor].
  - inversion H as [|? ? Hnotin Hnd]; subst.
    destruct (String.eqb k k0) eqn:E; cbn; [exact H|].
    constructor; [|now apply IH].
    rewrite <- dict_mem_In, dict_mem_set, orb_true_iff, dict_mem_In.
    intros [Hc|Hc]; [|contradiction].
    apply String.eqb_eq in Hc. subst. now rewrite String.eqb_refl in E.
Qed.

Lemma collect_fields_NoDup fields data : forall acc u,
  NoDup (map fst acc) ->
  collect_fields fields data acc = Ok u -> NoDup (map fst u).
Proof.
  induction fields as [|f fields IH]; intros acc u Hnd H.
  - now injection H as <-.
  - cbn [collect_fields] in H. destruct (dict_mem f data).
    + destruct (convert_field f (dict_get f data)); [|discriminate].
      eapply IH; [|exact H]. now apply dict_set_keys_NoDup.
    + eapply IH; eauto.
Qed.

(** [$set] with distinct keys stores each of its values. *)
Lemma dict_get_update_in u : forall d k,
  NoDup (map fst u) ->
  dict_mem k u = true -> dict_get k (dict_update u d) = dict_get k u.
Proof.
  unfold dict_update.
  induction u as [|[k0 v0] u IH]; intros d k Hnd Hk; [discriminate|].
  inversion Hnd as [|? ? Hnotin Hnd']; subst.
  cbn [fold_left fst snd dict_get]. cbn [dict_mem] in Hk.
  destruct (String.eqb k k0) eqn:E.
  - apply String.eqb_eq in E. subst k0.
    assert (Hm : dict_mem k u = false).
    { destruct (dict_mem k u) eqn:Em; auto.
      apply dict_mem_In in Em. contradiction. }
    fold (dict_update u (dict_set k v0 d)).
    rewrite dict_get_update_notin by assumption. apply dict_get_set_eq.
  - apply IH; assumption.
Qed.

Lemma collect_fields_mem fields data : forall acc u,
  collect_fields fields data acc = Ok u ->
  forall k,
    dict_mem k acc = true \/ (In k fields /\ dict_mem k data = true) ->
    dict_mem k u = true.
Proof.
  induction fields as [|f fields IH]; intros acc u H k Hk.
  - injection H as <-. destruct Hk as [Hk | [[] _]]. exact Hk.
  - cbn [collect_fields] in H. destruct (dict_mem f data) eqn:E.
    + destruct (convert_field f (dict_get f data)) as [v|]; [|discriminate].
      cbn [rbind] in H. apply (IH _ _ H).
      destruct Hk as [Hk | [[<- | Hin] Hmem]].
      * left. rewrite dict_mem_set, Hk. apply orb_true_r.
      * left. rewrite dict_mem_set, String.eqb_refl. reflexivity.
      * right. auto.
    + apply (IH _ _ H).
      destruct Hk as [Hk | [[<- | Hin] Hmem]]; [now left | congruence | auto].
Qed.

(** X19: when [update_item] answers 200, every editable field present in
    the request is stored with the submitted value, quantity and
    minStockLevel after [int] and price after [float]; the other eight
    fields are stored exactly as submitted, whatever their type. *)
Theorem update_item_stores_submitted_fields :
  forall (item_id : string) (oid : ObjectId) (data : dict) (st : store)
         (b : body),
    ObjectId_of (VStr item_id) = Ok oid ->
    snd (update_item item_id data st) = Resp 200 b ->
    exists doc',
      find_one oid (items_col (fst (update_item item_id data st))) = Some doc'
      /\ b = BDoc (VDict doc')
      /\ forall k,
           In k item_fields -> dict_mem k data = true ->
           convert_field k (dict_get k data) = Ok (dict_get k doc')
           /\ (k <> "quantity" -> k <> "minStockLevel" -> k <> "price" ->
               dict_get k doc' = dict_get k data).
Proof.
  intros item_id oid data st b Hid. unfold update_item. rewrite Hid.
  destruct (collect_fields item_fields data []) as [u|] eqn:Hu;
    [|discriminate].
  destruct (negb (truthy (VDict u))); [discriminate|].
  destruct (find_one oid (items_col st)) as [doc0|] eqn:Hf0; [|discriminate].
  destruct (update_one oid u (items_col st)) as [items1|] eqn:Eu;
    [|discriminate].
  apply update_one_inv in Eu. subst items1.
  cbn [fst snd items_col set_items].
  assert (Hno : dict_mem "_id" u = false).
  { destruct (dict_mem "_id" u) eqn:E; auto.
    destruct (collect_fields_keys _ _ _ _ Hu _ E) as [H|[H _]];
      [discriminate|].
    cbn in H. intuition discriminate. }
  rewrite (find_one_update_same oid u _ doc0 Hno Hf0). cbn [doc_to_dict].
  intros Hok. exists (dict_update u doc0). split; [reflexivity|].
  split; [now injection Hok|].
  destruct (collect_fields_get _ _ _ _ item_fields_NoDup Hu) as [_ Hin].
  assert (Hnd : NoDup (map fst u)).
  { eapply collect_fields_NoDup; [|exact Hu]. constructor. }
  intros k Hk Hmem.
  assert (Hconv := Hin k Hk Hmem).
  assert (Hku : dict_mem k u = true).
  { apply (collect_fields_mem _ _ _ _ Hu). right. auto. }
  rewrite (dict_get_update_in u doc0 k Hnd Hku).
  split; [exact Hconv|].
  intros H1 H2 H3. revert Hconv. unfold convert_field.
  apply String.eqb_neq in H1, H2, H3. rewrite H1, H2, H3. cbn.
  now intros [= <-].
Qed.

Lemma update_item_stores_submitted_fields_witness :
  exists doc',
    find_one 7%N
      (items_col (fst (update_item hex7
                         [("name", VStr "Mouse"); ("quantity", VStr "12")]
                         shop))) = Some doc'
    /\ dict_get "name" doc' = VStr "Mouse"
    /\ dict_get "quantity" doc' = VInt 12.
Proof.
  destruct (update_item_stores_submitted_fields hex7 7%N
              [("name", VStr "Mouse"); ("quantity", VStr "12")] shop
              _ eq_refl eq_refl) as (doc' & Hf & _ & Hk).
  exists doc'. split; [exact Hf|]. split.
  - destruct (Hk "name") as [_ H]; [cbn; tauto | reflexivity|].
    rewrite H by discriminate. reflexivity.
  - destruct (Hk "quantity") as [H _]; [cbn; tauto | reflexivity|].
    cbn in H. now injection H as <-.
Defined.

(** ** Invoice totals without rates *)

Lemma py_float_falsy v :
  truthy v = false -> py_float (por v (VInt 0)) = Ok pzero.
Proof. intros H. unfold por. now rewrite H. Qed.

(** X20: with no discount and no tax (both rates absent, null or zero)
    the total is the rounded subtotal when the subtotal is positive or
    zero, and zero when the subtotal is negative; discountAmount and
    taxAmount are zero. *)
Theorem totals_without_rates :
  forall (inv : dict) (x : float),
    subtotal_of inv = Ok x ->
    truthy (dict_get "taxRate" inv) = false ->
    truthy (dict_get "discountRate" inv) = false ->
    is_finite x = true ->
    neg_zero x = false ->
    exists t,
      compute_invoice_totals inv = Ok t
      /\ is_zero (t_discountAmount t) = true
      /\ is_zero (t_taxAmount t) = true
      /\ t_total t = (if fgtb x pzero then round2 x else pzero)
      /\ (fgtb x pzero = true -> t_total t = t_subtotal t).
Proof.
  intros inv x Hs Ht Hd Hfin Hnz.
  rewrite (compute_invoice_totals_eq inv x pzero pzero Hs
             (py_float_falsy _ Ht) (py_float_falsy _ Hd)).
  eexists. split; [reflexivity|]. cbn [t_discountAmount t_taxAmount t_total
                                      t_subtotal].
  destruct x as [[|]| | |[|] m e]; try discriminate; repeat split.
  intros H. discriminate H.
Qed.

Lemma totals_without_rates_witness :
  exists t,
    compute_invoice_totals
      [("lines", VList [VDict [("price", VFloat (dec "2.5"));
                               ("quantity", VInt 3)]])] = Ok t
    /\ t_total t = dec "7.5".
Proof.
  destruct (totals_without_rates
              [("lines", VList [VDict [("price", VFloat (dec "2.5"));
                                       ("quantity", VInt 3)]])]
              (dec "7.5") eq_refl eq_refl eq_refl eq_refl eq_refl)
    as (t & H1 & _ & _ & H4 & _).
  exists t. split; [exact H1|]. rewrite H4. reflexivity.
Defined.

(** ** Listings, newest first *)

Lemma string_compare_refl s : String.compare s s = Eq.
Proof.
  pose proof (String.compare_antisym s s) as H.
  destruct (String.compare s s); [reflexivity | discriminate | discriminate].
Qed.

Lemma string_compare_lt_trans a : forall b c,
  String.compare a b = Lt -> String.compare b c = Lt -> String.compare a c = Lt.
Proof.
  induction a as [|x a IH]; intros [|y b] [|z c]; cbn; try discriminate;
    try reflexivity.
  unfold Ascii.compare.
  destruct (N.compare_spec (N_of_ascii x) (N_of_ascii y)) as [Exy|Lxy|Gxy];
    try discriminate;
    destruct (N.compare_spec (N_of_ascii y) (N_of_ascii z)) as [Eyz|Lyz|Gyz];
    try discriminate; intros H1 H2.
  - rewrite Exy, Eyz, N.compare_refl. eapply IH; eauto.
  - replace (N_of_ascii x ?= N_of_ascii z)%N with Lt; [reflexivity|].
    symmetry. apply N.compare_lt_iff. lia.
  - replace (N_of_ascii x ?= N_of_ascii z)%N with Lt; [reflexivity|].
    symmetry. apply N.compare_lt_iff. lia.
  - replace (N_of_ascii x ?= N_of_ascii z)%N with Lt; [reflexivity|].
    symmetry. apply N.compare_lt_iff. lia.
Qed.

Lemma string_leb_trans a b c :
  String.leb a b = true -> String.leb b c = true -> String.leb a c = true.
Proof.
  unfold String.leb.
  destruct (String.compare a b) eqn:Eab; try discriminate;
    destruct (String.compare b c) eqn:Ebc; try discriminate; intros _ _.
  - apply String.compare_eq_iff in Eab, Ebc. subst.
    now rewrite string_compare_refl.
  - apply String.compare_eq_iff in Eab. subst. now rewrite Ebc.
  - apply String.compare_eq_iff in Ebc. subst. now rewrite Eab.
  - now rewrite (string_compare_lt_trans a b c Eab Ebc).
Qed.

Lemma string_ltb_leb a b : String.ltb a b = true -> String.leb a b = true.
Proof.
  unfold String.ltb, String.leb.
  destruct (String.compare a b); auto; discriminate.
Qed.

Lemma string_not_ltb_leb a b : String.ltb a b = false -> String.leb b a = true.
Proof.
  unfold String.ltb, String.leb. rewrite (String.compare_antisym b a).
  destruct (String.compare a b); auto; discriminate.
Qed.

Lemma string_ltb_neq a b : String.ltb a b = true -> String.eqb b a = false.
Proof.
  unfold String.ltb. intros H. apply String.eqb_neq. intros ->.
  rewrite string_compare_refl in H. discriminate.
Qed.

Lemma insert_desc_perm key x l : Permutation (insert_desc key x l) (x :: l).
Proof.
  induction l as [|y l IH]; cbn; [reflexivity|].
  destruct (String.ltb (key x) (key y)); [|reflexivity].
  rewrite IH. apply perm_swap.
Qed.

Lemma sort_desc_perm key l : Permutation (sort_desc key l) l.
Proof.
  induction l as [|x l IH]; cbn; [reflexivity|].
  rewrite insert_desc_perm. now constructor.
Qed.

Lemma insert_desc_sorted key x l :
  StronglySorted (not_older key) l ->
  StronglySorted (not_older key) (insert_desc key x l).
Proof.
  induction 1 as [|y l Hl IH Hy]; cbn.
  - constructor; constructor.
  - destruct (String.ltb (key x) (key y)) eqn:E.
    + constructor; [exact IH|].
      apply Forall_forall. intros z Hz.
      apply (Permutation_in _ (insert_desc_perm key x l)) in Hz.
      destruct Hz as [<- | Hz].
      * now apply string_ltb_leb.
      * rewrite Forall_forall in Hy. now apply Hy.
    + assert (Hxy : not_older key x y) by now apply string_not_ltb_leb.
      constructor; [now constructor|].
      constructor; [exact Hxy|].
      apply Forall_forall. intros z Hz. rewrite Forall_forall in Hy.
      unfold not_older in *. eapply string_leb_trans; [apply Hy|]; eauto.
Qed.

Lemma sort_desc_sorted key l : StronglySorted (not_older key) (sort_desc key l).
Proof.
  induction l as [|x l IH]; cbn; [constructor | now apply insert_desc_sorted].
Qed.

Lemma insert_desc_stable key k x l :
  filter (fun d => String.eqb (key d) k) (insert_desc key x l)
  = filter (fun d => String.eqb (key d) k) (x :: l).
Proof.
  induction l as [|y l IH]; [reflexivity|].
  cbn [insert_desc]. destruct (String.ltb (key x) (key y)) eqn:E;
    [|reflexivity].
  cbn [filter] in *. rewrite IH.
  destruct (String.eqb (key x) k) eqn:Ex; [|reflexivity].
  apply String.eqb_eq in Ex. subst k.
  now rewrite (string_ltb_neq _ _ E).
Qed.

Lemma sort_desc_stable key k l :
  filter (fun d => String.eqb (key d) k) (sort_desc key l)
  = filter (fun d => String.eqb (key d) k) l.
Proof.
  induction l as [|x l IH]; [reflexivity|].
  cbn [sort_desc fold_right]. rewrite insert_desc_stable.
  cbn [filter]. fold (sort_desc key l). now rewrite IH.
Qed.

Lemma invoices_json_all iso docs :
  (forall d, In d docs -> exists v, invoice_json iso d = Ok v) ->
  exists vs,
    invoices_json iso docs = Ok vs
    /\ Forall2 (fun d v => invoice_json iso d = Ok v) docs vs.
Proof.
  induction docs as [|d docs IH]; intros H.
  - exists []. split; [reflexivity | constructor].
  - destruct (H d (or_introl eq_refl)) as (v & Hv).
    destruct IH as (vs & Hvs & Hall); [intros; apply H; now right|].
    exists (v :: vs). cbn [invoices_json]. rewrite Hv, Hvs.
    split; [reflexivity|]. now constructor.
Qed.

Lemma invoices_json_raise iso docs d e :
  In d docs -> invoice_json iso d = Raise e ->
  exists e', invoices_json iso docs = Raise e'.
Proof.
  induction docs as [|d0 docs IH]; intros Hin He; [contradiction|].
  cbn [invoices_json]. destruct Hin as [-> | Hin].
  - rewrite He. cbn [rbind]. eauto.
  - destruct (invoice_json iso d0); cbn [rbind]; [|eauto].
    destruct (IH Hin He) as (e' & ->). cbn [rbind]. eauto.
Qed.

(** X21: when the totals of every stored invoice can be computed,
    [list_invoices] answers 200 with one entry per invoice, each the
    converted invoice with its totals, in an order in which no entry has a
    greater printedAt key than an entry before it and entries with equal
    keys keep their order of insertion; when the totals of one invoice
    raise, the whole listing fails. *)
Theorem list_invoices_newest_first :
  forall (py_str : value -> string) (iso : Z -> string) (st : store),
    ((forall d, In d st.(invoices_col) -> exists v, invoice_json iso d = Ok v) ->
     exists sorted vs,
       list_invoices py_str iso st = Resp 200 (BDoc (VList vs))
       /\ Forall2 (fun d v => invoice_json iso d = Ok v) sorted vs
       /\ Permutation sorted st.(invoices_col)
       /\ StronglySorted (not_older (printed_key py_str)) sorted
       /\ forall k,
            filter (fun d => String.eqb (printed_key py_str d) k) sorted
            = filter (fun d => String.eqb (printed_key py_str d) k)
                st.(invoices_col))
    /\ (forall d e,
          In d st.(invoices_col) -> invoice_json iso d = Raise e ->
          exists e', list_invoices py_str iso st = Uncaught e').
Proof.
  intros py_str iso st. split.
  - intros Hall.
    destruct (invoices_json_all iso
                (sort_desc (printed_key py_str) st.(invoices_col)))
      as (vs & Hvs & Hf).
    { intros d Hd. apply Hall.
      eapply Permutation_in; [apply sort_desc_perm | exact Hd]. }
    exists (sort_desc (printed_key py_str) st.(invoices_col)), vs.
    unfold list_invoices. rewrite Hvs.
    split; [reflexivity|]. split; [exact Hf|].
    split; [apply sort_desc_perm|]. split; [apply sort_desc_sorted|].
    intros k. apply sort_desc_stable.
  - intros d e Hin He. unfold list_invoices.
    destruct (invoices_json_raise iso
                (sort_desc (printed_key py_str) st.(invoices_col)) d e)
      as (e' & ->); eauto.
    eapply Permutation_in; [symmetry; apply sort_desc_perm | exact Hin].
Qed.

(** X22: GET /api/receipts answers 200 with every receipt once,
    converted, in an order in which no receipt has a greater key
    (receivedAt, else createdAt) than one before it and receipts with
    equal keys keep their order of insertion; GET and OPTIONS leave the
    store as it is, and OPTIONS answers 204. *)
Theorem receipts_route_newest_first :
  forall (py_str : value -> string) (iso : Z -> string) (ev : env)
         (data : dict) (st : store),
    (exists sorted,
        receipts_route py_str iso GET ev data st =
          (st, Resp 200 (BDoc (VList (map (fun d => Json.doc_to_dict iso (Some d))
                                        sorted))))
        /\ Permutation sorted st.(receipts_col)
        /\ StronglySorted (not_older (received_key py_str)) sorted
        /\ forall k,
             filter (fun d => String.eqb (received_key py_str d) k) sorted
             = filter (fun d => String.eqb (received_key py_str d) k)
                 st.(receipts_col))
    /\ receipts_route py_str iso OPTIONS ev data st
       = (st, Resp 204 (BDoc (VStr ""))).
Proof.
  intros py_str iso ev data st. split; [|reflexivity].
  exists (sort_desc (received_key py_str) st.(receipts_col)).
  split; [reflexivity|]. split; [apply sort_desc_perm|].
  split; [apply sort_desc_sorted | intros k; apply sort_desc_stable].
Qed.

Lemma list_invoices_newest_first_witness :
  exists sorted vs,
    list_invoices (fun _ => "") (fun _ => "") (mkStore [] [invoice100; invoice0] [])
      = Resp 200 (BDoc (VList vs))
    /\ Permutation sorted [invoice100; invoice0]
    /\ List.length vs = 2%nat.
Proof.
  destruct (list_invoices_newest_first (fun _ => "") (fun _ => "")
              (mkStore [] [invoice100; invoice0] [])) as [H _].
  destruct H as (sorted & vs & H1 & H2 & H3 & _).
  - intros d [<- | [<- | []]]; eexists; vm_compute; reflexivity.
  - exists sorted, vs. split; [exact H1|]. split; [exact H3|].
    apply Forall2_length in H2. apply Permutation_length in H3.
    cbn in H3. lia.
Defined.

(** ** Invoices: reading back *)

Lemma has_id_get oid d : has_id oid d = true -> dict_get "_id" d = VOid oid.
Proof.
  unfold has_id. destruct (dict_get "_id" d); try discriminate.
  intros H. apply N.eqb_eq in H. now subst.
Qed.

(** What [invoice_json] makes of a stored invoice whose totals compute. *)
Lemma invoice_json_stored iso doc o t :
  dict_get "_id" doc = VOid o ->
  compute_invoice_totals doc = Ok t ->
  exists raw,
    invoice_json iso doc = Ok (VDict raw)
    /\ dict_get "totals" raw = totals_value t
    /\ dict_get "id" raw = VStr (Json.str_oid o)
    /\ dict_mem "_id" raw = false
    /\ forall k, k <> "_id" -> k <> "id" -> k <> "totals" ->
                 dict_get k raw = Json._to_jsonable iso (dict_get k doc).
Proof.
  intros Hid Ht.
  destruct (doc_to_dict_stored iso doc o Hid) as (raw & Hr & Hm & Hi & Hk).
  exists (dict_set "totals" (totals_value t) raw).
  unfold invoice_json. rewrite Ht, Hr. cbn [rbind].
  split; [reflexivity|]. split; [apply dict_get_set_eq|].
  split; [rewrite dict_get_set_neq by discriminate; exact Hi|].
  split; [rewrite dict_mem_set, Hm; reflexivity|].
  intros k H1 H2 H3. rewrite dict_get_set_neq by assumption. now apply Hk.
Qed.

(** X23: an invoice created from a well-formed request that the store
    can encode (and, when it asks for the stock change, when every
    quantity the stock is set to fits in eight bytes) is read back by
    [get_invoice] under the id it was given: the answer carries the same
    totals [create_invoice] returned, the id as a string, the number as
    submitted and printedAt as an ISO string. *)
Theorem create_invoice_then_get_invoice :
  forall (iso : Z -> string) (ev : env) (data : dict) (st : store)
         (ls : list value),
    truthy (dict_get "number" data) = true ->
    dict_get "lines" data = VList ls ->
    ls <> [] ->
    invoice_input_ok data = true ->
    bson_error (VDict data) = None ->
    (truthy (dict_get "applyStockChange" data) = true ->
     stock_change_fits ls st.(items_col)) ->
    find_one ev.(new_id) st.(invoices_col) = None ->
    (ev.(new_id) < 2 ^ 96)%N ->
    exists inv totals raw,
      snd (create_invoice ev data st) = Resp 201 (BInvoice inv totals)
      /\ get_invoice iso (Json.str_oid ev.(new_id)) (fst (create_invoice ev data st))
         = Resp 200 (BDoc (VDict raw))
      /\ dict_get "totals" raw = totals_value totals
      /\ dict_get "id" raw = VStr (Json.str_oid ev.(new_id))
      /\ dict_get "number" raw = Json._to_jsonable iso (dict_get "number" data)
      /\ dict_get "printedAt" raw
         = VStr (iso (printed_at_of ev (dict_get "printedAt" data))).
Proof.
  intros iso ev data st ls Hnum Hlines Hne Hok Henc Hitems Hfresh Hsmall.
  destruct (create_invoice_ok ev data st ls Hnum Hlines Hne Hok Henc Hitems)
    as (tax & disc & ns & totals & _ & Hrun & Htot).
  set (inv := dict_set "_id" (VOid ev.(new_id))
                (invoice_doc data (printed_at_of ev (dict_get "printedAt" data))
                   tax disc ns)) in *.
  assert (Hid : dict_get "_id" inv = VOid ev.(new_id)) by reflexivity.
  destruct (invoice_json_stored iso inv _ totals Hid Htot)
    as (raw & Hjson & Htotals & Hrawid & _ & Hk).
  exists inv, totals, raw. rewrite Hrun. cbn [fst snd].
  split; [reflexivity|]. split.
  - unfold get_invoice. rewrite (str_oid_parses _ Hsmall). cbn [invoices_col].
    rewrite (find_one_app_none _ _ _ Hfresh).
    unfold find_one. cbn [find]. unfold has_id. rewrite Hid, N.eqb_refl.
    now rewrite Hjson.
  - split; [exact Htotals|]. split; [exact Hrawid|].
    rewrite !Hk by discriminate. split; reflexivity.
Qed.

Lemma create_invoice_then_get_invoice_witness :
  let data :=
    [("number", VStr "INV-1");
     ("lines", VList [VDict [("price", VInt 3); ("quantity", VInt 2)]])] in
  exists inv totals raw,
    snd (create_invoice ev0 data shop) = Resp 201 (BInvoice inv totals)
    /\ get_invoice (fun _ => "") (Json.str_oid 99%N)
         (fst (create_invoice ev0 data shop))
       = Resp 200 (BDoc (VDict raw))
    /\ dict_get "totals" raw = totals_value totals.
Proof.
  intros data.
  destruct (create_invoice_then_get_invoice (fun _ => "") ev0 data shop
              [VDict [("price", VInt 3); ("quantity", VInt 2)]])
    as (inv & totals & raw & H1 & H2 & H3 & _);
    [ reflexivity | reflexivity | discriminate | reflexivity | reflexivity
    | discriminate | reflexivity | reflexivity | ].
  exists inv, totals, raw. auto.
Defined.

(** X30: without a number, or without lines, [create_invoice] answers
    400 and the store is the one the call started from; with both, on a
    well-formed request that the store can encode (and, when it asks for
    the stock change, when every quantity the stock is set to fits in
    eight bytes), the invoice is appended to the invoices and returned
    with the totals computed from it. *)
Theorem create_invoice_requires_number_and_lines :
  forall (ev : env) (data : dict) (st : store),
    (truthy (dict_get "number" data) = false
     \/ truthy (dict_get "lines" data) = false ->
     create_invoice ev data st
       = (st, Resp 400 (BError "number and lines are required"))
     /\ error_of (snd (create_invoice ev data st)) = Some InvalidArgument)
    /\ (forall ls : list value,
          truthy (dict_get "number" data) = true ->
          dict_get "lines" data = VList ls ->
          ls <> [] ->
          invoice_input_ok data = true ->
          bson_error (VDict data) = None ->
          (truthy (dict_get "applyStockChange" data) = true ->
           stock_change_fits ls st.(items_col)) ->
          exists inv totals,
            snd (create_invoice ev data st) = Resp 201 (BInvoice inv totals)
            /\ invoices_col (fst (create_invoice ev data st))
                 = invoices_col st ++ [inv]
            /\ dict_get "number" inv = dict_get "number" data
            /\ compute_invoice_totals inv = Ok totals).
Proof.
  intros ev data st. split.
  - intros H.
    assert (E : create_invoice ev data st
                = (st, Resp 400 (BError "number and lines are required"))).
    { unfold create_invoice. rewrite truthy_por_list.
      destruct H as [-> | ->]; [reflexivity|].
      now rewrite orb_true_r. }
    rewrite E. auto.
  - intros ls Hnum Hlines Hne Hok Henc Hitems.
    destruct (create_invoice_ok ev data st ls Hnum Hlines Hne Hok Henc Hitems)
      as (tax & disc & ns & totals & Hns & Hrun & Htot).
    rewrite Hrun. cbn [fst snd invoices_col]. eexists. exists totals.
    split; [reflexivity|]. split; [reflexivity|].
    split; [reflexivity | exact Htot].
Qed.

Lemma create_invoice_requires_number_and_lines_witness :
  (create_invoice ev0 [("number", VStr ""); ("lines", VList [VDict []])] shop
     = (shop, Resp 400 (BError "number and lines are required")))
  /\ (exists inv totals,
        snd (create_invoice ev0
               [("number", VStr "INV-1");
                ("lines", VList [VDict [("price", VInt 3); ("quantity", VInt 2)]])]
               shop) = Resp 201 (BInvoice inv totals)
        /\ invoices_col
             (fst (create_invoice ev0
                     [("number", VStr "INV-1");
                      ("lines",
                       VList [VDict [("price", VInt 3); ("quantity", VInt 2)]])]
                     shop)) = [inv]).
Proof.
  split.
  - destruct (create_invoice_requires_number_and_lines ev0
                [("number", VStr ""); ("lines", VList [VDict []])] shop)
      as [H _].
    apply H. left. reflexivity.
  - destruct (create_invoice_requires_number_and_lines ev0
                [("number", VStr "INV-1");
                 ("lines", VList [VDict [("price", VInt 3); ("quantity", VInt 2)]])]
                shop) as [_ H].
    destruct (H [VDict [("price", VInt 3); ("quantity", VInt 2)]])
      as (inv & totals & Hr & Hi & _);
      [ reflexivity | reflexivity | discriminate | reflexivity | reflexivity
      | discriminate | ].
    exists inv, totals. auto.
Defined.

(** X24: after [update_invoice] has answered 200 with an invoice and its
    totals, [get_invoice] on the same id answers with the same totals and
    the converted fields of that invoice: totals are recomputed from what
    is stored, never kept from before the update. *)
Theorem update_invoice_then_get_invoice :
  forall (iso : Z -> string) (invoice_id : string) (data : dict) (st : store)
         (doc : dict) (t : Totals),
    snd (update_invoice invoice_id data st) = Resp 200 (BInvoice doc t) ->
    exists raw,
      get_invoice iso invoice_id (fst (update_invoice invoice_id data st))
        = Resp 200 (BDoc (VDict raw))
      /\ compute_invoice_totals doc = Ok t
      /\ dict_get "totals" raw = totals_value t
      /\ forall k, k <> "_id" -> k <> "id" -> k <> "totals" ->
                   dict_get k raw = Json._to_jsonable iso (dict_get k doc).
Proof.
  intros iso invoice_id data st doc t. unfold update_invoice, get_invoice.
  destruct (ObjectId_of (VStr invoice_id)) as [oid|]; [|discriminate].
  destruct (invoice_update_fields data) as [u|]; [|discriminate].
  destruct (negb (truthy (VDict u))); [discriminate|].
  destruct (find_one oid (invoices_col st)) as [d0|]; [|discriminate].
  destruct (update_one oid u (invoices_col st)) as [invoices1|] eqn:Eu;
    [|discriminate].
  apply update_one_inv in Eu. subst invoices1.
  cbn [invoices_col set_invoices].
  destruct (find_one oid (set_fields oid u (invoices_col st))) as [d1|] eqn:Ef;
    [|discriminate].
  destruct (compute_invoice_totals d1) as [t1|] eqn:Et; [|discriminate].
  cbn [fst snd invoices_col set_invoices]. intros [= -> ->].
  rewrite Ef.
  assert (Hid : dict_get "_id" doc = VOid oid).
  { apply has_id_get. eapply find_one_has_id; eauto. }
  destruct (invoice_json_stored iso doc oid t Hid Et)
    as (raw & Hjson & Htotals & _ & _ & Hk).
  exists raw. rewrite Hjson. auto.
Qed.

Lemma update_invoice_then_get_invoice_witness :
  exists raw t,
    get_invoice (fun _ => "") "000000000000000000000003"
      (fst (update_invoice "000000000000000000000003" [("taxRate", VInt 0)]
              (mkStore [] [invoice100] [])))
    = Resp 200 (BDoc (VDict raw))
    /\ dict_get "totals" raw = totals_value t
    /\ t_total t = dec "90".
Proof.
  destruct (update_invoice_then_get_invoice (fun _ => "")
              "000000000000000000000003" [("taxRate", VInt 0)]
              (mkStore [] [invoice100] [])
              _ _ eq_refl) as (raw & H1 & _ & H3 & _).
  eexists raw, _. split; [exact H1|]. split; [exact H3 | reflexivity].
Defined.

(** ** Users *)


Lemma por_str_nonempty s d : s <> "" -> por (VStr s) d = VStr s.
Proof. intros H. unfold por. now rewrite (truthy_str_nonempty _ H). Qed.






Lemma plain_hasher_sound : hasher_sound plain_hasher.
Proof. intros salt p hash. cbn. intros [= <-]. now rewrite String.eqb_refl. Qed.




Lemma drop_hash_no_hash u v :
  drop_hash u = Ok v ->
  exists raw, v = VDict raw /\ dict_mem "passwordHash" raw = false.
Proof.
  destruct u; try discriminate. cbn. intros [= <-].
  eexists. split; [reflexivity|].
  destruct (dict_mem "passwordHash" d) eqn:E; [apply dict_mem_del | exact E].
Qed.

Lemma public_users_no_hash iso users : forall l,
  public_users iso users = Ok l ->
  List.length l = List.length users
  /\ Forall (fun v => exists raw,
                 v = VDict raw /\ dict_mem "passwordHash" raw = false) l.
Proof.
  induction users as [|d users IH]; intros l H.
  - injection H as <-. split; [reflexivity | constructor].
  - cbn [public_users] in H.
    destruct (drop_hash (Json.doc_to_dict iso (Some d))) as [u|] eqn:Eu;
      [|discriminate].
    cbn [rbind] in H.
    destruct (public_users iso users) as [us|]; [|discriminate].
    injection H as <-. destruct (IH us eq_refl) as [Hlen Hall].
    split; [cbn; now rewrite Hlen|].
    constructor; [now apply drop_hash_no_hash with (u := Json.doc_to_dict iso (Some d)) | exact Hall].
Qed.

(** X26: no answer of [list_users] or [create_user] carries a
    passwordHash: whenever [list_users] answers 200 the body lists one
    object per stored user, none with that key, and whenever
    [create_user] answers 201 the body is an object without it. *)
Theorem users_never_expose_hash :
  forall (h : hasher) (salt : string) (iso : Z -> string) (ev : env)
         (data : dict) (users : list dict),
    (forall b,
        list_users iso users = Resp 200 b ->
        exists l,
          b = BDoc (VList l)
          /\ List.length l = List.length users
          /\ Forall (fun v => exists raw,
                         v = VDict raw /\ dict_mem "passwordHash" raw = false) l)
    /\ (forall b,
          snd (create_user h salt iso ev data users) = Resp 201 b ->
          exists raw, b = BDoc (VDict raw) /\ dict_mem "passwordHash" raw = false).
Proof.
  intros h salt iso ev data users. split.
  - intros b. unfold list_users.
    destruct (public_users iso users) as [l|] eqn:E; [|discriminate].
    intros [= <-]. exists l. split; [reflexivity|].
    exact (public_users_no_hash iso users l E).
  - intros b. unfold create_user.
    destruct (py_strip _) as [username|]; [|discriminate].
    destruct (negb (truthy (VStr username)) || _); [discriminate|].
    destruct (negb (role_ok _)); [discriminate|].
    destruct (find_user username users); [discriminate|].
    destruct (generate_password_hash h salt _) as [hash|]; [|discriminate].
    destruct (insert_one _ _ _) as [users1|]; [|discriminate].
    destruct (drop_hash _) as [u|] eqn:Eu; [|discriminate].
    cbn [snd]. intros [= <-].
    destruct (drop_hash_no_hash _ _ Eu) as (raw & -> & Hm). eauto.
Qed.

Lemma users_never_expose_hash_witness :
  exists l,
    list_users (fun _ => "")
      [[("_id", VOid 1%N); ("username", VStr "admin");
        ("passwordHash", VStr "secret"); ("role", VStr "admin")]]
    = Resp 200 (BDoc (VList l))
    /\ Forall (fun v => exists raw,
                   v = VDict raw /\ dict_mem "passwordHash" raw = false) l.
Proof.
  destruct (users_never_expose_hash plain_hasher "" (fun _ => "") ev0 []
              [[("_id", VOid 1%N); ("username", VStr "admin");
                ("passwordHash", VStr "secret"); ("role", VStr "admin")]])
    as [H _].
  destruct (H _ eq_refl) as (l & Hb & _ & Hall).
  exists l. split; [|exact Hall]. cbn in Hb |- *. now injection Hb as <-.
Defined.

Lemma find_user_none_notin n users :
  find_user n users = None -> ~ In (VStr n) (usernames users).
Proof.
  unfold find_user, usernames.
  induction users as [|d users IH]; cbn; [tauto|].
  destruct (has_username n d) eqn:E; [discriminate|].
  intros H [Hd | Hin]; [|now apply IH].
  unfold has_username in E. rewrite Hd, String.eqb_refl in E. discriminate.
Qed.

Lemma usernames_update_hash oid v users :
  usernames (set_fields oid [("passwordHash", v)] users) = usernames users.
Proof.
  unfold usernames.
  induction users as [|d users IH]; cbn [set_fields map]; [reflexivity|].
  destruct (has_id oid d); cbn [map]; [|now rewrite IH].
  f_equal. apply dict_get_update_notin. reflexivity.
Qed.

(** X27: [create_user] keeps the stored usernames distinct: it adds a
    user only under a name no stored user has, so if no two users share a
    name before the call, none do after it, whatever the request; and
    [change_user_password] leaves every username as it is. *)
Theorem usernames_stay_distinct :
  forall (h : hasher) (salt : string) (iso : Z -> string) (ev : env)
         (id : string) (data : dict) (users : list dict),
    (NoDup (usernames users) ->
     NoDup (usernames (fst (create_user h salt iso ev data users))))
    /\ usernames (fst (change_user_password h salt id data users))
       = usernames users.
Proof.
  intros h salt iso ev id data users. split.
  - intros Hnd. unfold create_user.
    destruct (py_strip _) as [username|]; [|exact Hnd].
    destruct (negb (truthy (VStr username)) || _); [exact Hnd|].
    destruct (negb (role_ok _)); [exact Hnd|].
    destruct (find_user username users) eqn:Ef; [exact Hnd|].
    destruct (generate_password_hash h salt _) as [hash|]; [|exact Hnd].
    destruct (insert_one _ _ users) as [users1|] eqn:Ei; [|exact Hnd].
    apply insert_one_inv in Ei. subst users1.
    assert (G : NoDup (usernames
                         (users ++
                          [dict_set "_id" (VOid ev.(new_id))
                             [ ("username", VStr username);
                               ("passwordHash", VStr hash);
                               ("role", por (dict_get "role" data) (VStr "saler"));
                               ("createdAt", VDate ev.(utcnow)) ]]))).
    { unfold usernames. rewrite map_app. cbn [map].
      change (dict_get "username" (dict_set "_id" _ _)) with (VStr username).
      apply NoDup_app; [exact Hnd | constructor; [intros []|constructor] |].
      intros x Hx [<- | []]. now apply (find_user_none_notin _ _ Ef). }
    destruct (drop_hash _); exact G.
  - unfold change_user_password.
    destruct (ObjectId_of (VStr id)) as [oid|]; [|reflexivity].
    destruct (negb (truthy _)); [reflexivity|].
    destruct (generate_password_hash h salt _) as [hash|]; [|reflexivity].
    destruct (find_one oid users); [|reflexivity].
    destruct (update_one oid _ users) as [users1|] eqn:Eu; [|reflexivity].
    apply update_one_inv in Eu. subst users1.
    apply usernames_update_hash.
Qed.

Lemma usernames_stay_distinct_witness :
  NoDup (usernames
           (fst (create_user plain_hasher "" (fun _ => "") ev0
                   [("username", VStr "admin"); ("password", VStr "x")]
                   [[("_id", VOid 1%N); ("username", VStr "admin")]]))).
Proof.
  apply (usernames_stay_distinct plain_hasher "" (fun _ => "") ev0 "" _
           [[("_id", VOid 1%N); ("username", VStr "admin")]]).
  constructor; [intros [] | constructor].
Defined.

Lemma has_username_update_hash n v d :
  has_username n (dict_update [("passwordHash", v)] d) = has_username n d.
Proof.
  unfold has_username. now rewrite dict_get_update_notin by reflexivity.
Qed.

Lemma find_user_update_hash oid n v users user :
  find_one oid users = Some user ->
  find_user n users = Some user ->
  find_user n (set_fields oid [("passwordHash", v)] users)
  = Some (dict_update [("passwordHash", v)] user).
Proof.
  unfold find_one, find_user.
  induction users as [|d users IH]; cbn [set_fields find]; [discriminate|].
  destruct (has_id oid d) eqn:Ei; destruct (has_username n d) eqn:Eu;
    cbn [find].
  - intros [= ->] _. now rewrite has_username_update_hash, Eu.
  - intros [= ->] H. apply find_some in H. destruct H as [_ H]. congruence.
  - intros H [= ->]. apply find_some in H. destruct H as [_ H]. congruence.
  - rewrite Eu. exact IH.
Qed.

(** X28: after [change_user_password] has stored a new password for a
    user, that user logs in with the new password and is answered the
    same name and role as before; every other user is left as it was. *)
Theorem change_password_then_login :
  forall (h : hasher) (salt : string) (user_id : string) (oid : ObjectId)
         (data data2 : dict) (users : list dict) (user : dict)
         (username p hash : string),
    hasher_sound h ->
    ObjectId_of (VStr user_id) = Ok oid ->
    find_one oid users = Some user ->
    find_user username users = Some user ->
    username <> "" ->
    dict_get "password" data = VStr p ->
    p <> "" ->
    h.(generate_password_hash) salt (VStr p) = Ok hash ->
    py_strip (por (dict_get "username" data2) (VStr "")) = Ok username ->
    dict_get "password" data2 = VStr p ->
    snd (change_user_password h salt user_id data users)
      = Resp 200 (BDoc (VDict [("status", VStr "ok")]))
    /\ login h data2 (fst (change_user_password h salt user_id data users))
       = Resp 200
           (BDoc (VDict [ ("username", dict_get "username" user);
                          ("role", dict_get_default "role" (VStr "saler") user) ]))
    /\ forall oid', oid' <> oid ->
         find_one oid' (fst (change_user_password h salt user_id data users))
         = find_one oid' users.
Proof.
  intros h salt user_id oid data data2 users user username p hash
         Hsound Hid Hfind Hfu Hne Hp Hpne Hhash Hname2 Hp2.
  unfold change_user_password.
  rewrite Hid, Hp, (por_str_nonempty p _ Hpne), (truthy_str_nonempty _ Hpne),
    Hhash, Hfind.
  rewrite (update_one_ok _ _ _ user Hfind) by reflexivity.
  cbn [negb fst snd]. cbv iota. split; [reflexivity|]. split.
  - unfold login.
    rewrite Hname2, Hp2, (por_str_nonempty p _ Hpne),
      (truthy_str_nonempty _ Hne), (truthy_str_nonempty _ Hpne).
    cbn [negb orb]. cbv iota.
    rewrite (find_user_update_hash oid username _ users user Hfind Hfu).
    assert (Hh : dict_get_default "passwordHash" (VStr "")
                   (dict_update [("passwordHash", VStr hash)] user)
                 = VStr hash).
    { unfold dict_get_default, dict_update. cbn [fold_left fst snd].
      rewrite dict_mem_set, String.eqb_refl. cbn [orb].
      apply dict_get_set_eq. }
    rewrite Hh, (Hsound salt p hash Hhash).
    unfold dict_get_default, dict_update. cbn [fold_left fst snd].
    rewrite dict_mem_set. cbn [String.eqb Ascii.eqb Bool.eqb orb].
    rewrite !dict_get_set_neq by discriminate. reflexivity.
  - intros oid' Hne'. now apply find_one_update_other.
Qed.

Lemma change_password_then_login_witness :
  let users := [[("_id", VOid 1%N); ("username", VStr "admin");
                 ("passwordHash", VStr "old"); ("role", VStr "admin")]] in
  login plain_hasher [("username", VStr "admin"); ("password", VStr "new")]
    (fst (change_user_password plain_hasher "" "000000000000000000000001"
            [("password", VStr "new")] users))
  = Resp 200 (BDoc (VDict [("username", VStr "admin"); ("role", VStr "admin")])).
Proof.
  intros users.
  destruct (change_password_then_login plain_hasher ""
              "000000000000000000000001" 1%N [("password", VStr "new")]
              [("username", VStr "admin"); ("password", VStr "new")]
              users
              [("_id", VOid 1%N); ("username", VStr "admin");
               ("passwordHash", VStr "old"); ("role", VStr "admin")]
              "admin" "new" "new" plain_hasher_sound eq_refl eq_refl eq_refl
              ltac:(discriminate) eq_refl ltac:(discriminate) eq_refl eq_refl
              eq_refl)
    as (_ & H & _).
  exact H.
Defined.

(** X29: [seed_users_if_empty] leaves a non-empty user collection alone;
    on an empty one, with a hash function whose hashes check against their
    password, it stores a user that logs in as admin with the password
    admin123 and the role admin. *)
Theorem seed_users_default_admin :
  forall (h : hasher) (salt : string) (ev : env) (users : list dict),
    (users <> [] -> seed_users_if_empty h salt ev users = Ok users)
    /\ (forall hash,
          hasher_sound h ->
          users = [] ->
          h.(generate_password_hash) salt (VStr "admin123") = Ok hash ->
          exists users',
            seed_users_if_empty h salt ev users = Ok users'
            /\ List.length users' = 1%nat
            /\ login h [("username", VStr "admin"); ("password", VStr "admin123")]
                 users'
               = Resp 200 (BDoc (VDict [ ("username", VStr "admin");
                                         ("role", VStr "admin") ]))).
Proof.
  intros h salt ev users. split.
  - destruct users; [contradiction | reflexivity].
  - intros hash Hsound -> Hhash. unfold seed_users_if_empty. rewrite Hhash.
    eexists. split; [reflexivity|]. split; [reflexivity|].
    unfold login. cbn -[check_password_hash].
    rewrite (Hsound salt "admin123" hash Hhash). reflexivity.
Qed.

Lemma seed_users_default_admin_witness :
  exists users',
    seed_users_if_empty plain_hasher "" ev0 [] = Ok users'
    /\ login plain_hasher
         [("username", VStr "admin"); ("password", VStr "admin123")] users'
       = Resp 200 (BDoc (VDict [("username", VStr "admin");
                                ("role", VStr "admin")])).
Proof.
  destruct (seed_users_default_admin plain_hasher "" ev0 []) as [_ H].
  destruct (H "admin123" plain_hasher_sound eq_refl eq_refl)
    as (users' & H1 & _ & H3).
  exists users'. auto.
Defined.
